(** * Messaging service: orchestration core

    A shallow embedding of the Go packages [internal/service] and
    [internal/domain] (with the postgres repositories they are wired to), and
    the properties of the contact normalizer, the retry engine, the timestamp
    policy, the webhook ingestion path and the conversation query service.

    Conventions.  Go [string]s are byte strings ([string] of [ascii]); Go
    [int], [int64] and [time.Duration] are 64-bit two's complement integers,
    modelled in [Z] with the wrap-around written out ([wrap64]); an [error]
    result is an [option error] ([None] is Go's [nil]). *)

From Stdlib Require Import ZArith List String Ascii Bool Lia Arith.
Import ListNotations.

Local Open Scope string_scope.

(** ** The fragment of Go's [strings] and [sort] packages used by the service *)

Module GoStrings.

(** [s < t] on Go strings: bytewise lexicographic order. *)
Definition lt (s t : string) : bool := String.ltb s t.

(** [strings.Contains(s, substr)]. *)
Fixpoint Contains (s substr : string) : bool :=
  String.prefix substr s
  || match s with
     | EmptyString => false
     | String _ s' => Contains s' substr
     end.

(** [strings.ReplaceAll(s, old, new)] for a non-empty [old]: the
    non-overlapping occurrences of [old] are replaced from left to right.
    [skip] counts the bytes of an occurrence that are still to be dropped. *)
Fixpoint replaceFrom (skip : nat) (s old new : string) : string :=
  match s with
  | EmptyString => EmptyString
  | String c s' =>
      match skip with
      | S k => replaceFrom k s' old new
      | O =>
          if String.prefix old s
          then new ++ replaceFrom (String.length old - 1) s' old new
          else String c (replaceFrom 0 s' old new)
      end
  end.

(** With an empty [old] Go inserts [new] before every rune and at the end;
    the service never does that, the case is kept for bytes. *)
Fixpoint intersperse (s new : string) : string :=
  match s with
  | EmptyString => new
  | String c s' => new ++ String c (intersperse s' new)
  end.

Definition ReplaceAll (s old new : string) : string :=
  match old with
  | EmptyString => intersperse s new
  | String _ _ => replaceFrom 0 s old new
  end.

(** [sort.Strings]: for the short slices sorted here Go runs an insertion
    sort, moving each element left while it is smaller than its
    predecessor. *)
Fixpoint insert (x : string) (l : list string) : list string :=
  match l with
  | [] => [x]
  | y :: l' => if lt x y then x :: y :: l' else y :: insert x l'
  end.

Definition Strings (l : list string) : list string :=
  fold_left (fun acc x => insert x acc) l [].

(** Removing every occurrence of one byte. *)
Fixpoint remove (c : ascii) (s : string) : string :=
  match s with
  | EmptyString => EmptyString
  | String d s' => if Ascii.eqb d c then remove c s' else String d (remove c s')
  end.

(** A byte occurs in a string. *)
Fixpoint occurs (c : ascii) (s : string) : bool :=
  match s with
  | EmptyString => false
  | String d s' => Ascii.eqb d c || occurs c s'
  end.

(** *** White space, as [strings.TrimSpace] sees it

    [unicode.IsSpace] holds of the ASCII bytes 9..13 and 32 and of the runes
    U+0085, U+00A0, U+1680, U+2000..U+200A, U+2028, U+2029, U+202F, U+205F
    and U+3000, which arrive UTF-8 encoded. [spaceLen s] is the length in
    bytes of the white-space rune [s] starts with, or 0. *)
Definition byte (s : string) (i : nat) : N :=
  match String.get i s with
  | Some c => N_of_ascii c
  | None => 256%N
  end.

Definition spaceLen (s : string) : nat :=
  let b0 := byte s 0 in
  let b1 := byte s 1 in
  let b2 := byte s 2 in
  if ((9 <=? b0) && (b0 <=? 13) || (b0 =? 32))%N then 1
  else if ((b0 =? 194) && ((b1 =? 133) || (b1 =? 160)))%N then 2
  else if ((b0 =? 225) && (b1 =? 154) && (b2 =? 128))%N then 3
  else if ((b0 =? 226) && (b1 =? 128)
           && ((128 <=? b2) && (b2 <=? 138) || (b2 =? 168) || (b2 =? 169)
               || (b2 =? 175)))%N then 3
  else if ((b0 =? 226) && (b1 =? 129) && (b2 =? 159))%N then 3
  else if ((b0 =? 227) && (b1 =? 128) && (b2 =? 128))%N then 3
  else 0.

Fixpoint drop (n : nat) (s : string) : string :=
  match n, s with
  | S k, String _ s' => drop k s'
  | _, _ => s
  end.

(** Leading white space is dropped rune by rune; [fuel] bounds the number of
    runes by the length of the string. *)
Fixpoint trimLeft (fuel : nat) (s : string) : string :=
  match fuel with
  | O => s
  | S k =>
      match spaceLen s with
      | O => s
      | n => trimLeft k (drop n s)
      end
  end.

(** The last rune of [s] is white space: its encoding is a suffix of [s]. *)
Definition lastSpaceLen (s : string) : nat :=
  let n := String.length s in
  if (1 <=? n)%nat && (spaceLen (drop (n - 1) s) =? 1)%nat then 1
  else if (2 <=? n)%nat && (spaceLen (drop (n - 2) s) =? 2)%nat then 2
  else if (3 <=? n)%nat && (spaceLen (drop (n - 3) s) =? 3)%nat then 3
  else 0.

Fixpoint trimRight (fuel : nat) (s : string) : string :=
  match fuel with
  | O => s
  | S k =>
      match lastSpaceLen s with
      | O => s
      | n => trimRight k (String.substring 0 (String.length s - n) s)
      end
  end.

(** [strings.TrimSpace(s)]. *)
Definition TrimSpace (s : string) : string :=
  let l := trimLeft (String.length s) s in
  trimRight (String.length l) l.

End GoStrings.

(** ** Contact normalization *)

(** [messagingService.normalizeContacts] (messaging_service.go): the
    normalizer [createMessageRecord] runs before get-or-create. *)
Module MessagingNormalizer.
Import GoStrings.

Definition normalizeContacts (customerContact businessContact : string)
  : string * string :=
  if Contains customerContact "@" && Contains businessContact "@" then
    let contacts := Strings [customerContact; businessContact] in
    (nth 0 contacts "", nth 1 contacts "")
  else
    let cleanCustomer := ReplaceAll customerContact "-" "" in
    let cleanBusiness := ReplaceAll businessContact "-" "" in
    if lt cleanCustomer cleanBusiness
    then (customerContact, businessContact)
    else (businessContact, customerContact).

End MessagingNormalizer.

(** [conversationService.normalizeContacts] (conversation_service.go). *)
Module ConversationNormalizer.
Import GoStrings.

Definition normalizeContacts (customerContact businessContact : string)
  : string * string :=
  let customer := ReplaceAll customerContact "-" "" in
  let customer := ReplaceAll customer " " "" in
  let customer := ReplaceAll customer "(" "" in
  let customer := ReplaceAll customer ")" "" in
  let business := ReplaceAll businessContact "-" "" in
  let business := ReplaceAll business " " "" in
  let business := ReplaceAll business "(" "" in
  let business := ReplaceAll business ")" "" in
  if Contains customer "@" && Contains business "@" then
    if lt customer business then (customer, business)
    else (business, customer)
  else
    if lt customer business then (customer, business)
    else (business, customer).

End ConversationNormalizer.

(** The normalizer as the specification words it: strip the four formatting
    characters; two email-like addresses come back sorted; otherwise the
    original addresses come back in the ascending order of their stripped
    forms. *)
Module NormalizerSpec.
Import GoStrings.

Definition strip (s : string) : string :=
  remove ")" (remove "(" (remove " " (remove "-" s))).

Definition le (s t : string) : Prop := lt t s = false.

Definition ordered_by (key : string -> string) (a b : string)
           (r : string * string) : Prop :=
  (r = (a, b) /\ le (key a) (key b)) \/ (r = (b, a) /\ le (key b) (key a)).

Definition normalized (a b : string) (r : string * string) : Prop :=
  if Contains (strip a) "@" && Contains (strip b) "@"
  then ordered_by (fun s => s) a b r
  else ordered_by strip a b r.

(** No formatting character occurs in [s]. *)
Definition plain (s : string) : Prop :=
  occurs "-" s = false /\ occurs " " s = false
  /\ occurs "(" s = false /\ occurs ")" s = false.

End NormalizerSpec.

(** ** Machine integers *)

Local Open Scope Z_scope.

(** Go's [int], [int64] and [time.Duration] on the 64-bit targets the service
    is built for: arithmetic wraps around. *)
Definition minInt64 : Z := - 2 ^ 63.
Definition maxInt64 : Z := 2 ^ 63 - 1.

Definition wrap64 (z : Z) : Z := (z + 2 ^ 63) mod 2 ^ 64 - 2 ^ 63.

Definition inInt64 (z : Z) : Prop := minInt64 <= z <= maxInt64.

(** ** The fragment of Go's [time] package used by the service *)

Module GoTime.

(** [time.Duration]: a count of nanoseconds. *)
Definition Duration := Z.

Definition Nanosecond : Duration := 1.
Definition Millisecond : Duration := 1000000.
Definition Second : Duration := 1000000000.
Definition Minute : Duration := 60 * Second.

(** [*time.Location].  The service only asks whether a location is
    [time.UTC]; every other location is a zone with its offset in seconds
    east of UTC. *)
Inductive Location : Type :=
| UTC
| FixedZone (name : string) (offset : Z).

Definition Location_eqb (l m : Location) : bool :=
  match l, m with
  | UTC, UTC => true
  | FixedZone n o, FixedZone n' o' => String.eqb n n' && (o =? o')
  | _, _ => false
  end.

Definition zoneOffset (l : Location) : Z :=
  match l with
  | UTC => 0
  | FixedZone _ o => o
  end.

(** [time.Time] without a monotonic reading: an instant, as the seconds
    elapsed since January 1, year 1, 00:00:00 UTC and the nanoseconds within
    that second, and the location it is displayed in. *)
Record Time : Type := mkTime { sec : Z; nsec : Z; loc : Location }.

Definition wellFormed (t : Time) : Prop := 0 <= nsec t < 1000000000.

(** The instant in nanoseconds since January 1, year 1 UTC. *)
Definition instant (t : Time) : Z := sec t * 1000000000 + nsec t.

(** The zero value [time.Time{}]. *)
Definition zero : Time := mkTime 0 0 UTC.

Definition Time_Location (t : Time) : Location := loc t.
Definition Time_UTC (t : Time) : Time := mkTime (sec t) (nsec t) UTC.
Definition IsZero (t : Time) : bool := (sec t =? 0) && (nsec t =? 0).

Definition After (t u : Time) : bool :=
  (sec u <? sec t) || ((sec t =? sec u) && (nsec u <? nsec t)).

Definition Before (t u : Time) : bool :=
  (sec t <? sec u) || ((sec t =? sec u) && (nsec t <? nsec u)).

(** [t.Add(d)]: the duration is split with Go's truncating [/] and [%],
    then the nanoseconds are brought back into one second. *)
Definition Add (t : Time) (d : Duration) : Time :=
  let dsec := Z.quot d 1000000000 in
  let n := nsec t + Z.rem d 1000000000 in
  if 1000000000 <=? n then mkTime (sec t + dsec + 1) (n - 1000000000) (loc t)
  else if n <? 0 then mkTime (sec t + dsec - 1) (n + 1000000000) (loc t)
  else mkTime (sec t + dsec) n (loc t).

(** *** The civil calendar *)

Definition isLeap (year : Z) : bool :=
  (year mod 4 =? 0) && (negb (year mod 100 =? 0) || (year mod 400 =? 0)).

(** [daysBefore[m]]: the days of a non-leap year before month [m+1]. *)
Definition daysBefore (m : Z) : Z :=
  nth (Z.to_nat m) [0; 31; 59; 90; 120; 151; 181; 212; 243; 273; 304; 334; 365] 365.

(** Days from January 1, year 1 to January 1 of [year]. *)
Definition daysSinceEpoch (year : Z) : Z :=
  let y := year - 1 in
  365 * y + y / 4 - y / 100 + y / 400.

(** [norm(hi, lo, base)]: carry [lo] into [hi] so that [0 <= lo < base]. *)
Definition norm (hi lo base : Z) : Z * Z := (hi + lo / base, lo mod base).

(** [time.Date(year, month, day, hour, min, sec, nsec, loc)].  Out-of-range
    months are carried into the year; the other fields are summed, which is
    what Go's successive normalizations amount to. *)
Definition Date (year month day hour min sec_ nsec_ : Z) (l : Location) : Time :=
  let '(year, m) := norm year (month - 1) 12 in
  let month := m + 1 in
  let d := daysSinceEpoch year + daysBefore (month - 1) in
  let d := if isLeap year && (3 <=? month) then d + 1 else d in
  let d := d + day - 1 in
  let '(s, n) := norm (d * 86400 + hour * 3600 + min * 60 + sec_) nsec_ 1000000000 in
  mkTime (s - zoneOffset l) n l.

(** The days since January 1, year 1 and the second of the day, in the
    time's own location. *)
Definition absSeconds (t : Time) : Z := sec t + zoneOffset (loc t).

(** [t.Date()]: year, month and day of the month, through the cycles of
    400, 100, 4 and 1 years. *)
Definition Time_Date (t : Time) : Z * Z * Z :=
  let d := absSeconds t / 86400 in
  let n := d / 146097 in
  let y := 400 * n in
  let d := d - 146097 * n in
  let n := d / 36524 in
  let n := n - Z.shiftr n 2 in
  let y := y + 100 * n in
  let d := d - 36524 * n in
  let n := d / 1461 in
  let y := y + 4 * n in
  let d := d - 1461 * n in
  let n := d / 365 in
  let n := n - Z.shiftr n 2 in
  let y := y + n in
  let d := d - 365 * n in
  let year := y + 1 in
  let day := d in
  if isLeap year && (day =? 31 + 29 - 1) then (year, 2, 29)
  else
    let day := if isLeap year && (31 + 29 - 1 <? day) then day - 1 else day in
    let month := day / 31 in
    let end_ := daysBefore (month + 1) in
    if end_ <=? day then (year, month + 2, day - end_ + 1)
    else (year, month + 1, day - daysBefore month + 1).

(** [t.Clock()]: hour, minute and second of the day. *)
Definition Time_Clock (t : Time) : Z * Z * Z :=
  let s := absSeconds t mod 86400 in
  (s / 3600, (s mod 3600) / 60, s mod 60).

(** [t.AddDate(years, months, days)]. *)
Definition AddDate (t : Time) (years months days : Z) : Time :=
  let '(year, month, day) := Time_Date t in
  let '(hour, min, s) := Time_Clock t in
  Date (year + years) (month + months) (day + days) hour min s (nsec t) (loc t).

End GoTime.

(** ** Package [domain] *)

Module domain.
Import GoTime.

Definition MessageTypeSMS : string := "sms".
Definition MessageTypeMMS : string := "mms".
Definition MessageTypeEmail : string := "email".

(** [ProviderError]: an error of a messaging provider, with its HTTP status
    code and the seconds to wait before a retry. *)
Record ProviderError : Type := mkProviderError {
  Code : Z;
  Message : string;
  RetryAfter : Z
}.

(** Go [error] values.  [ProviderErr] is a [*ProviderError]; [Errorf] is
    what [fmt.Errorf] builds from a format without [%w], [Wrapf] what it
    builds around a cause; [Opaque] stands for the errors of the libraries
    (the database driver, [context]). *)
Inductive error : Type :=
| ProviderErr (e : ProviderError)
| Errorf (format : string)
| Wrapf (format : string) (cause : error)
| Opaque (what : string).

(** [IsRetryableError]: the type assertion only sees an unwrapped
    [*ProviderError]. *)
Definition IsRetryableError (err : error) : bool :=
  match err with
  | ProviderErr providerErr =>
      (Code providerErr =? 429) || (Code providerErr =? 500)
      || (Code providerErr =? 502) || (Code providerErr =? 503)
      || (Code providerErr =? 504)
  | _ => false
  end.

Definition GetRetryAfterSeconds (err : error) : Z :=
  match err with
  | ProviderErr providerErr =>
      if Code providerErr =? 429 then RetryAfter providerErr else 0
  | _ => 0
  end.

End domain.

Module Message.
Record t : Type := mk {
  ID : Z;
  ConversationID : Z;
  From : string;
  To : string;
  Type_ : string;
  Body : string;
  Attachments : list string;
  Status : string;
  ErrorCode : option string;
  ErrorMessage : option string;
  Timestamp : GoTime.Time;
  MessagingProviderID : option string;
  CreatedAt : GoTime.Time;
  UpdatedAt : GoTime.Time
}.
End Message.

Module Conversation.
Record t : Type := mk {
  ID : Z;
  CustomerContact : string;
  BusinessContact : string;
  CreatedAt : GoTime.Time;
  UpdatedAt : GoTime.Time;
  Messages : list Message.t
}.
End Conversation.

Module SendSMSRequest.
Record t : Type := mk {
  From : string;
  To : string;
  Type_ : string;
  Body : string;
  Attachments : list string;
  Timestamp : GoTime.Time
}.
End SendSMSRequest.

Module SendEmailRequest.
Record t : Type := mk {
  From : string;
  To : string;
  Body : string;
  Attachments : list string;
  Timestamp : GoTime.Time
}.
End SendEmailRequest.

Module InboundSMSWebhook.
Record t : Type := mk {
  From : string;
  To : string;
  Type_ : string;
  MessagingProviderID : string;
  Body : string;
  Attachments : list string;
  Timestamp : GoTime.Time
}.
End InboundSMSWebhook.

Module InboundEmailWebhook.
Record t : Type := mk {
  From : string;
  To : string;
  XillioID : string;
  Body : string;
  Attachments : list string;
  Timestamp : GoTime.Time
}.
End InboundEmailWebhook.

Module ConversationQuery.
Record t : Type := mk {
  BusinessEmail : string;
  BusinessPhone : string;
  Search : string;
  From : GoTime.Time;
  To : GoTime.Time;
  MessageType : string;
  Limit : Z;
  Offset : Z;
  SortBy : string;
  SortOrder : string;
  IncludeMessages : bool
}.
End ConversationQuery.

Module GetConversationsResponse.
Record t : Type := mk {
  Conversations : list Conversation.t;
  Total : Z;
  Page : Z;
  PerPage : Z;
  HasMore : bool
}.
End GetConversationsResponse.

(** ** Effects

    The service talks to its collaborators (repositories, providers, the
    clock) through interfaces; each call may change the world they live in.  A
    computation over a world [W] is a state-passing function. *)

Definition M (W A : Type) : Type := W -> A * W.

Definition ret {W A : Type} (a : A) : M W A := fun w => (a, w).

Definition bind {W A B : Type} (m : M W A) (k : A -> M W B) : M W B :=
  fun w => let (a, w') := m w in k a w'.

Declare Scope go_scope.
Delimit Scope go_scope with go.
Notation "x <- m ;; k" := (bind m (fun x => k))
  (at level 61, m at next level, right associativity) : go_scope.
Local Open Scope go_scope.

(** [context.Context]: [Background] is never done; a cancellable context is
    done or not at each of the waits a run goes through, counted from the
    first. *)
Inductive Context : Type :=
| Background
| WithCancel (doneAt : nat -> bool).

(** ** Package [domain]: the interfaces *)

Module ports.

Section Interfaces.
Import domain.
Variable W : Type.

(** [ConversationRepository] and [MessageRepository], with the methods the
    two services call. *)
Record ConversationRepository : Type := {
  GetOrCreate :
    Context -> string -> string -> M W (Conversation.t + error);
  List :
    Context -> ConversationQuery.t -> M W (list Conversation.t * Z + error)
}.

Record MessageRepository : Type := {
  MessageRepository_Create : Context -> Message.t -> M W (option error);
  GetByConversationID : Context -> Z -> M W (list Message.t + error);
  GetByProviderMessageID :
    Context -> string -> M W (option Message.t * option error)
}.

Record SMSProvider : Type := {
  SMSProvider_SendSMS : Context -> string -> string -> string -> M W (option error);
  SMSProvider_SendMMS :
    Context -> string -> string -> string -> list string -> M W (option error)
}.

Record EmailProvider : Type := {
  EmailProvider_SendEmail :
    Context -> string -> string -> string -> list string -> M W (option error)
}.

(** What the Go runtime provides: [time.Now()], and the [select] between
    [ctx.Done()] and [time.After(delay)], which answers [ctx.Err()] when the
    context wins and [nil] when the timer does. *)
Record Runtime : Type := {
  Now : M W GoTime.Time;
  Wait : Context -> GoTime.Duration -> M W (option error)
}.

End Interfaces.

Arguments GetOrCreate {W}.
Arguments List {W}.
Arguments MessageRepository_Create {W}.
Arguments GetByConversationID {W}.
Arguments GetByProviderMessageID {W}.
Arguments SMSProvider_SendSMS {W}.
Arguments SMSProvider_SendMMS {W}.
Arguments EmailProvider_SendEmail {W}.
Arguments Now {W}.
Arguments Wait {W}.

End ports.

(** ** Package [service]: the messaging service *)

Module service.
Import GoStrings GoTime domain ports.

Record RetryConfig : Type := mkRetryConfig {
  MaxRetries : Z;
  BaseDelay : Duration;
  MaxDelay : Duration;
  Multiplier : Z * Z   (* a float64 the retry loop never reads; here 2/1 *)
}.

Definition DefaultRetryConfig : RetryConfig :=
  mkRetryConfig 3 Second Minute (2, 1).

Definition TestRetryConfig : RetryConfig :=
  mkRetryConfig 3 (Millisecond * 10) (Millisecond * 100) (2, 1).

Record messagingService (W : Type) : Type := mkMessagingService {
  conversationRepo : ConversationRepository W;
  messageRepo : MessageRepository W;
  smsProvider : SMSProvider W;
  emailProvider : EmailProvider W;
  retryConfig : RetryConfig
}.
Arguments conversationRepo {W}.
Arguments messageRepo {W}.
Arguments smsProvider {W}.
Arguments emailProvider {W}.
Arguments retryConfig {W}.

Section MessagingService.
Variable W : Type.
Variable rt : Runtime W.
Variable s : messagingService W.

(** The delay before the retry that follows the failed attempt number
    [attempt] (lines 225-242 of messaging_service.go). *)
Definition backoffDelay (attempt : Z) (err : error) : Duration :=
  let delay := wrap64 (BaseDelay (retryConfig s) * wrap64 (Z.shiftl 1 attempt)) in
  let delay := if MaxDelay (retryConfig s) <? delay
               then MaxDelay (retryConfig s) else delay in
  let retryAfter := GetRetryAfterSeconds err in
  if 0 <? retryAfter then
    let retryDelay := wrap64 (retryAfter * Second) in
    if retryDelay <? MaxDelay (retryConfig s) then retryDelay
    else MaxDelay (retryConfig s)
  else delay.

(** The loop of [retryWithBackoff]: [n] iterations are left, the next one
    is number [attempt]. *)
Fixpoint retryLoop (ctx : Context) (operation : M W (option error))
         (n : nat) (attempt : Z) : M W (option error) :=
  match n with
  | O => ret (Some (Errorf "max retries exceeded"))
  | S n' =>
      r <- operation ;;
      match r with
      | None => ret None
      | Some err =>
          if negb (IsRetryableError err) then ret (Some err)
          else if attempt =? MaxRetries (retryConfig s) then ret (Some err)
          else
            c <- Wait rt ctx (backoffDelay attempt err) ;;
            match c with
            | Some ctxErr => ret (Some ctxErr)
            | None => retryLoop ctx operation n' (attempt + 1)
            end
      end
  end.

(** [retryWithBackoff]: [attempt] runs from 0 to [MaxRetries]. *)
Definition retryWithBackoff (ctx : Context) (operation : M W (option error))
  : M W (option error) :=
  retryLoop ctx operation (Z.to_nat (MaxRetries (retryConfig s) + 1)) 0.

Definition sendSMSMessage (ctx : Context) (req : SendSMSRequest.t)
  : M W (option error) :=
  if String.eqb (SendSMSRequest.Type_ req) MessageTypeSMS then
    SMSProvider_SendSMS (smsProvider s) ctx (SendSMSRequest.From req)
      (SendSMSRequest.To req) (SendSMSRequest.Body req)
  else if String.eqb (SendSMSRequest.Type_ req) MessageTypeMMS then
    SMSProvider_SendMMS (smsProvider s) ctx (SendSMSRequest.From req)
      (SendSMSRequest.To req) (SendSMSRequest.Body req)
      (SendSMSRequest.Attachments req)
  else ret (Some (Errorf "invalid message type: %s")).

Definition sendSMSMessageWithRetry (ctx : Context) (req : SendSMSRequest.t)
  : M W (option error) :=
  retryWithBackoff ctx (sendSMSMessage ctx req).

Definition sendEmailMessageWithRetry (ctx : Context) (req : SendEmailRequest.t)
  : M W (option error) :=
  retryWithBackoff ctx
    (EmailProvider_SendEmail (emailProvider s) ctx (SendEmailRequest.From req)
       (SendEmailRequest.To req) (SendEmailRequest.Body req)
       (SendEmailRequest.Attachments req)).

Definition buildOutboundMessage (from to messageType body : string)
           (attachments : list string) (timestamp : Time) : Message.t :=
  Message.mk 0 0 from to messageType body attachments "pending" None None
             (Time_UTC timestamp) None zero zero.

Definition buildInboundMessage (from to messageType body : string)
           (attachments : list string) (timestamp : Time)
           (providerMessageID : string) : Message.t :=
  Message.mk 0 0 from to messageType body attachments "delivered" None None
             (Time_UTC timestamp) (Some providerMessageID) zero zero.

Definition normalizeContacts := MessagingNormalizer.normalizeContacts.

Definition setRecordFields (message : Message.t) (conversationID : Z)
           (createdAt updatedAt : Time) : Message.t :=
  Message.mk (Message.ID message) conversationID (Message.From message)
             (Message.To message) (Message.Type_ message) (Message.Body message)
             (Message.Attachments message) (Message.Status message)
             (Message.ErrorCode message) (Message.ErrorMessage message)
             (Message.Timestamp message) (Message.MessagingProviderID message)
             createdAt updatedAt.

Definition createMessageRecord (ctx : Context) (message : Message.t)
  : M W (option error) :=
  let '(customerContact, businessContact) :=
    normalizeContacts (Message.From message) (Message.To message) in
  r <- GetOrCreate (conversationRepo s) ctx customerContact businessContact ;;
  match r with
  | inr err => ret (Some (Wrapf "failed to get or create conversation: %w" err))
  | inl conversation =>
      createdAt <- Now rt ;;
      updatedAt <- Now rt ;;
      MessageRepository_Create (messageRepo s) ctx
        (setRecordFields message (Conversation.ID conversation) createdAt updatedAt)
  end.

Definition validateTimestamp (timestamp : Time) : M W (option error) :=
  if negb (Location_eqb (Time_Location timestamp) UTC) then
    ret (Some (Errorf "timestamp must be in UTC timezone"))
  else
    t <- Now rt ;;
    let now := Time_UTC t in
    if IsZero timestamp then ret (Some (Errorf "timestamp cannot be zero"))
    else
      let maxFuture := Add now (5 * Minute) in
      if After timestamp maxFuture then
        ret (Some (Errorf "timestamp cannot be in the future (max allowed: %s)"))
      else
        let minPast := AddDate now (-10) 0 0 in
        if Before timestamp minPast then
          ret (Some (Errorf "timestamp too old (min allowed: %s)"))
        else
          let year2000 := Date 2000 1 1 0 0 0 0 UTC in
          if Before timestamp year2000 then
            ret (Some (Errorf "timestamp before year 2000 is not allowed"))
          else ret None.

Definition wrapTimestampError (r : option error) : option error :=
  match r with
  | Some err => Some (Wrapf "invalid timestamp: %w" err)
  | None => None
  end.

Definition validateSMSRequest (req : option SendSMSRequest.t)
  : M W (option error) :=
  match req with
  | None => ret (Some (Errorf "request cannot be nil"))
  | Some req =>
      if String.eqb (TrimSpace (SendSMSRequest.From req)) "" then
        ret (Some (Errorf "from address cannot be empty"))
      else if String.eqb (TrimSpace (SendSMSRequest.To req)) "" then
        ret (Some (Errorf "to address cannot be empty"))
      else if String.eqb (TrimSpace (SendSMSRequest.Body req)) "" then
        ret (Some (Errorf "message body cannot be empty"))
      else if negb (String.eqb (SendSMSRequest.Type_ req) MessageTypeSMS)
              && negb (String.eqb (SendSMSRequest.Type_ req) MessageTypeMMS) then
        ret (Some (Errorf "invalid message type: %s"))
      else
        r <- validateTimestamp (SendSMSRequest.Timestamp req) ;;
        ret (wrapTimestampError r)
  end.

Definition validateEmailRequest (req : option SendEmailRequest.t)
  : M W (option error) :=
  match req with
  | None => ret (Some (Errorf "request cannot be nil"))
  | Some req =>
      if String.eqb (TrimSpace (SendEmailRequest.From req)) "" then
        ret (Some (Errorf "from address cannot be empty"))
      else if String.eqb (TrimSpace (SendEmailRequest.To req)) "" then
        ret (Some (Errorf "to address cannot be empty"))
      else if String.eqb (TrimSpace (SendEmailRequest.Body req)) "" then
        ret (Some (Errorf "message body cannot be empty"))
      else
        r <- validateTimestamp (SendEmailRequest.Timestamp req) ;;
        ret (wrapTimestampError r)
  end.

Definition validateInboundSMSWebhook (webhook : option InboundSMSWebhook.t)
  : M W (option error) :=
  match webhook with
  | None => ret (Some (Errorf "webhook cannot be nil"))
  | Some webhook =>
      if String.eqb (TrimSpace (InboundSMSWebhook.From webhook)) "" then
        ret (Some (Errorf "from address cannot be empty"))
      else if String.eqb (TrimSpace (InboundSMSWebhook.To webhook)) "" then
        ret (Some (Errorf "to address cannot be empty"))
      else if String.eqb (TrimSpace (InboundSMSWebhook.Body webhook)) "" then
        ret (Some (Errorf "message body cannot be empty"))
      else if negb (String.eqb (InboundSMSWebhook.Type_ webhook) MessageTypeSMS)
              && negb (String.eqb (InboundSMSWebhook.Type_ webhook) MessageTypeMMS) then
        ret (Some (Errorf "invalid message type: %s"))
      else if String.eqb (TrimSpace (InboundSMSWebhook.MessagingProviderID webhook)) "" then
        ret (Some (Errorf "messaging provider ID cannot be empty"))
      else
        r <- validateTimestamp (InboundSMSWebhook.Timestamp webhook) ;;
        ret (wrapTimestampError r)
  end.

Definition validateInboundEmailWebhook (webhook : option InboundEmailWebhook.t)
  : M W (option error) :=
  match webhook with
  | None => ret (Some (Errorf "webhook cannot be nil"))
  | Some webhook =>
      if String.eqb (TrimSpace (InboundEmailWebhook.From webhook)) "" then
        ret (Some (Errorf "from address cannot be empty"))
      else if String.eqb (TrimSpace (InboundEmailWebhook.To webhook)) "" then
        ret (Some (Errorf "to address cannot be empty"))
      else if String.eqb (TrimSpace (InboundEmailWebhook.Body webhook)) "" then
        ret (Some (Errorf "message body cannot be empty"))
      else if String.eqb (TrimSpace (InboundEmailWebhook.XillioID webhook)) "" then
        ret (Some (Errorf "xillio ID cannot be empty"))
      else
        r <- validateTimestamp (InboundEmailWebhook.Timestamp webhook) ;;
        ret (wrapTimestampError r)
  end.

Definition wrapCreateError (r : option error) : option error :=
  match r with
  | Some err => Some (Wrapf "failed to create message: %w" err)
  | None => None
  end.

(** In the four operations a request that passed validation is not nil;
    the [None] branches after validation are never taken. *)
Definition SendSMS (ctx : Context) (req : option SendSMSRequest.t)
  : M W (option error) :=
  v <- validateSMSRequest req ;;
  match v, req with
  | Some err, _ => ret (Some (Wrapf "invalid SMS request: %w" err))
  | None, None => ret (Some (Errorf "request cannot be nil"))
  | None, Some req =>
      p <- sendSMSMessageWithRetry ctx req ;;
      match p with
      | Some err =>
          ret (Some (Wrapf "failed to send message through provider: %w" err))
      | None =>
          let message :=
            buildOutboundMessage (SendSMSRequest.From req) (SendSMSRequest.To req)
              (SendSMSRequest.Type_ req) (SendSMSRequest.Body req)
              (SendSMSRequest.Attachments req) (SendSMSRequest.Timestamp req) in
          c <- createMessageRecord ctx message ;;
          ret (wrapCreateError c)
      end
  end.

Definition SendEmail (ctx : Context) (req : option SendEmailRequest.t)
  : M W (option error) :=
  v <- validateEmailRequest req ;;
  match v, req with
  | Some err, _ => ret (Some (Wrapf "invalid email request: %w" err))
  | None, None => ret (Some (Errorf "request cannot be nil"))
  | None, Some req =>
      p <- sendEmailMessageWithRetry ctx req ;;
      match p with
      | Some err =>
          ret (Some (Wrapf "failed to send email through provider: %w" err))
      | None =>
          let message :=
            buildOutboundMessage (SendEmailRequest.From req) (SendEmailRequest.To req)
              MessageTypeEmail (SendEmailRequest.Body req)
              (SendEmailRequest.Attachments req) (SendEmailRequest.Timestamp req) in
          c <- createMessageRecord ctx message ;;
          ret (wrapCreateError c)
      end
  end.

Definition HandleInboundSMS (ctx : Context) (webhook : option InboundSMSWebhook.t)
  : M W (option error) :=
  v <- validateInboundSMSWebhook webhook ;;
  match v, webhook with
  | Some err, _ => ret (Some (Wrapf "invalid inbound SMS webhook: %w" err))
  | None, None => ret (Some (Errorf "webhook cannot be nil"))
  | None, Some webhook =>
      e <- GetByProviderMessageID (messageRepo s) ctx
             (InboundSMSWebhook.MessagingProviderID webhook) ;;
      match e with
      | (Some existingMessage, None) => ret None
      | _ =>
          let message :=
            buildInboundMessage (InboundSMSWebhook.From webhook)
              (InboundSMSWebhook.To webhook) (InboundSMSWebhook.Type_ webhook)
              (InboundSMSWebhook.Body webhook) (InboundSMSWebhook.Attachments webhook)
              (InboundSMSWebhook.Timestamp webhook)
              (InboundSMSWebhook.MessagingProviderID webhook) in
          c <- createMessageRecord ctx message ;;
          ret (wrapCreateError c)
      end
  end.

Definition HandleInboundEmail (ctx : Context) (webhook : option InboundEmailWebhook.t)
  : M W (option error) :=
  v <- validateInboundEmailWebhook webhook ;;
  match v, webhook with
  | Some err, _ => ret (Some (Wrapf "invalid inbound email webhook: %w" err))
  | None, None => ret (Some (Errorf "webhook cannot be nil"))
  | None, Some webhook =>
      e <- GetByProviderMessageID (messageRepo s) ctx
             (InboundEmailWebhook.XillioID webhook) ;;
      match e with
      | (Some existingMessage, None) => ret None
      | _ =>
          let message :=
            buildInboundMessage (InboundEmailWebhook.From webhook)
              (InboundEmailWebhook.To webhook) MessageTypeEmail
              (InboundEmailWebhook.Body webhook)
              (InboundEmailWebhook.Attachments webhook)
              (InboundEmailWebhook.Timestamp webhook)
              (InboundEmailWebhook.XillioID webhook) in
          c <- createMessageRecord ctx message ;;
          ret (wrapCreateError c)
      end
  end.

End MessagingService.

(** *** The conversation query service *)

Record conversationService (W : Type) : Type := mkConversationService {
  cs_conversationRepo : ConversationRepository W;
  cs_messageRepo : MessageRepository W
}.
Arguments cs_conversationRepo {W}.
Arguments cs_messageRepo {W}.

Section ConversationService.
Variable W : Type.
Variable s : conversationService W.

(** The defaults [GetConversations] writes into the caller's query. *)
Definition withDefaults (query : ConversationQuery.t) : ConversationQuery.t :=
  ConversationQuery.mk
    (ConversationQuery.BusinessEmail query) (ConversationQuery.BusinessPhone query)
    (ConversationQuery.Search query) (ConversationQuery.From query)
    (ConversationQuery.To query) (ConversationQuery.MessageType query)
    (if ConversationQuery.Limit query <=? 0 then 50 else ConversationQuery.Limit query)
    (if ConversationQuery.Offset query <? 0 then 0 else ConversationQuery.Offset query)
    (if String.eqb (ConversationQuery.SortBy query) "" then "updated_at"
     else ConversationQuery.SortBy query)
    (if String.eqb (ConversationQuery.SortOrder query) "" then "desc"
     else ConversationQuery.SortOrder query)
    (ConversationQuery.IncludeMessages query).

Definition setMessages (c : Conversation.t) (messages : list Message.t)
  : Conversation.t :=
  Conversation.mk (Conversation.ID c) (Conversation.CustomerContact c)
                  (Conversation.BusinessContact c) (Conversation.CreatedAt c)
                  (Conversation.UpdatedAt c) messages.

(** The loop that loads the messages of each conversation; it stops at the
    first error. *)
Fixpoint loadMessages (ctx : Context) (conversations : list Conversation.t)
  : M W (list Conversation.t + error) :=
  match conversations with
  | [] => ret (inl [])
  | c :: rest =>
      r <- GetByConversationID (cs_messageRepo s) ctx (Conversation.ID c) ;;
      match r with
      | inr err =>
          ret (inr (Wrapf "failed to get messages for conversation %d: %w" err))
      | inl messages =>
          r' <- loadMessages ctx rest ;;
          match r' with
          | inr err => ret (inr err)
          | inl rest' => ret (inl (setMessages c messages :: rest'))
          end
      end
  end.

Definition paginate (query : ConversationQuery.t)
           (conversations : list Conversation.t) (total : Z)
  : GetConversationsResponse.t :=
  let page :=
    wrap64 (Z.quot (ConversationQuery.Offset query) (ConversationQuery.Limit query) + 1) in
  let hasMore :=
    wrap64 (ConversationQuery.Offset query + ConversationQuery.Limit query) <? total in
  GetConversationsResponse.mk conversations total page
    (ConversationQuery.Limit query) hasMore.

Definition GetConversations (ctx : Context) (query : ConversationQuery.t)
  : M W (GetConversationsResponse.t + error) :=
  let query := withDefaults query in
  r <- List (cs_conversationRepo s) ctx query ;;
  match r with
  | inr err => ret (inr (Wrapf "failed to get conversations: %w" err))
  | inl (conversations, total) =>
      if ConversationQuery.IncludeMessages query then
        l <- loadMessages ctx conversations ;;
        match l with
        | inr err => ret (inr err)
        | inl conversations => ret (inl (paginate query conversations total))
        end
      else ret (inl (paginate query conversations total))
  end.

End ConversationService.

End service.

(** ** The collaborators the service is wired to

    The postgres repositories of [internal/repository/postgres], over tables
    held as lists of rows in insertion order, and providers that answer from a
    script.  What the service cannot decide is left to an environment: the
    clock readings, which SQL statements fail (a driver error, a violated
    constraint), what the providers answer to each call, the result set of
    the listing query, and which case a [select] takes when both of its
    cases are ready. *)

Module postgres.
Import GoStrings GoTime domain.

Record Env : Type := mkEnv {
  clock : nat -> Time;                (* the n-th reading of [time.Now()] *)
  dbClock : nat -> Time;              (* CURRENT_TIMESTAMP in statement n *)
  dbFails : nat -> bool;              (* statement n ends in an error *)
  smsReply : nat -> option error;     (* answer to the n-th SMS/MMS call *)
  emailReply : nat -> option error;   (* answer to the n-th email call *)
  listReply : ConversationQuery.t -> list Conversation.t
              -> list Conversation.t * Z;
  timerFirst : nat -> bool            (* the [select] of wait n takes the timer
                                         when both of its cases are ready *)
}.

Record World : Type := mkWorld {
  conversations : list Conversation.t;   (* table [conversations] *)
  messages : list Message.t;             (* table [messages] *)
  statements : nat;                      (* SQL statements run so far *)
  smsCalls : nat;                        (* calls to the SMS provider *)
  emailCalls : nat;                      (* calls to the email provider *)
  sleeps : list Duration;                (* delays waited, oldest first *)
  ticks : nat                            (* readings of the clock *)
}.

Definition emptyWorld : World := mkWorld [] [] 0 0 0 [] 0.

Section WithEnv.
Variable env : Env.

(** Running one SQL statement: whether it fails, its number, and the
    world with the statement counted. *)
Definition statement : M World (bool * nat) :=
  fun w =>
    ((dbFails env (statements w), statements w),
     mkWorld (conversations w) (messages w) (S (statements w)) (smsCalls w)
             (emailCalls w) (sleeps w) (ticks w)).

Definition insertConversation (c : Conversation.t) : M World unit :=
  fun w =>
    (tt, mkWorld (conversations w ++ [c]) (messages w) (statements w)
                 (smsCalls w) (emailCalls w) (sleeps w) (ticks w)).

Definition insertMessage (m : Message.t) : M World unit :=
  fun w =>
    (tt, mkWorld (conversations w) (messages w ++ [m]) (statements w)
                 (smsCalls w) (emailCalls w) (sleeps w) (ticks w)).

Definition rows {A : Type} (table : World -> list A) : M World (list A) :=
  fun w => (table w, w).

Definition driverError : error := Opaque "sql".

(** [conversationRepository.Create]: INSERT ... RETURNING. *)
Definition ConversationRepository_Create (ctx : Context)
           (customerContact businessContact : string)
  : M World (Conversation.t + error) :=
  st <- statement ;;
  let '(failed, n) := st in
  if failed then ret (inr (Wrapf "failed to create conversation: %w" driverError))
  else
    table <- rows conversations ;;
    let conv :=
      Conversation.mk (Z.of_nat (List.length table) + 1) customerContact
                      businessContact (dbClock env n) (dbClock env n) [] in
    _ <- insertConversation conv ;;
    ret (inl conv).

(** [conversationRepository.GetByContacts]: the first row that holds the
    two contacts in either order. *)
Definition matchesContacts (customerContact businessContact : string)
           (c : Conversation.t) : bool :=
  (String.eqb (Conversation.CustomerContact c) customerContact
   && String.eqb (Conversation.BusinessContact c) businessContact)
  || (String.eqb (Conversation.CustomerContact c) businessContact
      && String.eqb (Conversation.BusinessContact c) customerContact).

Definition GetByContacts (ctx : Context) (customerContact businessContact : string)
  : M World (option Conversation.t * option error) :=
  st <- statement ;;
  let '(failed, n) := st in
  if failed then
    ret (None, Some (Wrapf "failed to get conversation by contacts: %w" driverError))
  else
    table <- rows conversations ;;
    ret (find (matchesContacts customerContact businessContact) table, None).

Definition GetOrCreate (ctx : Context) (customerContact businessContact : string)
  : M World (Conversation.t + error) :=
  r <- GetByContacts ctx customerContact businessContact ;;
  match r with
  | (_, Some err) => ret (inr err)
  | (Some conv, None) => ret (inl conv)
  | (None, None) =>
      ConversationRepository_Create ctx customerContact businessContact
  end.

(** [conversationRepository.List]: the count and the page are the
    database's answer to the two statements. *)
Definition List (ctx : Context) (query : ConversationQuery.t)
  : M World (list Conversation.t * Z + error) :=
  st <- statement ;;
  let '(failed, n) := st in
  if failed then ret (inr (Wrapf "failed to count conversations: %w" driverError))
  else
    st' <- statement ;;
    let '(failed', n') := st' in
    if failed' then ret (inr (Wrapf "failed to list conversations: %w" driverError))
    else
      table <- rows conversations ;;
      ret (inl (listReply env query table)).

(** The row an [INSERT INTO messages] creates for [m] under the id [id].  The
    statement lists the conversation, the two addresses, the type, the body,
    the attachments, the provider id, the status, the timestamp and the two
    dates; it lists neither [error_code] nor [error_message], which are
    [NULL] in the new row whatever [m] carries. *)
Definition insertedRow (m : Message.t) (id : Z) : Message.t :=
  Message.mk id (Message.ConversationID m) (Message.From m) (Message.To m)
             (Message.Type_ m) (Message.Body m) (Message.Attachments m)
             (Message.Status m) None None
             (Message.Timestamp m) (Message.MessagingProviderID m)
             (Message.CreatedAt m) (Message.UpdatedAt m).

(** [messageRepository.Create]: INSERT ... RETURNING id. *)
Definition MessageRepository_Create (ctx : Context) (message : Message.t)
  : M World (option error) :=
  st <- statement ;;
  let '(failed, n) := st in
  if failed then ret (Some (Wrapf "failed to create message: %w" driverError))
  else
    table <- rows messages ;;
    _ <- insertMessage (insertedRow message (Z.of_nat (List.length table) + 1)) ;;
    ret None.

Definition hasProviderID (providerMessageID : string) (m : Message.t) : bool :=
  match Message.MessagingProviderID m with
  | Some id => String.eqb id providerMessageID
  | None => false
  end.

(** [messageRepository.GetByProviderMessageID]: the first row with that
    provider id; no row is [nil, nil]. *)
Definition GetByProviderMessageID (ctx : Context) (providerMessageID : string)
  : M World (option Message.t * option error) :=
  st <- statement ;;
  let '(failed, n) := st in
  if failed then
    ret (None, Some (Wrapf "failed to get message by provider ID: %w" driverError))
  else
    table <- rows messages ;;
    ret (find (hasProviderID providerMessageID) table, None).

(** [messageRepository.GetByConversationID]: the rows of the conversation,
    ORDER BY created_at ASC. *)
Fixpoint insertByCreatedAt (m : Message.t) (l : list Message.t) : list Message.t :=
  match l with
  | [] => [m]
  | x :: l' =>
      if Before (Message.CreatedAt m) (Message.CreatedAt x) then m :: x :: l'
      else x :: insertByCreatedAt m l'
  end.

Definition GetByConversationID (ctx : Context) (conversationID : Z)
  : M World (list Message.t + error) :=
  st <- statement ;;
  let '(failed, n) := st in
  if failed then
    ret (inr (Wrapf "failed to get messages by conversation ID: %w" driverError))
  else
    table <- rows messages ;;
    ret (inl (fold_left (fun acc m => insertByCreatedAt m acc)
                (filter (fun m => Message.ConversationID m =? conversationID) table)
                [])).

Definition conversationRepository : ports.ConversationRepository World :=
  ports.Build_ConversationRepository World GetOrCreate List.

Definition messageRepository : ports.MessageRepository World :=
  ports.Build_MessageRepository World MessageRepository_Create GetByConversationID
    GetByProviderMessageID.

(** *** Scripted providers *)

Definition smsCall : M World (option error) :=
  fun w =>
    (smsReply env (smsCalls w),
     mkWorld (conversations w) (messages w) (statements w) (S (smsCalls w))
             (emailCalls w) (sleeps w) (ticks w)).

Definition emailCall : M World (option error) :=
  fun w =>
    (emailReply env (emailCalls w),
     mkWorld (conversations w) (messages w) (statements w) (smsCalls w)
             (S (emailCalls w)) (sleeps w) (ticks w)).

Definition scriptedSMS : ports.SMSProvider World :=
  {| ports.SMSProvider_SendSMS := fun ctx from to body => smsCall;
     ports.SMSProvider_SendMMS := fun ctx from to body attachments => smsCall |}.

Definition scriptedEmail : ports.EmailProvider World :=
  {| ports.EmailProvider_SendEmail := fun ctx from to body attachments => emailCall |}.

(** *** The runtime *)

Definition readClock : M World Time :=
  fun w =>
    (clock env (ticks w),
     mkWorld (conversations w) (messages w) (statements w) (smsCalls w)
             (emailCalls w) (sleeps w) (S (ticks w))).

Definition ctxErr (ctx : Context) (n : nat) : option error :=
  match ctx with
  | Background => None
  | WithCancel doneAt => if doneAt n then Some (Opaque "context canceled") else None
  end.

(** The [select] on [ctx.Done()] and [time.After(delay)].  When the context
    is done before a timer that has [delay] to run fires, the case of the
    context is the only one ready and [select] takes it.  A timer whose
    [delay] is zero or negative fires at once: if the context is done too,
    both cases are ready and Go takes one of them at random, which the
    environment decides here. *)
Definition selected (ctx : Context) (delay : Duration) (n : nat) : option error :=
  match ctxErr ctx n with
  | Some err => if (delay <=? 0) && timerFirst env n then None else Some err
  | None => None
  end.

Definition wait (ctx : Context) (delay : Duration) : M World (option error) :=
  fun w =>
    (selected ctx delay (List.length (sleeps w)),
     mkWorld (conversations w) (messages w) (statements w) (smsCalls w)
             (emailCalls w) (sleeps w ++ [delay]) (ticks w)).

Definition runtime : ports.Runtime World :=
  {| ports.Now := readClock; ports.Wait := wait |}.

(** [NewMessagingServiceWithConfig] over these collaborators. *)
Definition NewMessagingServiceWithConfig (retryConfig : service.RetryConfig)
  : service.messagingService World :=
  service.mkMessagingService World conversationRepository messageRepository
    scriptedSMS scriptedEmail retryConfig.

Definition NewMessagingService : service.messagingService World :=
  NewMessagingServiceWithConfig service.DefaultRetryConfig.

End WithEnv.

End postgres.

(** ** The calendar, piecewise

    [Time_Date] splits a day number into the year within the 400-year cycle
    and the day of that year ([cycleYear]), then into month and day
    ([monthDay]); [dayNumber] is the day number [Date] computes back. *)

Module Calendar.
Import GoTime.
Local Open Scope Z_scope.

(** The year within the 400-year cycle and the day of that year, from the
    day within the cycle: the three divisions of [absDate]. *)
Definition cycleYear (d : Z) : Z * Z :=
  let n := d / 36524 in
  let n := n - Z.shiftr n 2 in
  let y := 100 * n in
  let d := d - 36524 * n in
  let n := d / 1461 in
  let y := y + 4 * n in
  let d := d - 1461 * n in
  let n := d / 365 in
  let n := n - Z.shiftr n 2 in
  let y := y + n in
  let d := d - 365 * n in
  (y, d).

(** The extra day of a leap year. *)
Definition leapDay (year : Z) : Z := if isLeap year then 1 else 0.

(** Year, month and day of the month, from the year and the day of that
    year: the second half of [absDate]. *)
Definition monthDay (year day : Z) : Z * Z * Z :=
  if isLeap year && (day =? 31 + 29 - 1) then (year, 2, 29)
  else
    let day := if isLeap year && (31 + 29 - 1 <? day) then day - 1 else day in
    let month := day / 31 in
    let end_ := daysBefore (month + 1) in
    if end_ <=? day then (year, month + 2, day - end_ + 1)
    else (year, month + 1, day - daysBefore month + 1).

(** The day number [Date] computes from a year, a month and a day. *)
Definition dayNumber (year month day : Z) : Z :=
  daysSinceEpoch year + daysBefore (month - 1)
  + (if isLeap year && (3 <=? month) then 1 else 0) + day - 1.

(** Checking a predicate on each of the [n] integers from [lo] on. *)
Fixpoint allFrom (n : nat) (lo : Z) (f : Z -> bool) : bool :=
  match n with
  | O => true
  | S k => f lo && allFrom k (lo + 1) f
  end.

(** [monthDay] on day [yd] of a year gives a month and a day that
    [dayNumber] sends back to [yd]. *)
Definition monthDayOK (leap : bool) (yd : Z) : bool :=
  let day := if leap && (31 + 29 - 1 <? yd) then yd - 1 else yd in
  let month := day / 31 in
  let end_ := daysBefore (month + 1) in
  let '(m, d) :=
    if leap && (yd =? 31 + 29 - 1) then (2, 29)
    else if end_ <=? day then (month + 2, day - end_ + 1)
         else (month + 1, day - daysBefore month + 1) in
  (1 <=? m) && (m <=? 12) && (1 <=? d)
  && (daysBefore (m - 1) + (if leap && (3 <=? m) then 1 else 0) + d - 1 =? yd).

End Calendar.

(** ** The retry engine *)

Module RetrySpec.
Import GoTime domain service.
Local Open Scope Z_scope.

(** The delay the specification asks for before the retry that follows the
    failed attempt number [attempt] (counted from 0): the retry-after hint of
    a 429, in seconds, or else [baseDelay * 2^attempt]; never more than
    [maxDelay]. *)
Definition claimedDelay (cfg : RetryConfig) (attempt : Z) (err : error) : Duration :=
  match err with
  | ProviderErr e =>
      if (Code e =? 429) && (0 <? RetryAfter e)
      then Z.min (RetryAfter e * Second) (MaxDelay cfg)
      else Z.min (BaseDelay cfg * 2 ^ attempt) (MaxDelay cfg)
  | _ => Z.min (BaseDelay cfg * 2 ^ attempt) (MaxDelay cfg)
  end.

(** The products the delay is computed from fit in an [int64]. *)
Definition delayInRange (cfg : RetryConfig) (attempt : Z) (err : error) : Prop :=
  inInt64 (BaseDelay cfg * 2 ^ attempt)
  /\ (0 < GetRetryAfterSeconds err -> inInt64 (GetRetryAfterSeconds err * Second)).

(** The error of a failed attempt. *)
Definition failure (r : option error) : error :=
  match r with
  | Some e => e
  | None => Errorf ""
  end.

Definition retryable (r : option error) : Prop :=
  exists e, r = Some e /\ IsRetryableError e = true.

(** The delays waited after the first [k] attempts of a run that starts when
    the operation has been invoked [c] times; [outcome n] is the answer to
    the n-th invocation. *)
Definition delaysOf (outcome : nat -> option error)
           (delay : Z -> error -> Duration) (c k : nat) : list Duration :=
  map (fun i => delay (Z.of_nat i) (failure (outcome (c + i)%nat))) (seq 0 k).

(** After [k] retryable failures the loop ends with attempt [k+1] when that
    attempt succeeds, fails for good, or is the last one allowed. *)
Definition final (cfg : RetryConfig) (k : nat) (r : option error) : Prop :=
  match r with
  | None => True
  | Some e => IsRetryableError e = false \/ Z.of_nat k = MaxRetries cfg
  end.

End RetrySpec.

(** ** Vocabulary for the orchestrator's properties *)

Module Orchestration.
Import GoTime domain ports service.
Local Open Scope string_scope.

(** The message an inbound SMS webhook is recorded as. *)
Definition smsRecord (webhook : InboundSMSWebhook.t) : Message.t :=
  buildInboundMessage (InboundSMSWebhook.From webhook) (InboundSMSWebhook.To webhook)
    (InboundSMSWebhook.Type_ webhook) (InboundSMSWebhook.Body webhook)
    (InboundSMSWebhook.Attachments webhook) (InboundSMSWebhook.Timestamp webhook)
    (InboundSMSWebhook.MessagingProviderID webhook).

(** The message an inbound email webhook is recorded as. *)
Definition emailRecord (webhook : InboundEmailWebhook.t) : Message.t :=
  buildInboundMessage (InboundEmailWebhook.From webhook) (InboundEmailWebhook.To webhook)
    MessageTypeEmail (InboundEmailWebhook.Body webhook)
    (InboundEmailWebhook.Attachments webhook) (InboundEmailWebhook.Timestamp webhook)
    (InboundEmailWebhook.XillioID webhook).

(** The message an outbound SMS or MMS request is recorded as. *)
Definition smsOutbound (req : SendSMSRequest.t) : Message.t :=
  buildOutboundMessage (SendSMSRequest.From req) (SendSMSRequest.To req)
    (SendSMSRequest.Type_ req) (SendSMSRequest.Body req)
    (SendSMSRequest.Attachments req) (SendSMSRequest.Timestamp req).

(** The message an outbound email request is recorded as. *)
Definition emailOutbound (req : SendEmailRequest.t) : Message.t :=
  buildOutboundMessage (SendEmailRequest.From req) (SendEmailRequest.To req)
    MessageTypeEmail (SendEmailRequest.Body req)
    (SendEmailRequest.Attachments req) (SendEmailRequest.Timestamp req).

(** What an inbound handler does once the webhook is validated and the
    lookup by provider id has answered [found] in world [w]: nothing more
    when a message came back without an error, the creation of the record
    in every other case. *)
Definition afterLookup {W : Type} (rt : Runtime W) (s : messagingService W)
           (ctx : Context) (record : Message.t)
           (found : option Message.t * option error) (w : W) : option error * W :=
  match found with
  | (Some _, None) => (None, w)
  | _ =>
      let created := createMessageRecord W rt s ctx record w in
      (wrapCreateError (fst created), snd created)
  end.

(** *** Over the postgres repositories *)

Import postgres.
Local Open Scope list_scope.

(** The two tables hold the same rows. *)
Definition sameRows (w w' : World) : Prop :=
  conversations w' = conversations w /\ messages w' = messages w.

(** No provider was called and no delay was waited. *)
Definition quiet (w w' : World) : Prop :=
  smsCalls w' = smsCalls w /\ emailCalls w' = emailCalls w /\ sleeps w' = sleeps w.

(** At most one conversation row was added. *)
Definition atMostOneConversation (w w' : World) : Prop :=
  conversations w' = conversations w
  \/ exists c, conversations w' = conversations w ++ [c].

(** Every SQL statement succeeds; every statement from number [n] on does. *)
Definition healthy (env : Env) : Prop := forall k, dbFails env k = false.

Definition healthyFrom (env : Env) (n : nat) : Prop :=
  forall k, (n <= k)%nat -> dbFails env k = false.

(** The messages with a given provider id. *)
Definition withProviderID (providerMessageID : string) (w : World) : list Message.t :=
  filter (hasProviderID providerMessageID) (messages w).

(** What a failing lookup lets through, for a handler, its validation and
    the provider id it keys on: when the webhook is valid, the statement of
    the lookup fails and the statements after it succeed, the handler returns
    success and has added a message row with that provider id, next to the
    rows that carry it already. *)
Definition duplicatesOnLookupError {A : Type} (env : Env)
           (handle validate : option A -> M World (option error))
           (idOf : A -> string) : Prop :=
  forall (webhook : A) (w : World),
    fst (validate (Some webhook) w) = None ->
    let wv := snd (validate (Some webhook) w) in
    dbFails env (statements wv) = true ->
    healthyFrom env (S (statements wv)) ->
    let w' := snd (handle (Some webhook) w) in
    fst (handle (Some webhook) w) = None
    /\ (exists m, messages w' = messages w ++ [m]
                  /\ Message.MessagingProviderID m = Some (idOf webhook))
    /\ List.length (withProviderID (idOf webhook) w')
       = S (List.length (withProviderID (idOf webhook) w)).

(** Idempotent ingestion, for a handler, its validation and the provider id
    it keys on: two valid webhooks with the same provider id, handled one
    after the other from a store that holds no message with that id, both
    return success; the first leaves exactly one new message, with that id
    and status [delivered]; the second changes no row, calls no provider and
    waits for nothing. *)
Definition replayIdempotent {A : Type}
           (handle validate : option A -> M World (option error))
           (idOf : A -> string) : Prop :=
  forall (first replay : A) (w : World),
    idOf replay = idOf first ->
    find (hasProviderID (idOf first)) (messages w) = None ->
    fst (validate (Some first) w) = None ->
    let w1 := snd (handle (Some first) w) in
    fst (validate (Some replay) w1) = None ->
    let w2 := snd (handle (Some replay) w1) in
    fst (handle (Some first) w) = None
    /\ fst (handle (Some replay) w1) = None
    /\ (exists m, messages w1 = messages w ++ [m]
                  /\ Message.MessagingProviderID m = Some (idOf first)
                  /\ Message.Status m = "delivered")
    /\ sameRows w1 w2 /\ quiet w1 w2
    /\ List.length (filter (hasProviderID (idOf first)) (messages w2)) = 1%nat.

(** Outbound persistence, for a send operation, its validation and its
    provider call with retries: a request that fails validation, or whose
    provider call ends in an error, returns an error and leaves both tables
    as they were; a call that returns success has added exactly one message
    row, with status [pending], and at most one conversation row. *)
Definition persistsOnSuccessOnly {A : Type}
           (send validate : option A -> M World (option error))
           (deliver : A -> M World (option error)) : Prop :=
  forall (req : option A) (w : World),
    let w' := snd (send req w) in
    (fst (validate req w) <> None -> fst (send req w) <> None /\ sameRows w w')
    /\ (forall r, req = Some r ->
                  fst (validate req w) = None ->
                  fst (deliver r (snd (validate req w))) <> None ->
                  fst (send req w) <> None /\ sameRows w w')
    /\ (fst (send req w) = None ->
        (exists m, messages w' = messages w ++ [m] /\ Message.Status m = "pending")
        /\ atMostOneConversation w w').

(** When the duplicate-suppression branch is taken, for a handler, its
    validation, the provider id it keys on and the record it builds: with a
    valid webhook, the handler stops with success right after the lookup when
    the lookup answered a message and no error; when the lookup answered an
    error, or no message, the handler goes on to create the record and
    returns what the creation returns. *)
Definition suppressesOnlyOnHit {A : Type} (env : Env) (cfg : RetryConfig)
           (ctx : Context) (handle validate : option A -> M World (option error))
           (idOf : A -> string) (record : A -> Message.t) : Prop :=
  forall (webhook : A) (w : World),
    fst (validate (Some webhook) w) = None ->
    let lookup :=
      GetByProviderMessageID env ctx (idOf webhook) (snd (validate (Some webhook) w)) in
    let created :=
      createMessageRecord World (runtime env) (NewMessagingServiceWithConfig env cfg)
        ctx (record webhook) (snd lookup) in
    (forall m, fst lookup = (Some m, None) ->
               handle (Some webhook) w = (None, snd lookup))
    /\ (snd (fst lookup) <> None \/ fst (fst lookup) = None ->
        handle (Some webhook) w = (wrapCreateError (fst created), snd created)).

End Orchestration.

(** ** Scenarios

    The requests and webhooks of the unit tests and of the specification's
    scenarios, at a fixed clock reading, with the environments they run in. *)

Module Scenario.
Import GoTime domain service postgres.
Local Open Scope string_scope.
Local Open Scope Z_scope.

(** 2026-10-30T12:00:00Z, the reading of every clock. *)
Definition noon : Time := Date 2026 10 30 12 0 0 0 UTC.

(** One minute earlier, the timestamp of the requests. *)
Definition sentAt : Time := Date 2026 10 30 11 59 0 0 UTC.

Definition error500 : error :=
  ProviderErr (mkProviderError 500 "Internal server error" 0).

Definition error429 : error :=
  ProviderErr (mkProviderError 429 "Too many requests" 30).

Definition error400 : error :=
  ProviderErr (mkProviderError 400 "Bad request" 0).

Definition noListing (query : ConversationQuery.t) (table : list Conversation.t)
  : list Conversation.t * Z := ([], 0).

(** Nothing fails. *)
Definition calm : Env :=
  mkEnv (fun _ => noon) (fun _ => noon) (fun _ => false) (fun _ => None)
        (fun _ => None) noListing (fun _ => false).

(** The SMS provider always answers 500. *)
Definition always500 : Env :=
  mkEnv (fun _ => noon) (fun _ => noon) (fun _ => false) (fun _ => Some error500)
        (fun _ => None) noListing (fun _ => false).

(** The SMS provider answers 500, then 429 with a retry-after of 30 seconds,
    then 500, then succeeds. *)
Definition flaky : Env :=
  mkEnv (fun _ => noon) (fun _ => noon) (fun _ => false)
        (fun n => nth n [Some error500; Some error429; Some error500] None)
        (fun _ => None) noListing (fun _ => false).

(** The fifth SQL statement fails: after a first webhook (lookup, lookup of
    the conversation, two inserts) it is the lookup of the replay. *)
Definition lookupDown : Env :=
  mkEnv (fun _ => noon) (fun _ => noon) (fun n => Nat.eqb n 4) (fun _ => None)
        (fun _ => None) noListing (fun _ => false).

(** The SMS provider always answers 400. *)
Definition always400 : Env :=
  mkEnv (fun _ => noon) (fun _ => noon) (fun _ => false) (fun _ => Some error400)
        (fun _ => None) noListing (fun _ => false).

(** The SMS provider answers 429 once, asking to retry after 9223372037
    seconds (a little more than the nanoseconds of an [int64] can count), then
    succeeds. *)
Definition error429Huge : error :=
  ProviderErr (mkProviderError 429 "Too many requests" 9223372037).

Definition patient : Env :=
  mkEnv (fun _ => noon) (fun _ => noon) (fun _ => false)
        (fun n => nth n [Some error429Huge] None) (fun _ => None) noListing
        (fun _ => false).

(** A context that is done whenever the loop starts to wait. *)
Definition cancelled : Context := WithCancel (fun _ => true).

(** A retry policy with a negative number of retries. *)
Definition noAttempt : RetryConfig := mkRetryConfig (-1) Second Minute (2, 1).

(** The listing answers one conversation of two. *)
Definition firstOfTwo : Conversation.t :=
  Conversation.mk 1 "+12016661234" "+18045551234" noon noon [].

Definition twoConversations : Env :=
  mkEnv (fun _ => noon) (fun _ => noon) (fun _ => false) (fun _ => None)
        (fun _ => None) (fun _ _ => ([firstOfTwo], 2)) (fun _ => false).

Definition inboundSMS : InboundSMSWebhook.t :=
  InboundSMSWebhook.mk "+18045551234" "+12016661234" "sms" "message-1"
    "This is an incoming SMS message" [] sentAt.

Definition inboundEmail : InboundEmailWebhook.t :=
  InboundEmailWebhook.mk "contact@gmail.com" "user@usehatchapp.com" "message-3"
    "This is an incoming email" [] sentAt.

Definition outboundSMS : SendSMSRequest.t :=
  SendSMSRequest.mk "+12016661234" "+18045551234" "sms" "hi" [] sentAt.

Definition listFirstPage : ConversationQuery.t :=
  ConversationQuery.mk "" "+12016661234" "" zero zero "" 1 0 "" "" false.

(** Two conversations match, the page asked for is past them. *)
Definition pastTheEnd : Env :=
  mkEnv (fun _ => noon) (fun _ => noon) (fun _ => false) (fun _ => None)
        (fun _ => None) (fun _ _ => ([], 2)) (fun _ => false).

(** The same listing from the largest offset an [int] can hold. *)
Definition listFromMaxOffset : ConversationQuery.t :=
  ConversationQuery.mk "" "+12016661234" "" zero zero "" 1 maxInt64 "" "" false.

Definition queries (env : Env) : conversationService World :=
  mkConversationService World (conversationRepository env) (messageRepository env).

End Scenario.

(** ** Vocabulary for the properties of the store and of the retry loop *)

Module Store.
Import GoStrings GoTime domain ports service postgres.
Local Open Scope string_scope.
Local Open Scope list_scope.
Local Open Scope Z_scope.

(** [l'] is [l] with at most one element appended; nothing of [l] is
    changed or removed. *)
Definition grownByAtMostOne {A : Type} (l l' : list A) : Prop :=
  l' = l \/ exists x, l' = l ++ [x].

(** No two rows of the table [conversations] are for the same two contacts,
    in either order. *)
Definition uniquePairs (w : World) : Prop :=
  forall i j c d,
    nth_error (conversations w) i = Some c ->
    nth_error (conversations w) j = Some d ->
    matchesContacts (Conversation.CustomerContact c) (Conversation.BusinessContact c) d
    = true ->
    i = j.


(** The row [m] is what the [INSERT] of [messageRepository.Create] makes of
    the message [record]: the fields the statement lists are those of the
    record, and the error code and the error message, which it does not
    list, are [NULL]. *)
Definition insertedAs (record m : Message.t) : Prop :=
  Message.From m = Message.From record
  /\ Message.To m = Message.To record
  /\ Message.Type_ m = Message.Type_ record
  /\ Message.Body m = Message.Body record
  /\ Message.Attachments m = Message.Attachments record
  /\ Message.Status m = Message.Status record
  /\ Message.Timestamp m = Message.Timestamp record
  /\ Message.MessagingProviderID m = Message.MessagingProviderID record
  /\ Message.ErrorCode m = None
  /\ Message.ErrorMessage m = None.

(** [m2] goes between the same two parties as [m1], in the same direction
    or in the other. *)
Definition sameParties (m1 m2 : Message.t) : Prop :=
  (Message.From m2 = Message.From m1 /\ Message.To m2 = Message.To m1)
  \/ (Message.From m2 = Message.To m1 /\ Message.To m2 = Message.From m1).

(** The delays waited between two worlds. *)
Definition waitedBetween (w w' : World) (delays : list Duration) : Prop :=
  sleeps w' = sleeps w ++ delays.

(** What the operations handed to the retry loop do to the world: they call
    one provider once, or fail for good without a call. *)
Definition callsOnce (env : Env) (operation : M World (option error)) : Prop :=
  forall w,
    operation w = smsCall env w \/ operation w = emailCall env w
    \/ exists e, operation w = (Some e, w) /\ IsRetryableError e = false.

(** The result [r] of a run of the retry loop from [w] to [w'], read against
    the answers of the operation ([calls] counts its invocations, the n-th of
    which answers [outcome n]): every invocation but the last failed with a
    retryable error; success is the answer of the last invocation; an error
    is the answer of the last invocation, or the error of the context after
    a wait, or, when the operation was not invoked at all, the error of a
    loop without a turn. *)
Definition reported {W : Type} (rt : Runtime W) (ctx : Context)
           (calls : W -> nat) (outcome : nat -> option error)
           (w w' : W) (r : option error) : Prop :=
  (calls w <= calls w')%nat
  /\ (forall k, (calls w <= k)%nat -> (S k < calls w')%nat ->
                exists e, outcome k = Some e /\ IsRetryableError e = true)
  /\ match r with
     | None => (calls w < calls w')%nat /\ outcome (pred (calls w')) = None
     | Some e =>
         ((calls w < calls w')%nat /\ outcome (pred (calls w')) = Some e)
         \/ ((calls w < calls w')%nat /\ exists d w0, fst (Wait rt ctx d w0) = Some e)
         \/ (calls w' = calls w /\ e = Errorf "max retries exceeded")
     end.

(** The service with another [Multiplier] in its retry policy. *)
Definition withMultiplier {W : Type} (s : messagingService W) (multiplier : Z * Z)
  : messagingService W :=
  mkMessagingService W (conversationRepo s) (messageRepo s) (smsProvider s)
    (emailProvider s)
    (mkRetryConfig (MaxRetries (retryConfig s)) (BaseDelay (retryConfig s))
                   (MaxDelay (retryConfig s)) multiplier).

(** One of the six ASCII white-space bytes: tab, line feed, vertical tab,
    form feed, carriage return, space. *)
Definition asciiSpace (c : ascii) : bool :=
  let n := N_of_ascii c in ((9 <=? n) && (n <=? 13) || (n =? 32))%N.

(** A string of ASCII white space only (the empty string included). *)
Fixpoint blank (s : string) : bool :=
  match s with
  | EmptyString => true
  | String c s' => asciiSpace c && blank s'
  end.

End Store.

(** ** The rest of the postgres repositories

    The methods of the postgres repositories that the messaging service
    does not call: the lookups by id, the update of a message, and the SQL
    text and arguments that [List] builds from a query. *)

From Stdlib Require DecimalString Sorting.Sorted Sorting.Permutation.

Module strconv.

(** [strconv.Itoa], which is also what [%d] prints. *)
Definition Itoa (n : Z) : string := DecimalString.NilZero.string_of_int (Z.to_int n).

End strconv.

Module ListQuery.
Import GoTime strconv.
Local Open Scope list_scope.
Local Open Scope Z_scope.
Local Open Scope string_scope.

(** The arguments bound to the placeholders of a statement. *)
Inductive Arg : Type :=
| TimeArg (t : Time)
| StringArg (s : string)
| IntArg (n : Z).

(** Go's [append(slice, x)]. *)
Definition append {A : Type} (slice : list A) (x : A) : list A := (slice ++ [x])%list.

Definition nl : string := String (ascii_of_nat 10) "".
Definition tab : string := String (ascii_of_nat 9) "".

(** The two raw string literals [List] starts from. *)
Definition baseSelect : string :=
  nl ++ tab ++ tab
  ++ "SELECT id, customer_contact, business_contact, created_at, updated_at"
  ++ nl ++ tab ++ tab ++ "FROM conversations"
  ++ nl ++ tab ++ tab ++ "WHERE 1=1" ++ nl ++ tab.

Definition countSelect : string :=
  nl ++ tab ++ tab ++ "SELECT COUNT(*)"
  ++ nl ++ tab ++ tab ++ "FROM conversations"
  ++ nl ++ tab ++ tab ++ "WHERE 1=1" ++ nl ++ tab.

(** The filters: [conditions], [args] and [argIndex] after the five [if]
    blocks of [List]. *)
Definition filters (query : ConversationQuery.t) : list string * list Arg * Z :=
  let args : list Arg := [] in
  let conditions : list string := [] in
  let argIndex := 1 in
  let '(conditions, args, argIndex) :=
    if negb (IsZero (ConversationQuery.From query)) then
      (append conditions ("updated_at >= $" ++ Itoa argIndex),
       append args (TimeArg (ConversationQuery.From query)), argIndex + 1)
    else (conditions, args, argIndex) in
  let '(conditions, args, argIndex) :=
    if negb (IsZero (ConversationQuery.To query)) then
      (append conditions ("updated_at <= $" ++ Itoa argIndex),
       append args (TimeArg (ConversationQuery.To query)), argIndex + 1)
    else (conditions, args, argIndex) in
  let '(conditions, args, argIndex) :=
    if negb (String.eqb (ConversationQuery.Search query) "") then
      let searchCondition :=
        "(customer_contact ILIKE $" ++ Itoa argIndex
        ++ " OR business_contact ILIKE $" ++ Itoa argIndex ++ ")" in
      (append conditions searchCondition,
       append args (StringArg ("%" ++ ConversationQuery.Search query ++ "%")),
       argIndex + 1)
    else (conditions, args, argIndex) in
  let '(conditions, args, argIndex) :=
    if negb (String.eqb (ConversationQuery.BusinessEmail query) "") then
      let emailCondition := "business_contact ILIKE $" ++ Itoa argIndex in
      (append conditions emailCondition,
       append args (StringArg ("%" ++ ConversationQuery.BusinessEmail query ++ "%")),
       argIndex + 1)
    else (conditions, args, argIndex) in
  let '(conditions, args, argIndex) :=
    if negb (String.eqb (ConversationQuery.BusinessPhone query) "") then
      let phoneCondition := "business_contact ILIKE $" ++ Itoa argIndex in
      (append conditions phoneCondition,
       append args (StringArg ("%" ++ ConversationQuery.BusinessPhone query ++ "%")),
       argIndex + 1)
    else (conditions, args, argIndex) in
  (conditions, args, argIndex).

(** [for _, condition := range conditions { q += " AND " + condition }]. *)
Definition addConditions (q : string) (conditions : list string) : string :=
  fold_left (fun q condition => q ++ " AND " ++ condition) conditions q.

Definition sortOrder (query : ConversationQuery.t) : string :=
  if String.eqb (ConversationQuery.SortOrder query) "asc" then "ASC" else "DESC".

(** The map [validSortFields]; a key that is not in a Go map reads as
    [false]. *)
Definition validSortFields (field : string) : bool :=
  String.eqb field "id" || String.eqb field "created_at"
  || String.eqb field "updated_at" || String.eqb field "customer_contact"
  || String.eqb field "business_contact".

Definition sortBy (query : ConversationQuery.t) : string :=
  if negb (String.eqb (ConversationQuery.SortBy query) "") then
    if validSortFields (ConversationQuery.SortBy query)
    then ConversationQuery.SortBy query
    else "updated_at"
  else "updated_at".

(** The statement that counts and its arguments. *)
Definition countQuery (query : ConversationQuery.t) : string * list Arg :=
  let '(conditions, args, argIndex) := filters query in
  (addConditions countSelect conditions, args).

(** The statement that lists and its arguments. *)
Definition baseQuery (query : ConversationQuery.t) : string * list Arg :=
  let '(conditions, args, argIndex) := filters query in
  let q := addConditions baseSelect conditions in
  let q := q ++ (" ORDER BY " ++ sortBy query ++ " " ++ sortOrder query) in
  let q := q ++ (" LIMIT $" ++ Itoa argIndex ++ " OFFSET $" ++ Itoa (argIndex + 1)) in
  (q, (args ++ [IntArg (ConversationQuery.Limit query);
                IntArg (ConversationQuery.Offset query)])%list).

(** *** Reading a statement back

    The numbers of the placeholders [$n] of a statement, from left to right.
    The state is [None] outside a placeholder, [Some None] right after a
    [$], and [Some (Some n)] while the digits of [n] are read. *)
Definition digit (c : ascii) : option Z :=
  let n := Z.of_N (N_of_ascii c) in
  if ((48 <=? n) && (n <=? 57))%Z then Some (n - 48) else None.

Definition afterByte (c : ascii) : option (option Z) :=
  if Ascii.eqb c "$" then Some None else None.

Fixpoint placeholdersFrom (s : string) (state : option (option Z)) : list Z :=
  match s with
  | EmptyString =>
      match state with
      | Some (Some n) => [n]
      | _ => []
      end
  | String c s' =>
      match state, digit c with
      | Some None, Some d => placeholdersFrom s' (Some (Some d))
      | Some (Some n), Some d => placeholdersFrom s' (Some (Some (10 * n + d)))
      | Some (Some n), None => n :: placeholdersFrom s' (afterByte c)
      | _, _ => placeholdersFrom s' (afterByte c)
      end
  end.

Definition placeholders (s : string) : list Z := placeholdersFrom s None.

(** The query with another [message_type]. *)
Definition withMessageType (query : ConversationQuery.t) (messageType : string)
  : ConversationQuery.t :=
  ConversationQuery.mk
    (ConversationQuery.BusinessEmail query) (ConversationQuery.BusinessPhone query)
    (ConversationQuery.Search query) (ConversationQuery.From query)
    (ConversationQuery.To query) messageType
    (ConversationQuery.Limit query) (ConversationQuery.Offset query)
    (ConversationQuery.SortBy query) (ConversationQuery.SortOrder query)
    (ConversationQuery.IncludeMessages query).

(** What of a query decides the text of the two statements: which filters
    are set, the sort column when it is one of the five allowed, and whether
    the order is ["asc"]. *)
Definition shape (query : ConversationQuery.t)
  : bool * bool * bool * bool * bool * string * bool :=
  (IsZero (ConversationQuery.From query), IsZero (ConversationQuery.To query),
   String.eqb (ConversationQuery.Search query) "",
   String.eqb (ConversationQuery.BusinessEmail query) "",
   String.eqb (ConversationQuery.BusinessPhone query) "",
   sortBy query,
   String.eqb (ConversationQuery.SortOrder query) "asc").

End ListQuery.

Module repository.
Import GoTime domain ports service postgres.
Local Open Scope string_scope.
Local Open Scope list_scope.
Local Open Scope Z_scope.
Local Open Scope go_scope.

Section WithEnv.
Variable env : Env.

(** [conversationRepository.GetByID]: the row with that id; no row is
    [nil, nil]. *)
Definition ConversationRepository_GetByID (ctx : Context) (id : Z)
  : M World (option Conversation.t * option error) :=
  st <- statement env ;;
  let '(failed, n) := st in
  if failed then
    ret (None, Some (Wrapf "failed to get conversation by ID: %w" driverError))
  else
    table <- rows conversations ;;
    ret (find (fun c => Conversation.ID c =? id) table, None).

(** [messageRepository.GetByID]. *)
Definition MessageRepository_GetByID (ctx : Context) (id : Z)
  : M World (option Message.t * option error) :=
  st <- statement env ;;
  let '(failed, n) := st in
  if failed then
    ret (None, Some (Wrapf "failed to get message by ID: %w" driverError))
  else
    table <- rows messages ;;
    ret (find (fun m => Message.ID m =? id) table, None).

(** The row [row] after
    [UPDATE messages SET status = $1, error_code = $2, error_message = $3,
     updated_at = CURRENT_TIMESTAMP WHERE id = $4]. *)
Definition updated (message : Message.t) (now : Time) (row : Message.t) : Message.t :=
  if Message.ID row =? Message.ID message then
    Message.mk (Message.ID row) (Message.ConversationID row) (Message.From row)
               (Message.To row) (Message.Type_ row) (Message.Body row)
               (Message.Attachments row) (Message.Status message)
               (Message.ErrorCode message) (Message.ErrorMessage message)
               (Message.Timestamp row) (Message.MessagingProviderID row)
               (Message.CreatedAt row) now
  else row.

Definition updateMessages (f : Message.t -> Message.t) : M World unit :=
  fun w =>
    (tt, mkWorld (conversations w) (map f (messages w)) (statements w)
                 (smsCalls w) (emailCalls w) (sleeps w) (ticks w)).

(** [messageRepository.Update]: the result of the statement (the number of
    rows it changed) is dropped; only its error is looked at. *)
Definition MessageRepository_Update (ctx : Context) (message : Message.t)
  : M World (option error) :=
  st <- statement env ;;
  let '(failed, n) := st in
  if failed then ret (Some (Wrapf "failed to update message: %w" driverError))
  else
    _ <- updateMessages (updated message (dbClock env n)) ;;
    ret None.

(** What [Update] leaves alone in a row: everything but the status, the
    error code, the error message and the date of the last change. *)
Definition sameContent (old row : Message.t) : Prop :=
  Message.ID row = Message.ID old
  /\ Message.ConversationID row = Message.ConversationID old
  /\ Message.From row = Message.From old
  /\ Message.To row = Message.To old
  /\ Message.Type_ row = Message.Type_ old
  /\ Message.Body row = Message.Body old
  /\ Message.Attachments row = Message.Attachments old
  /\ Message.Timestamp row = Message.Timestamp old
  /\ Message.MessagingProviderID row = Message.MessagingProviderID old
  /\ Message.CreatedAt row = Message.CreatedAt old.

(** [a] was not created after [b]. *)
Definition notAfter (a b : Message.t) : Prop :=
  Before (Message.CreatedAt b) (Message.CreatedAt a) = false.

(** Messages in the order of their creation, the oldest first. *)
Definition oldestFirst (l : list Message.t) : Prop := Sorted.Sorted notAfter l.

(** The rows of a conversation. *)
Definition ofConversation (conversationID : Z) (w : World) : list Message.t :=
  filter (fun m => Message.ConversationID m =? conversationID) (messages w).

(** What [GetByConversationID] answers when its statement succeeds. *)
Definition messagesOf (conversationID : Z) (w : World) : list Message.t :=
  fold_left (fun acc m => insertByCreatedAt m acc) (ofConversation conversationID w) [].

(** [NewConversationService] over the postgres repositories. *)
Definition NewConversationService : conversationService World :=
  mkConversationService World (conversationRepository env) (messageRepository env).

End WithEnv.

End repository.

(** ** Package [service]: the messages of a conversation *)

Module conversations.
Import domain ports service.
Local Open Scope string_scope.
Local Open Scope go_scope.

Section GetConversationMessages.
Variable W : Type.

(** [conversationRepo.GetByID], the method of [ConversationRepository] that
    only this operation calls. *)
Variable GetByID : Context -> Z -> M W (option Conversation.t * option error).
Variable s : conversationService W.

Definition GetConversationMessages (ctx : Context) (conversationID : Z)
  : M W (list Message.t + error) :=
  r <- GetByID ctx conversationID ;;
  match r with
  | (_, Some err) => ret (inr (Wrapf "failed to get conversation: %w" err))
  | (None, None) => ret (inr (Errorf "conversation not found: %d"))
  | (Some conversation, None) =>
      m <- GetByConversationID (cs_messageRepo s) ctx conversationID ;;
      match m with
      | inr err =>
          ret (inr (Wrapf "failed to get messages for conversation %d: %w" err))
      | inl messages => ret (inl messages)
      end
  end.

End GetConversationMessages.

End conversations.

(** ** Package [provider]

    The mock SMS provider, the two email providers and the factory that
    picks one.  A method with a pointer receiver takes the provider and
    answers it back with its result; what it needs from outside (the clock,
    the standard output) is an effect on the world. *)

Module provider.
Import GoTime domain strconv.
Local Open Scope string_scope.
Local Open Scope list_scope.
Local Open Scope Z_scope.
Local Open Scope go_scope.

Record MockSMSMessage : Type := mkMockSMSMessage {
  sms_From : string;
  sms_To : string;
  sms_Body : string;
  sms_Attachments : list string;
  sms_Timestamp : Time
}.

Record MockSMSProvider : Type := mkMockSMSProvider {
  sms_messages : list MockSMSMessage;
  sms_shouldFail : bool;
  sms_errorCode : Z
}.

Definition NewMockSMSProvider : MockSMSProvider := mkMockSMSProvider [] false 0.

Definition NewMockSMSProviderWithFailure : MockSMSProvider :=
  mkMockSMSProvider [] true 500.

Definition NewMockSMSProviderWithErrorCode (errorCode : Z) : MockSMSProvider :=
  mkMockSMSProvider [] true errorCode.

Record MockEmailMessage : Type := mkMockEmailMessage {
  email_From : string;
  email_To : string;
  email_Body : string;
  email_Attachments : list string;
  email_Timestamp : Time
}.

Record MockEmailProvider : Type := mkMockEmailProvider {
  email_messages : list MockEmailMessage;
  email_shouldFail : bool;
  email_errorCode : Z
}.

Definition NewMockEmailProvider : MockEmailProvider := mkMockEmailProvider [] false 0.

Definition NewMockEmailProviderWithFailure : MockEmailProvider :=
  mkMockEmailProvider [] true 500.

Definition NewMockEmailProviderWithErrorCode (errorCode : Z) : MockEmailProvider :=
  mkMockEmailProvider [] true errorCode.

(** [SendGridEmailProvider]; its HTTP client is only given a timeout. *)
Record SendGridEmailProvider : Type := mkSendGridEmailProvider {
  apiKey : string;
  httpClientTimeout : Duration;
  sg_shouldFail : bool;
  sg_errorCode : Z
}.

Definition NewSendGridEmailProvider (apiKey : string) : SendGridEmailProvider :=
  mkSendGridEmailProvider apiKey (30 * Second) false 0.

Definition SetFailureMode (p : SendGridEmailProvider) (shouldFail : bool)
           (errorCode : Z) : SendGridEmailProvider :=
  mkSendGridEmailProvider (apiKey p) (httpClientTimeout p) shouldFail errorCode.

Section Methods.
Variable W : Type.
Variable Now : M W Time.                 (* time.Now() *)
Variable Printf : string -> M W unit.    (* fmt.Printf, already formatted *)

Definition MockSMSProvider_SendSMS (p : MockSMSProvider) (ctx : Context)
           (from to body : string) : M W (option error * MockSMSProvider) :=
  if sms_shouldFail p then
    if sms_errorCode p =? 500 then
      ret (Some (ProviderErr (mkProviderError 500 "Internal server error" 0)), p)
    else if sms_errorCode p =? 429 then
      ret (Some (ProviderErr (mkProviderError 429 "Too many requests" 30)), p)
    else ret (Some (Errorf "mock SMS provider failure"), p)
  else
    now <- Now ;;
    let message := mkMockSMSMessage from to body [] now in
    ret (None, mkMockSMSProvider (sms_messages p ++ [message]) (sms_shouldFail p)
                 (sms_errorCode p)).

Definition MockSMSProvider_SendMMS (p : MockSMSProvider) (ctx : Context)
           (from to body : string) (attachments : list string)
  : M W (option error * MockSMSProvider) :=
  if sms_shouldFail p then
    if sms_errorCode p =? 500 then
      ret (Some (ProviderErr (mkProviderError 500 "Internal server error" 0)), p)
    else if sms_errorCode p =? 429 then
      ret (Some (ProviderErr (mkProviderError 429 "Too many requests" 30)), p)
    else ret (Some (Errorf "mock MMS provider failure"), p)
  else
    now <- Now ;;
    let message := mkMockSMSMessage from to body attachments now in
    ret (None, mkMockSMSProvider (sms_messages p ++ [message]) (sms_shouldFail p)
                 (sms_errorCode p)).

(** [GetMessages] answers a copy of the messages sent. *)
Definition MockSMSProvider_GetMessages (p : MockSMSProvider) : list MockSMSMessage :=
  sms_messages p.

Definition MockSMSProvider_ClearMessages (p : MockSMSProvider) : MockSMSProvider :=
  mkMockSMSProvider [] (sms_shouldFail p) (sms_errorCode p).

Definition MockEmailProvider_SendEmail (p : MockEmailProvider) (ctx : Context)
           (from to body : string) (attachments : list string)
  : M W (option error * MockEmailProvider) :=
  if email_shouldFail p then
    if email_errorCode p =? 500 then
      ret (Some (ProviderErr (mkProviderError 500 "Internal server error" 0)), p)
    else if email_errorCode p =? 429 then
      ret (Some (ProviderErr (mkProviderError 429 "Too many requests" 30)), p)
    else ret (Some (Errorf "mock email provider failure"), p)
  else
    now <- Now ;;
    let message := mkMockEmailMessage from to body attachments now in
    ret (None, mkMockEmailProvider (email_messages p ++ [message]) (email_shouldFail p)
                 (email_errorCode p)).

Definition MockEmailProvider_GetMessages (p : MockEmailProvider)
  : list MockEmailMessage := email_messages p.

Definition MockEmailProvider_ClearMessages (p : MockEmailProvider) : MockEmailProvider :=
  mkMockEmailProvider [] (email_shouldFail p) (email_errorCode p).

Definition SendGridEmailProvider_SendEmail (p : SendGridEmailProvider) (ctx : Context)
           (from to body : string) (attachments : list string)
  : M W (option error * SendGridEmailProvider) :=
  if sg_shouldFail p then
    ret (Some (ProviderErr
                 (mkProviderError (sg_errorCode p)
                    ("SendGrid error: " ++ Itoa (sg_errorCode p))%string 0)), p)
  else
    _ <- Printf ("SendGrid: Sending email from " ++ from ++ " to " ++ to
                 ++ String (ascii_of_nat 10) "")%string ;;
    ret (None, p).

End Methods.

(** The value behind a [domain.EmailProvider]. *)
Inductive EmailProviderImpl : Type :=
| Mock (p : MockEmailProvider)
| SendGrid (p : SendGridEmailProvider).

Definition EmailProviderMock : string := "mock".
Definition EmailProviderSendGrid : string := "sendgrid".

(** A [map[string]string], read with [config[key]]: a key that is not in the
    map reads as the empty string. *)
Fixpoint lookup (config : list (string * string)) (key : string) : string :=
  match config with
  | [] => ""
  | (k, v) :: rest => if String.eqb k key then v else lookup rest key
  end.

Definition NewEmailProvider (providerType : string) (config : list (string * string))
  : EmailProviderImpl :=
  if String.eqb providerType EmailProviderSendGrid then
    SendGrid (NewSendGridEmailProvider (lookup config "api_key"))
  else Mock NewMockEmailProvider.

End provider.

(** ** Package [container]: the application, wired

    The world of the running application: the database with the clock and
    the waits, the two providers the container created, and what was printed.
    The repositories and the runtime are those of [postgres], acting on the
    database part. *)

Module container.
Import GoTime domain ports service provider.
Local Open Scope string_scope.
Local Open Scope list_scope.
Local Open Scope Z_scope.
Local Open Scope go_scope.

Record World : Type := mkWorld {
  DB : postgres.World;
  SMSProvider : MockSMSProvider;
  EmailProvider : EmailProviderImpl;
  stdout : list string
}.

Section WithEnv.
Variable env : postgres.Env.

Definition onDB {A : Type} (m : M postgres.World A) : M World A :=
  fun w =>
    let (a, db) := m (DB w) in
    (a, mkWorld db (SMSProvider w) (EmailProvider w) (stdout w)).

Definition ConversationRepo : ConversationRepository World :=
  Build_ConversationRepository World
    (fun ctx customerContact businessContact =>
       onDB (postgres.GetOrCreate env ctx customerContact businessContact))
    (fun ctx query => onDB (postgres.List env ctx query)).

Definition MessageRepo : MessageRepository World :=
  Build_MessageRepository World
    (fun ctx message => onDB (postgres.MessageRepository_Create env ctx message))
    (fun ctx conversationID => onDB (postgres.GetByConversationID env ctx conversationID))
    (fun ctx providerMessageID =>
       onDB (postgres.GetByProviderMessageID env ctx providerMessageID)).

Definition runtime : Runtime World :=
  Build_Runtime World (onDB (postgres.readClock env))
                (fun ctx delay => onDB (postgres.wait env ctx delay)).

Definition Printf (line : string) : M World unit :=
  fun w => (tt, mkWorld (DB w) (SMSProvider w) (EmailProvider w) (stdout w ++ [line])).

(** The SMS provider of the container: the calls go to the mock it holds. *)
Definition smsProvider : ports.SMSProvider World :=
  Build_SMSProvider World
    (fun ctx from to body w =>
       let '((r, p), w1) :=
         MockSMSProvider_SendSMS World (Now runtime) (SMSProvider w) ctx from to body w in
       (r, mkWorld (DB w1) p (EmailProvider w1) (stdout w1)))
    (fun ctx from to body attachments w =>
       let '((r, p), w1) :=
         MockSMSProvider_SendMMS World (Now runtime) (SMSProvider w) ctx from to body
           attachments w in
       (r, mkWorld (DB w1) p (EmailProvider w1) (stdout w1))).

(** The email provider of the container: the calls go to the provider the
    factory made. *)
Definition emailProvider : ports.EmailProvider World :=
  Build_EmailProvider World
    (fun ctx from to body attachments w =>
       match EmailProvider w with
       | Mock p =>
           let '((r, p'), w1) :=
             MockEmailProvider_SendEmail World (Now runtime) p ctx from to body
               attachments w in
           (r, mkWorld (DB w1) (SMSProvider w1) (Mock p') (stdout w1))
       | SendGrid p =>
           let '((r, p'), w1) :=
             SendGridEmailProvider_SendEmail World Printf p ctx from to body
               attachments w in
           (r, mkWorld (DB w1) (SMSProvider w1) (SendGrid p') (stdout w1))
       end).

(** The messaging service over these collaborators, with a retry policy. *)
Definition MessagingServiceWithConfig (retryConfig : RetryConfig)
  : messagingService World :=
  mkMessagingService World ConversationRepo MessageRepo smsProvider emailProvider
    retryConfig.

(** The services [NewContainer] creates. *)
Definition MessagingService : messagingService World :=
  MessagingServiceWithConfig DefaultRetryConfig.

Definition ConversationService : conversationService World :=
  mkConversationService World ConversationRepo MessageRepo.

End WithEnv.

(** [NewContainer]: the providers the application starts with, over a
    database: always the mock SMS provider, and the email provider of the
    configuration. *)
Definition NewContainer (emailProviderType : string)
           (emailProviderConfig : list (string * string)) (db : postgres.World)
  : World :=
  mkWorld db NewMockSMSProvider (NewEmailProvider emailProviderType emailProviderConfig)
          [].

End container.

(** ** Package [handler]

    The six HTTP handlers.  What gin does around them is given: the result
    of binding the body or the query string to a struct (the struct or an
    error), the raw values of the query string and of the path, and
    [time.Parse] and [strconv.Atoi] as functions.  A response is the status
    and the body handed to [c.JSON]; an error body keeps its message and its
    cause apart, where the handler joins them with a colon. *)

Module handler.
Import GoTime domain ports service.
Local Open Scope string_scope.
Local Open Scope Z_scope.
Local Open Scope go_scope.
Local Open Scope list_scope.

Definition StatusOK : Z := 200.
Definition StatusBadRequest : Z := 400.
Definition StatusNotFound : Z := 404.
Definition StatusInternalServerError : Z := 500.

Inductive Body : Type :=
| ErrorResponse (message : string) (cause : option error)
| SendSMSResponse (message : string)
| SendEmailResponse (message : string)
| WebhookResponse (message : string)
| ConversationsResponse (response : GetConversationsResponse.t)
| GetConversationMessagesResponse (messages : list Message.t).

Record Response : Type := JSON { status : Z; body : Body }.

Section Handlers.
Variable W : Type.

(** [domain.MessagingService] and [domain.ConversationService]. *)
Record MessagingService : Type := {
  MessagingService_SendSMS : Context -> option SendSMSRequest.t -> M W (option error);
  MessagingService_SendEmail : Context -> option SendEmailRequest.t -> M W (option error);
  MessagingService_HandleInboundSMS :
    Context -> option InboundSMSWebhook.t -> M W (option error);
  MessagingService_HandleInboundEmail :
    Context -> option InboundEmailWebhook.t -> M W (option error)
}.

Record ConversationService : Type := {
  ConversationService_GetConversations :
    Context -> ConversationQuery.t -> M W (GetConversationsResponse.t + error);
  ConversationService_GetConversationMessages :
    Context -> Z -> M W (list Message.t + error)
}.

Record MessagingHandler : Type := NewMessagingHandler {
  messagingService : MessagingService;
  conversationService : ConversationService
}.

Variable rt : Runtime W.
Variable Parse : string -> string -> Time + error.   (* time.Parse(layout, value) *)
Variable Atoi : string -> Z + error.                 (* strconv.Atoi *)
Variable h : MessagingHandler.

Definition RFC3339 : string := "2006-01-02T15:04:05Z07:00".

Definition sendErrorResponse (statusCode : Z) (message : string) (err : option error)
  : Response := JSON statusCode (ErrorResponse message err).

Definition SendSMS (ctx : Context) (bound : SendSMSRequest.t + error) : M W Response :=
  match bound with
  | inr err =>
      ret (sendErrorResponse StatusBadRequest "Invalid request body" (Some err))
  | inl req =>
      req <- (if IsZero (SendSMSRequest.Timestamp req) then
                now <- Now rt ;;
                ret (SendSMSRequest.mk (SendSMSRequest.From req) (SendSMSRequest.To req)
                       (SendSMSRequest.Type_ req) (SendSMSRequest.Body req)
                       (SendSMSRequest.Attachments req) (Time_UTC now))
              else ret req) ;;
      r <- MessagingService_SendSMS (messagingService h) ctx (Some req) ;;
      match r with
      | Some err =>
          ret (sendErrorResponse StatusInternalServerError "Failed to send SMS" (Some err))
      | None => ret (JSON StatusOK (SendSMSResponse "Message sent successfully"))
      end
  end.

Definition SendEmail (ctx : Context) (bound : SendEmailRequest.t + error)
  : M W Response :=
  match bound with
  | inr err =>
      ret (sendErrorResponse StatusBadRequest "Invalid request body" (Some err))
  | inl req =>
      req <- (if IsZero (SendEmailRequest.Timestamp req) then
                now <- Now rt ;;
                ret (SendEmailRequest.mk (SendEmailRequest.From req)
                       (SendEmailRequest.To req) (SendEmailRequest.Body req)
                       (SendEmailRequest.Attachments req) (Time_UTC now))
              else ret req) ;;
      r <- MessagingService_SendEmail (messagingService h) ctx (Some req) ;;
      match r with
      | Some err =>
          ret (sendErrorResponse StatusInternalServerError "Failed to send email"
                 (Some err))
      | None => ret (JSON StatusOK (SendEmailResponse "Email sent successfully"))
      end
  end.

(** The two webhook handlers put [time.Now()] in an empty timestamp, as it
    is, not its [UTC()]. *)
Definition HandleInboundSMS (ctx : Context) (bound : InboundSMSWebhook.t + error)
  : M W Response :=
  match bound with
  | inr err =>
      ret (sendErrorResponse StatusBadRequest "Invalid webhook body" (Some err))
  | inl webhook =>
      webhook <- (if IsZero (InboundSMSWebhook.Timestamp webhook) then
                    now <- Now rt ;;
                    ret (InboundSMSWebhook.mk (InboundSMSWebhook.From webhook)
                           (InboundSMSWebhook.To webhook)
                           (InboundSMSWebhook.Type_ webhook)
                           (InboundSMSWebhook.MessagingProviderID webhook)
                           (InboundSMSWebhook.Body webhook)
                           (InboundSMSWebhook.Attachments webhook) now)
                  else ret webhook) ;;
      r <- MessagingService_HandleInboundSMS (messagingService h) ctx (Some webhook) ;;
      match r with
      | Some err =>
          ret (sendErrorResponse StatusInternalServerError
                 "Failed to process inbound SMS" (Some err))
      | None =>
          ret (JSON StatusOK (WebhookResponse "Inbound message processed successfully"))
      end
  end.

Definition HandleInboundEmail (ctx : Context) (bound : InboundEmailWebhook.t + error)
  : M W Response :=
  match bound with
  | inr err =>
      ret (sendErrorResponse StatusBadRequest "Invalid webhook body" (Some err))
  | inl webhook =>
      webhook <- (if IsZero (InboundEmailWebhook.Timestamp webhook) then
                    now <- Now rt ;;
                    ret (InboundEmailWebhook.mk (InboundEmailWebhook.From webhook)
                           (InboundEmailWebhook.To webhook)
                           (InboundEmailWebhook.XillioID webhook)
                           (InboundEmailWebhook.Body webhook)
                           (InboundEmailWebhook.Attachments webhook) now)
                  else ret webhook) ;;
      r <- MessagingService_HandleInboundEmail (messagingService h) ctx (Some webhook) ;;
      match r with
      | Some err =>
          ret (sendErrorResponse StatusInternalServerError
                 "Failed to process inbound email" (Some err))
      | None =>
          ret (JSON StatusOK (WebhookResponse "Inbound email processed successfully"))
      end
  end.

(** No filter at all: the check that answers 400. *)
Definition noFilter (query : ConversationQuery.t) : bool :=
  String.eqb (ConversationQuery.BusinessEmail query) ""
  && String.eqb (ConversationQuery.BusinessPhone query) ""
  && String.eqb (ConversationQuery.Search query) ""
  && IsZero (ConversationQuery.From query)
  && IsZero (ConversationQuery.To query)
  && String.eqb (ConversationQuery.MessageType query) "".

Definition withLimit (query : ConversationQuery.t) (limit : Z) : ConversationQuery.t :=
  ConversationQuery.mk
    (ConversationQuery.BusinessEmail query) (ConversationQuery.BusinessPhone query)
    (ConversationQuery.Search query) (ConversationQuery.From query)
    (ConversationQuery.To query) (ConversationQuery.MessageType query)
    limit (ConversationQuery.Offset query) (ConversationQuery.SortBy query)
    (ConversationQuery.SortOrder query) (ConversationQuery.IncludeMessages query).

Definition withOffset (query : ConversationQuery.t) (offset : Z) : ConversationQuery.t :=
  ConversationQuery.mk
    (ConversationQuery.BusinessEmail query) (ConversationQuery.BusinessPhone query)
    (ConversationQuery.Search query) (ConversationQuery.From query)
    (ConversationQuery.To query) (ConversationQuery.MessageType query)
    (ConversationQuery.Limit query) offset (ConversationQuery.SortBy query)
    (ConversationQuery.SortOrder query) (ConversationQuery.IncludeMessages query).

Definition withFrom (query : ConversationQuery.t) (from : Time) : ConversationQuery.t :=
  ConversationQuery.mk
    (ConversationQuery.BusinessEmail query) (ConversationQuery.BusinessPhone query)
    (ConversationQuery.Search query) from
    (ConversationQuery.To query) (ConversationQuery.MessageType query)
    (ConversationQuery.Limit query) (ConversationQuery.Offset query)
    (ConversationQuery.SortBy query) (ConversationQuery.SortOrder query)
    (ConversationQuery.IncludeMessages query).

Definition withTo (query : ConversationQuery.t) (to : Time) : ConversationQuery.t :=
  ConversationQuery.mk
    (ConversationQuery.BusinessEmail query) (ConversationQuery.BusinessPhone query)
    (ConversationQuery.Search query) (ConversationQuery.From query)
    to (ConversationQuery.MessageType query)
    (ConversationQuery.Limit query) (ConversationQuery.Offset query)
    (ConversationQuery.SortBy query) (ConversationQuery.SortOrder query)
    (ConversationQuery.IncludeMessages query).

(** The query after "validate and sanitize parameters" and after the two
    dates of the query string were parsed again (lines 211-232); [fromStr]
    and [toStr] are [c.Query("from")] and [c.Query("to")]. *)
Definition sanitized (query : ConversationQuery.t) (fromStr toStr : string)
  : ConversationQuery.t :=
  let query := if 100 <? ConversationQuery.Limit query then withLimit query 100
               else query in
  let query := if ConversationQuery.Limit query <=? 0 then withLimit query 50
               else query in
  let query := if ConversationQuery.Offset query <? 0 then withOffset query 0
               else query in
  let query :=
    if negb (String.eqb fromStr "") then
      match Parse RFC3339 fromStr with
      | inl from => withFrom query from
      | inr _ => query
      end
    else query in
  let query :=
    if negb (String.eqb toStr "") then
      match Parse RFC3339 toStr with
      | inl to => withTo query to
      | inr _ => query
      end
    else query in
  query.

Definition GetConversations (ctx : Context) (bound : ConversationQuery.t + error)
           (fromStr toStr : string) : M W Response :=
  match bound with
  | inr err =>
      ret (sendErrorResponse StatusBadRequest "Invalid query parameters" (Some err))
  | inl query =>
      if noFilter query then
        ret (sendErrorResponse StatusBadRequest
               "At least one query parameter is required (business_email, business_phone, search, from, to, or message_type)"
               None)
      else
        r <- ConversationService_GetConversations (conversationService h) ctx
               (sanitized query fromStr toStr) ;;
        match r with
        | inr err =>
            ret (sendErrorResponse StatusInternalServerError
                   "Failed to get conversations" (Some err))
        | inl response => ret (JSON StatusOK (ConversationsResponse response))
        end
  end.

(** [idStr] is [c.Param("id")]. *)
Definition GetConversationMessages (ctx : Context) (idStr : string) : M W Response :=
  match Atoi idStr with
  | inr err =>
      ret (sendErrorResponse StatusBadRequest "Invalid conversation ID" (Some err))
  | inl id =>
      r <- ConversationService_GetConversationMessages (conversationService h) ctx id ;;
      match r with
      | inr err =>
          ret (sendErrorResponse StatusInternalServerError "Failed to get messages"
                 (Some err))
      | inl messages => ret (JSON StatusOK (GetConversationMessagesResponse messages))
      end
  end.

End Handlers.

Arguments MessagingService_SendSMS {W}.
Arguments MessagingService_SendEmail {W}.
Arguments MessagingService_HandleInboundSMS {W}.
Arguments MessagingService_HandleInboundEmail {W}.
Arguments ConversationService_GetConversations {W}.
Arguments ConversationService_GetConversationMessages {W}.
Arguments messagingService {W}.
Arguments conversationService {W}.

(** What a handler answered from the world [w]: a status that is 200, 400
    or 500, and, when it is 400, a world that is still [w]. *)
Definition answered {W : Type} (w : W) (run : Response * W) : Prop :=
  In (status (fst run)) [StatusOK; StatusBadRequest; StatusInternalServerError]
  /\ (status (fst run) = StatusBadRequest -> snd run = w).

(** The handler over the two services of package [service]:
    [getByID] is the lookup of a conversation by id. *)
Definition handlerOf {W : Type} (rt : Runtime W) (s : service.messagingService W)
           (getByID : Context -> Z -> M W (option Conversation.t * option error))
           (c : service.conversationService W) : MessagingHandler W :=
  NewMessagingHandler W
    (Build_MessagingService W (service.SendSMS W rt s) (service.SendEmail W rt s)
       (service.HandleInboundSMS W rt s) (service.HandleInboundEmail W rt s))
    (Build_ConversationService W
       (fun ctx query => service.GetConversations W c ctx query)
       (fun ctx id => conversations.GetConversationMessages W getByID c ctx id)).

End handler.

(** ** Package [config]

    The configuration read from the environment.  [Getenv] is the
    environment ([os.Getenv], the empty string for a variable that is not
    set); [strconv.Atoi] and [time.ParseDuration] are given as functions. *)

Module ServerConfig.
Record t : Type := mk {
  Port : string;
  ReadTimeout : GoTime.Duration;
  WriteTimeout : GoTime.Duration;
  IdleTimeout : GoTime.Duration
}.
End ServerConfig.

Module DatabaseConfig.
Record t : Type := mk {
  Host : string;
  Port : string;
  Name : string;
  User : string;
  Password : string;
  SSLMode : string;
  MaxOpenConns : Z;
  MaxIdleConns : Z;
  ConnMaxLifetime : GoTime.Duration
}.
End DatabaseConfig.

Module ProvidersConfig.
Record t : Type := mk {
  EmailProviderType : string;
  EmailProviderConfig : list (string * string)
}.
End ProvidersConfig.

Module Config.
Record t : Type := mk {
  Server : ServerConfig.t;
  Database : DatabaseConfig.t;
  Providers : ProvidersConfig.t
}.
End Config.

Module config.
Import GoTime domain.
Local Open Scope list_scope.
Local Open Scope Z_scope.
Local Open Scope string_scope.

Section Environment.
Variable Getenv : string -> string.
Variable Atoi : string -> Z + error.
Variable ParseDuration : string -> Duration + error.

Definition getEnv (key defaultValue : string) : string :=
  let value := Getenv key in
  if negb (String.eqb value "") then value else defaultValue.

Definition getEnvAsInt (key : string) (defaultValue : Z) : Z :=
  let value := Getenv key in
  if negb (String.eqb value "") then
    match Atoi value with
    | inl intValue => intValue
    | inr _ => defaultValue
    end
  else defaultValue.

Definition getEnvAsDuration (key : string) (defaultValue : Duration) : Duration :=
  let value := Getenv key in
  if negb (String.eqb value "") then
    match ParseDuration value with
    | inl duration => duration
    | inr _ => defaultValue
    end
  else defaultValue.

Definition validate (c : Config.t) : option error :=
  if String.eqb (ServerConfig.Port (Config.Server c)) "" then
    Some (Errorf "server port cannot be empty")
  else if String.eqb (DatabaseConfig.Host (Config.Database c)) "" then
    Some (Errorf "database host cannot be empty")
  else if String.eqb (DatabaseConfig.Name (Config.Database c)) "" then
    Some (Errorf "database name cannot be empty")
  else if String.eqb (DatabaseConfig.User (Config.Database c)) "" then
    Some (Errorf "database user cannot be empty")
  else if (ServerConfig.ReadTimeout (Config.Server c) <=? 0)%Z then
    Some (Errorf "server read timeout must be positive")
  else if (ServerConfig.WriteTimeout (Config.Server c) <=? 0)%Z then
    Some (Errorf "server write timeout must be positive")
  else if (ServerConfig.IdleTimeout (Config.Server c) <=? 0)%Z then
    Some (Errorf "server idle timeout must be positive")
  else if (DatabaseConfig.MaxOpenConns (Config.Database c) <=? 0)%Z then
    Some (Errorf "database max open connections must be positive")
  else if (DatabaseConfig.MaxIdleConns (Config.Database c) <=? 0)%Z then
    Some (Errorf "database max idle connections must be positive")
  else if (DatabaseConfig.ConnMaxLifetime (Config.Database c) <=? 0)%Z then
    Some (Errorf "database connection max lifetime must be positive")
  else None.

(** The configuration [Load] builds, before it is validated. *)
Definition fromEnvironment : Config.t :=
  Config.mk
    (ServerConfig.mk
       (getEnv "PORT" "8080")
       (getEnvAsDuration "SERVER_READ_TIMEOUT" (30 * Second))
       (getEnvAsDuration "SERVER_WRITE_TIMEOUT" (30 * Second))
       (getEnvAsDuration "SERVER_IDLE_TIMEOUT" (60 * Second)))
    (DatabaseConfig.mk
       (getEnv "DB_HOST" "localhost")
       (getEnv "DB_PORT" "5432")
       (getEnv "DB_NAME" "messaging_service")
       (getEnv "DB_USER" "messaging_user")
       (getEnv "DB_PASSWORD" "messaging_password")
       (getEnv "DB_SSL_MODE" "disable")
       (getEnvAsInt "DB_MAX_OPEN_CONNS" 25)
       (getEnvAsInt "DB_MAX_IDLE_CONNS" 25)
       (getEnvAsDuration "DB_CONN_MAX_LIFETIME" (5 * Minute)))
    (ProvidersConfig.mk
       (getEnv "EMAIL_PROVIDER_TYPE" "mock")
       [("api_key", getEnv "SENDGRID_API_KEY" "")]).

Definition Load : Config.t + error :=
  let config := fromEnvironment in
  match validate config with
  | Some err => inr (Wrapf "invalid configuration: %w" err)
  | None => inl config
  end.

End Environment.

(** [GetDSN]: the six fields, each after its key. *)
Definition GetDSN (c : DatabaseConfig.t) : string :=
  "host=" ++ DatabaseConfig.Host c ++ " port=" ++ DatabaseConfig.Port c
  ++ " dbname=" ++ DatabaseConfig.Name c ++ " user=" ++ DatabaseConfig.User c
  ++ " password=" ++ DatabaseConfig.Password c
  ++ " sslmode=" ++ DatabaseConfig.SSLMode c.

(** The six complaints of [validate] about a number. *)
Definition numberComplaints : list string :=
  ["server read timeout must be positive";
   "server write timeout must be positive";
   "server idle timeout must be positive";
   "database max open connections must be positive";
   "database max idle connections must be positive";
   "database connection max lifetime must be positive"].

(** The variables that are read as numbers or durations. *)
Definition numberKeys : list string :=
  ["SERVER_READ_TIMEOUT"; "SERVER_WRITE_TIMEOUT"; "SERVER_IDLE_TIMEOUT";
   "DB_MAX_OPEN_CONNS"; "DB_MAX_IDLE_CONNS"; "DB_CONN_MAX_LIFETIME"].

End config.

(** ** More scenarios

    Environments, worlds and requests for the properties of the store, the
    repositories, the providers and the handlers. *)

Module Cases.
Import GoTime domain service postgres Scenario.
Local Open Scope string_scope.
Local Open Scope list_scope.
Local Open Scope Z_scope.

(** Every SQL statement fails. *)
Definition dbDown : Env :=
  mkEnv (fun _ => noon) (fun _ => noon) (fun _ => true) (fun _ => None)
        (fun _ => None) noListing (fun _ => false).

(** The third SQL statement fails: on an empty store, the insert of the
    message after the lookup and the insert of its conversation. *)
Definition insertDown : Env :=
  mkEnv (fun _ => noon) (fun _ => noon) (fun n => Nat.eqb n 2) (fun _ => None)
        (fun _ => None) noListing (fun _ => false).

(** The clock of a server: [time.Now()] is in the location [time.Local]. *)
Definition localNoon : Time := mkTime (sec noon) (nsec noon) (FixedZone "Local" 0).

Definition serverClock : Env :=
  mkEnv (fun _ => localNoon) (fun _ => noon) (fun _ => false) (fun _ => None)
        (fun _ => None) noListing (fun _ => false).

(** The reply to [outboundSMS]. *)
Definition reply : InboundSMSWebhook.t :=
  InboundSMSWebhook.mk "+18045551234" "+12016661234" "sms" "message-2" "hello" []
    sentAt.

(** A webhook without a timestamp. *)
Definition undated : InboundSMSWebhook.t :=
  InboundSMSWebhook.mk "+18045551234" "+12016661234" "sms" "message-4" "hello" []
    zero.

Definition outboundEmail : SendEmailRequest.t :=
  SendEmailRequest.mk "user@usehatchapp.com" "contact@gmail.com" "hi" [] sentAt.

(** The first page of another business phone. *)
Definition listOtherPhone : ConversationQuery.t :=
  ConversationQuery.mk "" "+12016669999" "" zero zero "" 1 0 "" "" false.

(** The first page, with the messages. *)
Definition listWithMessages : ConversationQuery.t :=
  ConversationQuery.mk "" "+12016661234" "" zero zero "" 1 0 "" "" true.

(** A store with one conversation and no message. *)
Definition oneConversation : World := mkWorld [firstOfTwo] [] 0 0 0 [] 0.

(** A message as it is handed to [Update], with id 1. *)
Definition delivered : Message.t :=
  Message.mk 1 1 "+12016661234" "+18045551234" "sms" "hi" [] "delivered" None None
             sentAt None noon noon.

(** A store with that message, still pending. *)
Definition onePending : World :=
  mkWorld [firstOfTwo]
          [Message.mk 1 1 "+12016661234" "+18045551234" "sms" "hi" [] "pending" None
                      None sentAt None noon noon]
          0 0 0 [] 0.


Definition startedWithSendGrid : container.World :=
  container.NewContainer "sendgrid" [("api_key", "key-1")] emptyWorld.

(** The application with an SMS provider that answers 429. *)
Definition throttled : container.World :=
  container.mkWorld emptyWorld (provider.NewMockSMSProviderWithErrorCode 429)
    (provider.Mock provider.NewMockEmailProvider) [].

(** [strconv.Atoi] on the ids of the examples. *)
Definition atoi (s : string) : Z + error :=
  if String.eqb s "7" then inl 7 else inr (Errorf "strconv.Atoi: invalid syntax").

End Cases.

(** * Properties *)


(** ** Strings *)

Module GoStringsFacts.
Import GoStrings.
Local Open Scope string_scope.

Lemma prefix_single (c d : ascii) (s : string) :
  String.prefix (String c EmptyString) (String d s) = Ascii.eqb d c.
Proof.
  simpl. destruct (ascii_dec c d) as [->|n].
  - rewrite Ascii.eqb_refl. now destruct s.
  - symmetry. apply Ascii.eqb_neq. congruence.
Qed.

(** Replacing a one-byte string by the empty string removes that byte. *)
Lemma ReplaceAll_single (c : ascii) (s : string) :
  ReplaceAll s (String c EmptyString) "" = remove c s.
Proof.
  unfold ReplaceAll.
  induction s as [|d s IH]; [reflexivity|].
  cbn [replaceFrom remove].
  rewrite prefix_single.
  destruct (Ascii.eqb d c); cbn [String.length Nat.sub append]; now rewrite IH.
Qed.

(** Looking for a one-byte substring is looking for the byte. *)
Lemma Contains_single (c : ascii) (s : string) :
  Contains s (String c EmptyString) = occurs c s.
Proof.
  induction s as [|d s IH]; [reflexivity|].
  cbn [Contains occurs]. now rewrite prefix_single, IH.
Qed.

Lemma occurs_remove_other (c d : ascii) (s : string) :
  c <> d -> occurs c (remove d s) = occurs c s.
Proof.
  intros Hcd. induction s as [|e s IH]; [reflexivity|].
  cbn [remove occurs].
  destruct (Ascii.eqb_spec e d) as [->|Hed].
  - rewrite IH. destruct (Ascii.eqb_spec d c); [congruence | reflexivity].
  - cbn [occurs]. now rewrite IH.
Qed.

Lemma remove_absent (c : ascii) (s : string) :
  occurs c s = false -> remove c s = s.
Proof.
  induction s as [|d s IH]; [reflexivity|].
  cbn [occurs remove]. intros H.
  apply orb_false_iff in H as [Hd Hs].
  rewrite Hd. now rewrite IH.
Qed.

Lemma lt_irrefl (s : string) : lt s s = false.
Proof.
  unfold lt, String.ltb.
  destruct (String.compare s s) eqn:E; try reflexivity.
  pose proof (String.compare_antisym s s) as H. rewrite E in H. discriminate.
Qed.

Lemma lt_asym (s t : string) : lt s t = true -> lt t s = false.
Proof.
  unfold lt, String.ltb. rewrite (String.compare_antisym t s).
  now destruct (String.compare s t).
Qed.

Lemma lt_total (s t : string) : lt s t = false -> lt t s = false -> s = t.
Proof.
  unfold lt, String.ltb. rewrite (String.compare_antisym t s).
  destruct (String.compare s t) eqn:E; try discriminate.
  intros _ _. now apply String.compare_eq_iff.
Qed.

(** [sort.Strings] on a slice of two. *)
Lemma Strings_pair (a b : string) :
  Strings [a; b] = if lt b a then [b; a] else [a; b].
Proof. reflexivity. Qed.

End GoStringsFacts.

(** ** Contact normalization *)

Module NormalizerFacts.
Import GoStrings GoStringsFacts NormalizerSpec.
Local Open Scope string_scope.

Lemma strip_ReplaceAll (s : string) :
  ReplaceAll (ReplaceAll (ReplaceAll (ReplaceAll s "-" "") " " "") "(" "") ")" ""
  = strip s.
Proof. unfold strip. now rewrite !ReplaceAll_single. Qed.

(** Stripping the formatting characters neither removes nor adds an [@]. *)
Lemma Contains_at_strip (s : string) :
  Contains (strip s) "@" = Contains s "@".
Proof.
  unfold strip. rewrite !Contains_single.
  rewrite !occurs_remove_other; [reflexivity | | | |]; intros H; discriminate H.
Qed.

Lemma Contains_at_remove_dash (s : string) :
  Contains (remove "-" s) "@" = Contains s "@".
Proof.
  rewrite !Contains_single.
  rewrite occurs_remove_other; [reflexivity|]. intros H; discriminate H.
Qed.

Lemma strip_plain (s : string) : plain s -> strip s = s.
Proof.
  intros (H1 & H2 & H3 & H4). unfold strip.
  now rewrite (remove_absent "-"), (remove_absent " "), (remove_absent "("),
    (remove_absent ")").
Qed.

(** The messaging normalizer, computed: two email-like addresses come back
    sorted; otherwise the originals come back in the order of their forms
    without ["-"], the second argument first when these forms are equal. *)
Lemma messaging_normalizeContacts_eq (a b : string) :
  MessagingNormalizer.normalizeContacts a b =
  if Contains a "@" && Contains b "@"
  then (if lt b a then (b, a) else (a, b))
  else (if lt (remove "-" a) (remove "-" b) then (a, b) else (b, a)).
Proof.
  unfold MessagingNormalizer.normalizeContacts.
  destruct (Contains a "@" && Contains b "@").
  - rewrite Strings_pair. now destruct (lt b a).
  - now rewrite !ReplaceAll_single.
Qed.

(** The normalizer of the conversation service, computed: the stripped forms
    come back sorted. *)
Lemma conversation_normalizeContacts_eq (a b : string) :
  ConversationNormalizer.normalizeContacts a b =
  if lt (strip a) (strip b) then (strip a, strip b) else (strip b, strip a).
Proof.
  unfold ConversationNormalizer.normalizeContacts.
  rewrite !strip_ReplaceAll.
  now destruct (Contains (strip a) "@" && Contains (strip b) "@").
Qed.

(** The normalizer of the conversation service does not depend on the order
    of its arguments. *)
Lemma conversation_normalizeContacts_sym (a b : string) :
  ConversationNormalizer.normalizeContacts a b =
  ConversationNormalizer.normalizeContacts b a.
Proof.
  rewrite !conversation_normalizeContacts_eq.
  destruct (lt (strip a) (strip b)) eqn:Hab.
  - now rewrite (lt_asym _ _ Hab).
  - destruct (lt (strip b) (strip a)) eqn:Hba; [reflexivity|].
    now rewrite (lt_total _ _ Hab Hba).
Qed.

(** The messaging normalizer does not depend on the order of its arguments
    when the two addresses differ once ["-"] is removed, or are equal. *)
Lemma messaging_normalizeContacts_sym (a b : string) :
  remove "-" a <> remove "-" b \/ a = b ->
  MessagingNormalizer.normalizeContacts a b =
  MessagingNormalizer.normalizeContacts b a.
Proof.
  intros H. rewrite !messaging_normalizeContacts_eq.
  rewrite (andb_comm (Contains b "@")).
  destruct (Contains a "@" && Contains b "@").
  - destruct (lt b a) eqn:Hba.
    + now rewrite (lt_asym _ _ Hba).
    + destruct (lt a b) eqn:Hab; [reflexivity|].
      now rewrite (lt_total _ _ Hab Hba).
  - destruct H as [H | ->]; [|reflexivity].
    destruct (lt (remove "-" a) (remove "-" b)) eqn:Hab.
    + now rewrite (lt_asym _ _ Hab).
    + destruct (lt (remove "-" b) (remove "-" a)) eqn:Hba; [reflexivity|].
      elim H. now apply lt_total.
Qed.

(** What the two normalizers compute, for every pair of addresses.
    [messagingService.normalizeContacts] returns two email-like addresses
    sorted ascending and otherwise the two original addresses in the
    ascending order of their forms with only ["-"] removed;
    [conversationService.normalizeContacts] strips ["-"], space, ["("] and
    [")"] and returns the two stripped forms sorted ascending.  (Whether both
    addresses contain ["@"] can be asked of the originals or of the stripped
    forms alike.) *)
Lemma normalizeContacts_computed (a b : string) :
  (if Contains (strip a) "@" && Contains (strip b) "@"
   then ordered_by (fun s => s) a b (MessagingNormalizer.normalizeContacts a b)
   else ordered_by (remove "-") a b (MessagingNormalizer.normalizeContacts a b))
  /\ ordered_by (fun s => s) (strip a) (strip b)
       (ConversationNormalizer.normalizeContacts a b).
Proof.
  split.
  - rewrite messaging_normalizeContacts_eq, !Contains_at_strip.
    destruct (Contains a "@" && Contains b "@"); unfold ordered_by, le.
    + destruct (lt b a) eqn:Hba; [right | left]; split; auto using lt_asym.
    + destruct (lt (remove "-" a) (remove "-" b)) eqn:Hab;
        [left | right]; split; auto using lt_asym.
  - rewrite conversation_normalizeContacts_eq. unfold ordered_by, le.
    destruct (lt (strip a) (strip b)) eqn:Hab;
      [left | right]; split; auto using lt_asym.
Qed.

(** C1 fails on the code, for both normalizers, each where the other does
    what the claim says.  [messagingService.normalizeContacts] leaves spaces
    and parentheses in the forms it compares: for ["(1"] and [" 2"], whose
    stripped forms are ["1"] and ["2"], the claim asks for (["(1"], [" 2"])
    and it returns ([" 2"], ["(1"]), while its sibling orders these two by
    their stripped forms.  [conversationService.normalizeContacts] returns
    the stripped forms instead of the original addresses: for ["1-2"] and
    ["3"] the claim asks for (["1-2"], ["3"]), which is what the messaging
    one returns, and it returns (["12"], ["3"]). *)
Theorem normalizeContacts_breaks_the_rule :
  (normalized "(1" " 2" ("(1", " 2")
   /\ MessagingNormalizer.normalizeContacts "(1" " 2" = (" 2", "(1")
   /\ ~ normalized "(1" " 2" (MessagingNormalizer.normalizeContacts "(1" " 2")
   /\ ConversationNormalizer.normalizeContacts "(1" " 2" = ("1", "2"))
  /\ (normalized "1-2" "3" ("1-2", "3")
      /\ ConversationNormalizer.normalizeContacts "1-2" "3" = ("12", "3")
      /\ ~ normalized "1-2" "3" (ConversationNormalizer.normalizeContacts "1-2" "3")
      /\ MessagingNormalizer.normalizeContacts "1-2" "3" = ("1-2", "3")).
Proof.
  split; (split; [left; split; reflexivity|]); (split; [reflexivity|]);
    (split; [|reflexivity]); intros H; vm_compute in H;
    destruct H as [[H _] | [H H']]; discriminate.
Qed.

(** On addresses without any of the formatting characters ["-"], space,
    ["("] and [")"] the two normalizers return the same pair. *)
Lemma normalizers_agree_on_plain (a b : string) :
  plain a -> plain b ->
  MessagingNormalizer.normalizeContacts a b =
  ConversationNormalizer.normalizeContacts a b.
Proof.
  intros Ha Hb.
  rewrite messaging_normalizeContacts_eq, conversation_normalizeContacts_eq.
  rewrite (strip_plain a Ha), (strip_plain b Hb).
  destruct Ha as (Ha & _), Hb as (Hb & _).
  rewrite (remove_absent _ _ Ha), (remove_absent _ _ Hb).
  destruct (Contains a "@" && Contains b "@"); [|reflexivity].
  destruct (lt b a) eqn:Hba.
  - now rewrite (lt_asym _ _ Hba).
  - destruct (lt a b) eqn:Hab; [reflexivity|].
    now rewrite (lt_total _ _ Hab Hba).
Qed.

(** C2 fails on the code: the two functions of the same name are not the
    same function.  On a phone number written with a dash the messaging
    normalizer, the one [createMessageRecord] runs, returns the address as
    it came, and the normalizer of the conversation service returns its
    stripped form: for ["1-2"] and ["3"] the first returns (["1-2"], ["3"])
    and the second (["12"], ["3"]). *)
Theorem normalizers_are_two_functions :
  MessagingNormalizer.normalizeContacts "1-2" "3" = ("1-2", "3")
  /\ ConversationNormalizer.normalizeContacts "1-2" "3" = ("12", "3")
  /\ MessagingNormalizer.normalizeContacts "1-2" "3" <>
     ConversationNormalizer.normalizeContacts "1-2" "3".
Proof. repeat split. vm_compute. discriminate. Qed.

(** C3 fails on the code: two different addresses that are equal once ["-"]
    is removed come back in the reverse of the order they were given in. *)
Theorem normalizeContacts_not_symmetric :
  MessagingNormalizer.normalizeContacts "1-2" "12" = ("12", "1-2")
  /\ MessagingNormalizer.normalizeContacts "12" "1-2" = ("1-2", "12")
  /\ MessagingNormalizer.normalizeContacts "1-2" "12" <>
     MessagingNormalizer.normalizeContacts "12" "1-2".
Proof. repeat split. vm_compute. discriminate. Qed.

End NormalizerFacts.

(** ** Time *)

Module GoTimeFacts.
Import GoTime Calendar.
Local Open Scope Z_scope.

Lemma Location_eqb_UTC (l : Location) : Location_eqb l UTC = true <-> l = UTC.
Proof. destruct l; simpl; split; congruence. Qed.

Lemma IsZero_instant (t : Time) :
  wellFormed t -> (IsZero t = true <-> instant t = 0).
Proof.
  unfold wellFormed, IsZero, instant. intros H.
  rewrite andb_true_iff, !Z.eqb_eq. split; [intros [-> ->]; reflexivity | lia].
Qed.

Lemma After_instant (t u : Time) :
  wellFormed t -> wellFormed u -> (After t u = true <-> instant u < instant t).
Proof.
  unfold wellFormed, After, instant. intros Ht Hu.
  rewrite orb_true_iff, andb_true_iff, !Z.ltb_lt, Z.eqb_eq. lia.
Qed.

Lemma Before_instant (t u : Time) :
  wellFormed t -> wellFormed u -> (Before t u = true <-> instant t < instant u).
Proof.
  unfold wellFormed, Before, instant. intros Ht Hu.
  rewrite orb_true_iff, andb_true_iff, !Z.ltb_lt, Z.eqb_eq. lia.
Qed.

Lemma Time_UTC_instant (t : Time) : instant (Time_UTC t) = instant t.
Proof. reflexivity. Qed.

Lemma Time_UTC_wellFormed (t : Time) : wellFormed t -> wellFormed (Time_UTC t).
Proof. exact (fun H => H). Qed.

(** [Add] moves the instant by the duration and keeps the nanoseconds within
    one second. *)
Lemma Add_spec (t : Time) (d : Duration) :
  wellFormed t ->
  wellFormed (Add t d) /\ instant (Add t d) = instant t + d /\ loc (Add t d) = loc t.
Proof.
  unfold wellFormed, Add, instant. intros Ht.
  pose proof (Z.quot_rem' d 1000000000) as Hd.
  assert (Hr : -1000000000 < Z.rem d 1000000000 < 1000000000).
  { pose proof (Z.rem_bound_abs d 1000000000 ltac:(lia)). lia. }
  destruct (1000000000 <=? nsec t + Z.rem d 1000000000) eqn:E1;
    [apply Z.leb_le in E1 | apply Z.leb_gt in E1;
     destruct (nsec t + Z.rem d 1000000000 <? 0) eqn:E2;
     [apply Z.ltb_lt in E2 | apply Z.ltb_ge in E2]];
    cbn [sec nsec loc]; (split; [|split]); try reflexivity; lia.
Qed.

Lemma Date_wellFormed (year month day hour min s n : Z) (l : Location) :
  wellFormed (Date year month day hour min s n l).
Proof.
  unfold wellFormed, Date, norm. cbn [nsec].
  apply Z.mod_pos_bound. lia.
Qed.

Lemma AddDate_wellFormed (t : Time) (years months days : Z) :
  wellFormed (AddDate t years months days).
Proof.
  unfold AddDate.
  destruct (Time_Date t) as [[y m] d], (Time_Clock t) as [[h mi] s].
  apply Date_wellFormed.
Qed.

(** January 1, 2000, 00:00:00 UTC is 946684800 seconds after the Unix epoch,
    which is 62135596800 seconds after January 1 of year 1. *)
Lemma year2000_instant :
  instant (Date 2000 1 1 0 0 0 0 UTC) = (62135596800 + 946684800) * 1000000000.
Proof. reflexivity. Qed.


(** *** The calendar *)

Lemma isLeap_iff (year : Z) :
  isLeap year = true <-> year mod 4 = 0 /\ (year mod 100 <> 0 \/ year mod 400 = 0).
Proof.
  unfold isLeap. rewrite andb_true_iff, orb_true_iff, negb_true_iff, !Z.eqb_eq, Z.eqb_neq.
  reflexivity.
Qed.

Lemma cycleYear_spec (r : Z) :
  0 <= r < 146097 ->
  0 <= fst (cycleYear r) < 400
  /\ 0 <= snd (cycleYear r) < 365 + leapDay (fst (cycleYear r) + 1)
  /\ daysSinceEpoch (fst (cycleYear r) + 1) + snd (cycleYear r) = r.
Proof.
  intros Hr. unfold cycleYear, daysSinceEpoch, leapDay. cbn [fst snd].
  rewrite !Z.shiftr_div_pow2 by lia. change (2 ^ 2) with 4.
  set (n1 := r / 36524).
  assert (H1 : 0 <= n1 <= 4) by (subst n1; split; [apply Z.div_pos | apply Z.div_le_upper_bound]; lia).
  assert (H1r : 36524 * n1 <= r < 36524 * n1 + 36524).
  { subst n1. pose proof (Z.mul_div_le r 36524 ltac:(lia)).
    pose proof (Z.mul_succ_div_gt r 36524 ltac:(lia)). lia. }
  set (m1 := n1 - n1 / 4).
  assert (Hm1 : m1 = if n1 =? 4 then 3 else n1).
  { subst m1. assert (n1 = 0 \/ n1 = 1 \/ n1 = 2 \/ n1 = 3 \/ n1 = 4) as [->|[->|[->|[->| ->]]]] by lia; reflexivity. }
  set (d1 := r - 36524 * m1).
  assert (Hd1 : 0 <= d1 <= 36524 /\ (d1 = 36524 -> m1 = 3)).
  { subst d1. rewrite Hm1. destruct (n1 =? 4) eqn:E; [apply Z.eqb_eq in E | apply Z.eqb_neq in E]; lia. }
  set (n2 := d1 / 1461).
  assert (H2r : 1461 * n2 <= d1 < 1461 * n2 + 1461).
  { subst n2. pose proof (Z.mul_div_le d1 1461 ltac:(lia)).
    pose proof (Z.mul_succ_div_gt d1 1461 ltac:(lia)). lia. }
  assert (H2 : 0 <= n2 <= 24) by lia.
  set (d2 := d1 - 1461 * n2).
  assert (Hd2 : 0 <= d2 < 1461) by (subst d2; lia).
  set (n3 := d2 / 365).
  assert (H3r : 365 * n3 <= d2 < 365 * n3 + 365).
  { subst n3. pose proof (Z.mul_div_le d2 365 ltac:(lia)).
    pose proof (Z.mul_succ_div_gt d2 365 ltac:(lia)). lia. }
  assert (H3 : 0 <= n3 <= 4) by lia.
  set (m3 := n3 - n3 / 4).
  assert (Hm3 : m3 = if n3 =? 4 then 3 else n3).
  { subst m3. assert (n3 = 0 \/ n3 = 1 \/ n3 = 2 \/ n3 = 3 \/ n3 = 4) as [->|[->|[->|[->| ->]]]] by lia; reflexivity. }
  assert (Hm1b : 0 <= m1 <= 3) by (rewrite Hm1; destruct (n1 =? 4) eqn:E; [|apply Z.eqb_neq in E]; lia).
  assert (Hm3b : 0 <= m3 <= 3 /\ (n3 = 4 -> m3 = 3) /\ (n3 <> 4 -> m3 = n3)).
  { rewrite Hm3. destruct (n3 =? 4) eqn:E; [apply Z.eqb_eq in E | apply Z.eqb_neq in E]; lia. }
  set (y := 100 * m1 + 4 * n2 + m3).
  replace (y + 1 - 1) with y by lia.
  assert (Hy4 : y / 4 = 25 * m1 + n2) by (subst y; symmetry; apply Z.div_unique with m3; lia).
  assert (Hy100 : y / 100 = m1) by (subst y; symmetry; apply Z.div_unique with (4 * n2 + m3); lia).
  assert (Hy400 : y / 400 = 0) by (apply Z.div_small; subst y; lia).
  rewrite Hy4, Hy100, Hy400.
  split; [subst y; lia|]. split; [|subst y d2 d1; lia].
  destruct (isLeap (y + 1)) eqn:E.
  - subst y d2 d1. lia.
  - assert (Hnl : ~ ((y + 1) mod 4 = 0 /\ ((y + 1) mod 100 <> 0 \/ (y + 1) mod 400 = 0))).
    { rewrite <- isLeap_iff. congruence. }
    assert (n3 <> 4); [|subst y d2 d1; lia].
    intros Hn3. apply Hnl. destruct Hm3b as (_ & Hm3b & _). specialize (Hm3b Hn3).
    assert (Hd2' : d2 = 1460) by lia.
    split.
    + subst y. rewrite Hm3b. symmetry. apply Z.mod_unique with (25 * m1 + n2 + 1); lia.
    + destruct (Z.eq_dec n2 24) as [Hn2 | Hn2].
      * right. assert (d1 = 36524) by (subst d2; lia).
        destruct Hd1 as (_ & Hd1). specialize (Hd1 H).
        subst y. rewrite Hd1, Hn2, Hm3b. reflexivity.
      * left. intros Hc.
        assert ((y + 1) mod 100 = 4 * n2 + 4); [|lia].
        subst y. rewrite Hm3b. symmetry. apply Z.mod_unique with m1; lia.
Qed.

Lemma Time_Date_eq (t : Time) :
  Time_Date t =
  let D := absSeconds t / 86400 in
  let q := D / 146097 in
  let r := D - 146097 * q in
  monthDay (400 * q + fst (cycleYear r) + 1) (snd (cycleYear r)).
Proof.
  unfold Time_Date, monthDay, cycleYear. cbv zeta. cbn [fst snd].
  rewrite <- !Z.add_assoc. reflexivity.
Qed.

Lemma isLeap_shift (y q : Z) : isLeap (400 * q + y) = isLeap y.
Proof.
  unfold isLeap.
  replace (400 * q + y) with (y + (100 * q) * 4) at 1 by lia.
  replace (400 * q + y) with (y + (4 * q) * 100) at 1 by lia.
  replace (400 * q + y) with (y + q * 400) by lia.
  now rewrite !Z_mod_plus_full.
Qed.

Lemma daysSinceEpoch_shift (y q : Z) :
  daysSinceEpoch (400 * q + y) = 146097 * q + daysSinceEpoch y.
Proof.
  unfold daysSinceEpoch.
  replace ((400 * q + y - 1) / 4) with ((y - 1) / 4 + 100 * q)
    by (rewrite <- Z_div_plus_full by lia; f_equal; lia).
  replace ((400 * q + y - 1) / 100) with ((y - 1) / 100 + 4 * q)
    by (rewrite <- Z_div_plus_full by lia; f_equal; lia).
  replace ((400 * q + y - 1) / 400) with ((y - 1) / 400 + q)
    by (rewrite <- Z_div_plus_full by lia; f_equal; lia).
  lia.
Qed.

Lemma allFrom_spec (n : nat) (lo : Z) (f : Z -> bool) :
  allFrom n lo f = true -> forall x, lo <= x < lo + Z.of_nat n -> f x = true.
Proof.
  revert lo. induction n as [|k IH]; intros lo H x Hx; [lia|].
  cbn [allFrom] in H. apply andb_true_iff in H as [H0 Hk].
  destruct (Z.eq_dec x lo) as [->|Hne]; [assumption|].
  apply (IH (lo + 1) Hk). lia.
Qed.

Lemma monthDay_spec (year yd : Z) :
  0 <= yd < 365 + leapDay year ->
  exists m d,
    monthDay year yd = (year, m, d) /\ 1 <= m <= 12 /\ 1 <= d
    /\ daysBefore (m - 1) + (if isLeap year && (3 <=? m) then 1 else 0) + d - 1 = yd.
Proof.
  intros Hyd.
  assert (H : monthDayOK (isLeap year) yd = true).
  { unfold leapDay in Hyd. destruct (isLeap year).
    - apply (allFrom_spec 366 0); [vm_compute; reflexivity | lia].
    - apply (allFrom_spec 365 0); [vm_compute; reflexivity | lia]. }
  unfold monthDayOK in H. unfold monthDay. cbv zeta in *.
  destruct (isLeap year && (yd =? 31 + 29 - 1)).
  - exists 2, 29. rewrite !andb_true_iff, !Z.leb_le, Z.eqb_eq in H. tauto.
  - destruct (_ <=? _);
      rewrite !andb_true_iff, !Z.leb_le, Z.eqb_eq in H;
      eexists; eexists; (split; [reflexivity | tauto]).
Qed.

(** The date [Time_Date] answers is the date of the time's day: a month from
    1 to 12 and a day whose number is that of the day. *)
Lemma Time_Date_dayNumber (t : Time) :
  exists y m d,
    Time_Date t = (y, m, d) /\ 1 <= m <= 12 /\ 1 <= d
    /\ dayNumber y m d = absSeconds t / 86400.
Proof.
  rewrite Time_Date_eq. cbv zeta.
  set (D := absSeconds t / 86400). set (q := D / 146097).
  set (r := D - 146097 * q).
  assert (Hr : 0 <= r < 146097).
  { subst r q. pose proof (Z.mul_div_le D 146097 ltac:(lia)).
    pose proof (Z.mul_succ_div_gt D 146097 ltac:(lia)). lia. }
  destruct (cycleYear_spec r Hr) as (Hy & Hyd & Hsum).
  set (y := fst (cycleYear r)) in *. set (yd := snd (cycleYear r)) in *.
  assert (Hleap : isLeap (400 * q + y + 1) = isLeap (y + 1)).
  { replace (400 * q + y + 1) with (400 * q + (y + 1)) by lia. apply isLeap_shift. }
  destruct (monthDay_spec (400 * q + y + 1) yd) as (m & d & E & Hm & Hd & Hnum).
  { unfold leapDay in *. now rewrite Hleap. }
  exists (400 * q + y + 1), m, d. repeat split; try assumption; try lia.
  unfold dayNumber.
  replace (400 * q + y + 1) with (400 * q + (y + 1)) in * by lia.
  rewrite daysSinceEpoch_shift. lia.
Qed.

Lemma Time_Clock_sum (t : Time) :
  let '(h, mi, s) := Time_Clock t in
  h * 3600 + mi * 60 + s = absSeconds t mod 86400.
Proof.
  unfold Time_Clock. set (S := absSeconds t mod 86400).
  clearbody S. Z.div_mod_to_equations. lia.
Qed.

(** Ten calendar years earlier is earlier. *)
Lemma AddDate_minus10_le (t : Time) :
  wellFormed t -> instant (AddDate t (-10) 0 0) <= instant t.
Proof.
  intros Ht. unfold AddDate.
  destruct (Time_Date_dayNumber t) as (y & m & d & E & Hm & Hd & Hnum).
  pose proof (Time_Clock_sum t) as Hc.
  rewrite E. destruct (Time_Clock t) as [[h mi] s].
  unfold Date, norm. rewrite !Z.add_0_r.
  replace ((m - 1) / 12) with 0 by (symmetry; apply Z.div_small; lia).
  replace ((m - 1) mod 12) with (m - 1) by (symmetry; apply Z.mod_small; lia).
  unfold wellFormed in Ht.
  replace (nsec t / 1000000000) with 0 by (symmetry; apply Z.div_small; lia).
  replace (nsec t mod 1000000000) with (nsec t) by (symmetry; apply Z.mod_small; lia).
  unfold instant. cbn [sec nsec].
  unfold dayNumber in Hnum.
  replace (m - 1 + 1) with m by lia.
  assert (Hdays : daysSinceEpoch (y + -10) + 3650 <= daysSinceEpoch y).
  { unfold daysSinceEpoch.
    assert ((y + -10 - 1) / 4 + 2 <= (y - 1) / 4) by (Z.div_mod_to_equations; lia).
    assert ((y - 1) / 100 <= (y + -10 - 1) / 100 + 1) by (Z.div_mod_to_equations; lia).
    assert ((y + -10 - 1) / 400 <= (y - 1) / 400) by (Z.div_mod_to_equations; lia).
    lia. }
  pose proof (Z.div_mod (absSeconds t) 86400 ltac:(lia)) as Habs.
  unfold absSeconds in *.
  rewrite ?Z.add_0_r.
  destruct (isLeap (y + -10) && (3 <=? m)), (isLeap y && (3 <=? m)); lia.
Qed.

End GoTimeFacts.

(** ** The timestamp policy *)

Section TimestampPolicy.
Import GoTime GoTimeFacts domain ports.
Local Open Scope Z_scope.

Variable W : Type.
Variable rt : Runtime W.

Lemma validateTimestamp_cases (timestamp : Time) (w : W) :
  let now := Time_UTC (fst (Now rt w)) in
  fst (service.validateTimestamp W rt timestamp w) =
  if negb (Location_eqb (Time_Location timestamp) UTC)
  then Some (Errorf "timestamp must be in UTC timezone")
  else if IsZero timestamp then Some (Errorf "timestamp cannot be zero")
  else if After timestamp (Add now (5 * Minute))
  then Some (Errorf "timestamp cannot be in the future (max allowed: %s)")
  else if Before timestamp (AddDate now (-10) 0 0)
  then Some (Errorf "timestamp too old (min allowed: %s)")
  else if Before timestamp (Date 2000 1 1 0 0 0 0 UTC)
  then Some (Errorf "timestamp before year 2000 is not allowed")
  else None.
Proof.
  unfold service.validateTimestamp, bind, ret.
  destruct (negb _); [reflexivity|].
  destruct (Now rt w) as [t w']. cbn [fst].
  repeat (match goal with |- context [if ?c then _ else _] => destruct c end;
          try reflexivity).
Qed.

(** C8.  With [now] the clock reading of the call, [validateTimestamp]
    accepts a timestamp exactly when its location is UTC, it is not the zero
    time, it is at most 5 minutes after [now], it is not before the instant
    reached by going back ten calendar years from [now], and it is not before
    2000-01-01T00:00:00Z.  A timestamp 5 minutes and 1 second after [now] is
    rejected; a UTC timestamp exactly 5 minutes after [now] is accepted (as
    soon as that instant is not itself before the year 2000). *)
Theorem validateTimestamp_policy (timestamp : Time) (w : W) :
  wellFormed timestamp -> wellFormed (fst (Now rt w)) ->
  let now := Time_UTC (fst (Now rt w)) in
  let accepted := fst (service.validateTimestamp W rt timestamp w) = None in
  (accepted <->
     Time_Location timestamp = UTC
     /\ instant timestamp <> 0
     /\ instant timestamp <= instant now + 5 * Minute
     /\ instant (AddDate now (-10) 0 0) <= instant timestamp
     /\ instant (Date 2000 1 1 0 0 0 0 UTC) <= instant timestamp)
  /\ (instant timestamp = instant now + 5 * Minute + Second -> ~ accepted)
  /\ (Time_Location timestamp = UTC ->
      instant timestamp = instant now + 5 * Minute ->
      instant (Date 2000 1 1 0 0 0 0 UTC) <= instant timestamp ->
      accepted).
Proof.
  intros Ht Hn now accepted.
  assert (Hnow : wellFormed now) by exact Hn.
  destruct (Add_spec now (5 * Minute) Hnow) as (Hwf & Hadd & _).
  pose proof (AddDate_wellFormed now (-10) 0 0) as Hpast.
  pose proof (Date_wellFormed 2000 1 1 0 0 0 0 UTC) as H2000.
  assert (Hiff : accepted <->
     Time_Location timestamp = UTC
     /\ instant timestamp <> 0
     /\ instant timestamp <= instant now + 5 * Minute
     /\ instant (AddDate now (-10) 0 0) <= instant timestamp
     /\ instant (Date 2000 1 1 0 0 0 0 UTC) <= instant timestamp).
  { subst accepted. rewrite validateTimestamp_cases. fold now.
    rewrite <- Location_eqb_UTC.
    destruct (Location_eqb (Time_Location timestamp) UTC); cbn [negb];
      [|split; [discriminate | intros (H & _); discriminate]].
    pose proof (IsZero_instant timestamp Ht) as Hz.
    destruct (IsZero timestamp).
    { split; [discriminate | intros (_ & H & _); elim H; now apply Hz]. }
    assert (Hnz : instant timestamp <> 0) by (intros H; apply Hz in H; discriminate).
    pose proof (After_instant timestamp _ Ht Hwf) as Ha.
    destruct (After timestamp (Add now (5 * Minute))).
    { split; [discriminate | intros (_ & _ & H & _)].
      assert (instant (Add now (5 * Minute)) < instant timestamp) by now apply Ha.
      lia. }
    assert (Hfut : instant timestamp <= instant now + 5 * Minute).
    { destruct (Z.le_gt_cases (instant timestamp) (instant now + 5 * Minute)) as [H|H];
        [assumption|]. rewrite <- Hadd in H. apply Ha in H. discriminate. }
    pose proof (Before_instant timestamp _ Ht Hpast) as Hb.
    destruct (Before timestamp (AddDate now (-10) 0 0)).
    { split; [discriminate | intros (_ & _ & _ & H & _)].
      assert (instant timestamp < instant (AddDate now (-10) 0 0)) by now apply Hb.
      lia. }
    assert (Hold : instant (AddDate now (-10) 0 0) <= instant timestamp).
    { destruct (Z.le_gt_cases (instant (AddDate now (-10) 0 0)) (instant timestamp))
        as [H|H]; [assumption|]. apply Hb in H. discriminate. }
    pose proof (Before_instant timestamp _ Ht H2000) as Hc.
    destruct (Before timestamp (Date 2000 1 1 0 0 0 0 UTC)).
    { split; [discriminate | intros (_ & _ & _ & _ & H)].
      assert (instant timestamp < instant (Date 2000 1 1 0 0 0 0 UTC)) by now apply Hc.
      lia. }
    split; [intros _ | reflexivity].
    repeat split; try assumption.
    destruct (Z.le_gt_cases (instant (Date 2000 1 1 0 0 0 0 UTC)) (instant timestamp))
      as [H|H]; [assumption|]. apply Hc in H. discriminate. }
  split; [exact Hiff|]. split.
  - intros Heq Hacc. apply Hiff in Hacc. unfold Second in Heq. lia.
  - intros Hloc Heq H2k. apply Hiff.
    pose proof (AddDate_minus10_le now Hnow) as Hle.
    rewrite year2000_instant in H2k.
    unfold Minute, Second in *.
    repeat split; try assumption; try lia.
Qed.

End TimestampPolicy.

(** ** Wrap-around *)

Module Int64Facts.
Local Open Scope Z_scope.

Lemma wrap64_inRange (z : Z) : inInt64 z -> wrap64 z = z.
Proof.
  unfold inInt64, minInt64, maxInt64, wrap64. intros H.
  rewrite Z.mod_small by lia. lia.
Qed.

Lemma wrap64_mod (z : Z) : wrap64 z mod 2 ^ 64 = z mod 2 ^ 64.
Proof.
  unfold wrap64.
  rewrite Zminus_mod, Z.mod_mod, <- Zminus_mod by lia.
  f_equal. lia.
Qed.

Lemma wrap64_eq_mod (a b : Z) : a mod 2 ^ 64 = b mod 2 ^ 64 -> wrap64 a = wrap64 b.
Proof.
  unfold wrap64. intros H.
  rewrite (Zplus_mod a), (Zplus_mod b), H. reflexivity.
Qed.

(** A product wraps the same whether or not a factor was wrapped before. *)
Lemma wrap64_mul_wrap64 (a b : Z) : wrap64 (a * wrap64 b) = wrap64 (a * b).
Proof.
  apply wrap64_eq_mod.
  rewrite (Zmult_mod a (wrap64 b)), wrap64_mod, <- Zmult_mod. reflexivity.
Qed.

End Int64Facts.

(** ** The retry engine *)

Section RetryEngine.
Import GoTime domain ports service RetrySpec Int64Facts.
Local Open Scope Z_scope.
Local Open Scope go_scope.
Local Open Scope list_scope.

Variable W : Type.
Variable rt : Runtime W.
Variable s : messagingService W.
Variable ctx : Context.
Variable operation : M W (option error).

Let cfg := retryConfig s.

(** The delay the loop waits is the one the specification asks for, as long
    as the products fit in an [int64]. *)
Lemma backoffDelay_claimed (attempt : Z) (err : error) :
  0 <= attempt -> delayInRange cfg attempt err ->
  backoffDelay W s attempt err = claimedDelay cfg attempt err.
Proof.
  intros Hatt [Hbase Hafter]. unfold backoffDelay, claimedDelay. fold cfg.
  cbv zeta. rewrite wrap64_mul_wrap64, Z.shiftl_1_l, (wrap64_inRange _ Hbase).
  assert (Hexp : (if MaxDelay cfg <? BaseDelay cfg * 2 ^ attempt
                  then MaxDelay cfg else BaseDelay cfg * 2 ^ attempt)
                 = Z.min (BaseDelay cfg * 2 ^ attempt) (MaxDelay cfg)).
  { destruct (Z.ltb_spec (MaxDelay cfg) (BaseDelay cfg * 2 ^ attempt)); lia. }
  rewrite Hexp. clear Hexp.
  destruct (Z.ltb_spec 0 (GetRetryAfterSeconds err)) as [Hpos | Hneg].
  - rewrite (wrap64_inRange _ (Hafter Hpos)).
    assert (Hhint : (if GetRetryAfterSeconds err * Second <? MaxDelay cfg
                     then GetRetryAfterSeconds err * Second else MaxDelay cfg)
                    = Z.min (GetRetryAfterSeconds err * Second) (MaxDelay cfg)).
    { destruct (Z.ltb_spec (GetRetryAfterSeconds err * Second) (MaxDelay cfg)); lia. }
    etransitivity; [exact Hhint|]. clear Hhint.
    destruct err as [e | | |]; cbn [GetRetryAfterSeconds] in *; try lia.
    destruct (Code e =? 429); cbn [andb]; [|lia].
    apply Z.ltb_lt in Hpos. now rewrite Hpos.
  - destruct err as [e | | |]; cbn [GetRetryAfterSeconds] in *; try reflexivity.
    destruct (Code e =? 429); cbn [andb]; [|reflexivity].
    apply Z.ltb_ge in Hneg. now rewrite Hneg.
Qed.

(** One turn of the loop. *)
Lemma retryLoop_step (n : nat) (attempt : Z) (w : W) :
  retryLoop W rt s ctx operation (S n) attempt w =
  match fst (operation w) with
  | None => (None, snd (operation w))
  | Some err =>
      if negb (IsRetryableError err) then (Some err, snd (operation w))
      else if attempt =? MaxRetries cfg then (Some err, snd (operation w))
      else
        let waited := Wait rt ctx (backoffDelay W s attempt err) (snd (operation w)) in
        match fst waited with
        | Some ctxErr => (Some ctxErr, snd waited)
        | None => retryLoop W rt s ctx operation n (attempt + 1) (snd waited)
        end
  end.
Proof.
  cbn [retryLoop]. unfold bind, ret. fold cfg.
  destruct (operation w) as [[err|] w1]; cbn [fst snd]; [|reflexivity].
  destruct (negb (IsRetryableError err)); [reflexivity|].
  destruct (attempt =? MaxRetries cfg); [reflexivity|].
  destruct (Wait rt ctx _ w1) as [[ctxErr|] w2]; reflexivity.
Qed.

(** What can be observed of a run: how many times the operation was invoked
    and which delays were waited; the n-th invocation answers [outcome n];
    the context is not cancelled while the loop waits. *)
Variable calls : W -> nat.
Variable waits : W -> list Duration.
Variable outcome : nat -> option error.

Hypothesis operation_calls : forall w, calls (snd (operation w)) = S (calls w).
Hypothesis operation_waits : forall w, waits (snd (operation w)) = waits w.
Hypothesis operation_outcome : forall w, fst (operation w) = outcome (calls w).
Hypothesis Wait_calls : forall d w, calls (snd (Wait rt ctx d w)) = calls w.
Hypothesis Wait_waits : forall d w, waits (snd (Wait rt ctx d w)) = waits w ++ [d].
Hypothesis not_cancelled : forall d w, fst (Wait rt ctx d w) = None.

Lemma delaysOf_S (delay : Z -> error -> Duration) (c k : nat) :
  delaysOf outcome delay c (S k) =
  delaysOf outcome delay c k ++ [delay (Z.of_nat k) (failure (outcome (c + k)))].
Proof. unfold delaysOf. now rewrite seq_S, map_app. Qed.

(** [k] retryable failures, none of them the last attempt, take the loop
    through [k] turns. *)
Lemma retryLoop_retries (k n : nat) (w : W) :
  (forall i, (i < k)%nat -> retryable (outcome (calls w + i))) ->
  Z.of_nat k <= MaxRetries cfg ->
  exists w',
    retryLoop W rt s ctx operation (k + n) 0 w =
    retryLoop W rt s ctx operation n (Z.of_nat k) w'
    /\ calls w' = (calls w + k)%nat
    /\ waits w' = waits w ++ delaysOf outcome (backoffDelay W s) (calls w) k.
Proof.
  revert n. induction k as [|k IH]; intros n Hfail Hmax.
  - exists w. cbn. rewrite Nat.add_0_r, app_nil_r. auto.
  - destruct (IH (S n)) as (w1 & Hrun & Hcalls & Hwaits);
      [intros; apply Hfail; lia | lia |].
    destruct (Hfail k ltac:(lia)) as (e & He & Hretry).
    exists (snd (Wait rt ctx (backoffDelay W s (Z.of_nat k) e) (snd (operation w1)))).
    split; [|split].
    + replace (S k + n)%nat with (k + S n)%nat by lia.
      rewrite Hrun, retryLoop_step, operation_outcome, Hcalls, He, Hretry.
      cbn [negb]. cbv zeta.
      destruct (Z.eqb_spec (Z.of_nat k) (MaxRetries cfg)); [lia|].
      rewrite not_cancelled. f_equal. lia.
    + rewrite Wait_calls, operation_calls, Hcalls. lia.
    + rewrite Wait_waits, operation_waits, Hwaits, delaysOf_S, He, <- app_assoc.
      reflexivity.
Qed.

Lemma retryWithBackoff_run (k : nat) (w : W) :
  (forall i, (i < k)%nat -> retryable (outcome (calls w + i))) ->
  Z.of_nat k <= MaxRetries cfg ->
  final cfg k (outcome (calls w + k)) ->
  let run := retryWithBackoff W rt s ctx operation w in
  fst run = outcome (calls w + k)
  /\ calls (snd run) = (calls w + k + 1)%nat
  /\ waits (snd run) = waits w ++ delaysOf outcome (backoffDelay W s) (calls w) k.
Proof.
  intros Hfail Hmax Hfinal run. subst run. unfold retryWithBackoff. fold cfg.
  replace (Z.to_nat (MaxRetries cfg + 1))
    with (k + S (Z.to_nat (MaxRetries cfg) - k))%nat by lia.
  destruct (retryLoop_retries k (S (Z.to_nat (MaxRetries cfg) - k)) w Hfail Hmax)
    as (w1 & Hrun & Hcalls & Hwaits).
  rewrite Hrun, retryLoop_step, operation_outcome, Hcalls.
  destruct (outcome (calls w + k)) as [e|]; cbn [fst snd].
  - destruct Hfinal as [Hno | Hlast].
    + rewrite Hno. cbn [negb fst snd].
      rewrite operation_calls, operation_waits, Hcalls, Hwaits.
      repeat split; lia.
    + destruct (negb (IsRetryableError e)); cbn [fst snd].
      * rewrite operation_calls, operation_waits, Hcalls, Hwaits.
        repeat split; lia.
      * rewrite Hlast, Z.eqb_refl. cbn [fst snd].
        rewrite operation_calls, operation_waits, Hcalls, Hwaits.
        repeat split; lia.
  - rewrite operation_calls, operation_waits, Hcalls, Hwaits.
    repeat split; lia.
Qed.

(** C6, as amended.  With [MaxRetries >= 0] and a context that is not
    cancelled while the loop waits: when the operation first succeeds on
    attempt [k], for some [k <= MaxRetries + 1] (the attempts before it
    failing with a retryable code), it is invoked exactly [k] times and the
    result is success; when every attempt fails with a retryable code, it is
    invoked exactly [MaxRetries + 1] times and the result is the last error;
    when the first attempt fails with a code that is not retryable, it is
    invoked exactly once and that error is the result. *)
Theorem retryWithBackoff_attempts (w : W) :
  0 <= MaxRetries cfg ->
  let run := retryWithBackoff W rt s ctx operation w in
  (forall k : nat,
      (1 <= k)%nat -> Z.of_nat k <= MaxRetries cfg + 1 ->
      (forall i, (i < k - 1)%nat -> retryable (outcome (calls w + i))) ->
      outcome (calls w + (k - 1)) = None ->
      fst run = None /\ calls (snd run) = (calls w + k)%nat)
  /\ ((forall i, Z.of_nat i <= MaxRetries cfg -> retryable (outcome (calls w + i))) ->
      retryable (fst run)
      /\ fst run = outcome (calls w + Z.to_nat (MaxRetries cfg))
      /\ Z.of_nat (calls (snd run)) = Z.of_nat (calls w) + MaxRetries cfg + 1)
  /\ (forall e,
        outcome (calls w) = Some e -> IsRetryableError e = false ->
        fst run = Some e /\ calls (snd run) = (calls w + 1)%nat).
Proof.
  intros Hmax run. split; [|split].
  - intros k Hk Hle Hfail Hok.
    destruct (retryWithBackoff_run (k - 1) w Hfail ltac:(lia)) as (Hres & Hcalls & _).
    { rewrite Hok. exact I. }
    fold run in Hres, Hcalls. rewrite Hres, Hcalls, Hok. split; [reflexivity | lia].
  - intros Hfail.
    destruct (retryWithBackoff_run (Z.to_nat (MaxRetries cfg)) w) as (Hres & Hcalls & _).
    + intros i Hi. apply Hfail. lia.
    + lia.
    + destruct (Hfail (Z.to_nat (MaxRetries cfg)) ltac:(lia)) as (e & -> & _).
      right. lia.
    + fold run in Hres, Hcalls. rewrite Hres, Hcalls.
      split; [apply Hfail; lia | split; [reflexivity | lia]].
  - intros e He Hno.
    destruct (retryWithBackoff_run 0 w) as (Hres & Hcalls & _).
    + intros i Hi. lia.
    + lia.
    + rewrite Nat.add_0_r, He. left. exact Hno.
    + fold run in Hres, Hcalls. rewrite Nat.add_0_r in Hres, Hcalls.
      rewrite Hres, Hcalls, He. split; [reflexivity | lia].
Qed.

(** C7, as amended.  In a run with [k] retries (attempts 1 to [k] fail with
    a retryable code, attempt [k+1] ends the loop, the context is not
    cancelled), the delay waited before retry [i+1] is [BaseDelay * 2^i]
    capped at [MaxDelay], or [min(RetryAfter seconds, MaxDelay)] when the
    failure was a 429 with a positive retry-after; a retry-after on another
    code changes nothing.  This holds as long as the products
    [BaseDelay * 2^i] and [RetryAfter * Second] are within the range of
    [int64]. *)
Theorem retryWithBackoff_delays (k : nat) (w : W) :
  (forall i, (i < k)%nat -> retryable (outcome (calls w + i))) ->
  Z.of_nat k <= MaxRetries cfg ->
  final cfg k (outcome (calls w + k)) ->
  (forall i, (i < k)%nat ->
             delayInRange cfg (Z.of_nat i) (failure (outcome (calls w + i)))) ->
  waits (snd (retryWithBackoff W rt s ctx operation w)) =
  waits w ++ delaysOf outcome (claimedDelay cfg) (calls w) k.
Proof.
  intros Hfail Hmax Hfinal Hrange.
  destruct (retryWithBackoff_run k w Hfail Hmax Hfinal) as (_ & _ & Hwaits).
  rewrite Hwaits. f_equal. unfold delaysOf.
  apply map_ext_in. intros i Hi. apply in_seq in Hi.
  apply backoffDelay_claimed; [lia | apply Hrange; lia].
Qed.

End RetryEngine.

(** ** The conversation query service *)

Section ConversationQueries.
Import domain ports service Int64Facts.
Local Open Scope string_scope.
Local Open Scope Z_scope.

Variable W : Type.
Variable s : conversationService W.
Variable ctx : Context.

Lemma loadMessages_length (conversations loaded : list Conversation.t) (w w' : W) :
  loadMessages W s ctx conversations w = (inl loaded, w') ->
  List.length loaded = List.length conversations.
Proof.
  revert loaded w w'. induction conversations as [|c rest IH]; intros loaded w w'.
  - cbn. unfold ret. intros [= <- _]. reflexivity.
  - cbn [loadMessages]. unfold bind, ret.
    destruct (GetByConversationID _ ctx _ w) as [[messages | err] w1]; [|discriminate].
    destruct (loadMessages W s ctx rest w1) as [[rest' | err] w2] eqn:E; [|discriminate].
    intros [= <- _]. cbn. f_equal. eapply IH, E.
Qed.

(** A successful [GetConversations] answers with the pagination of the
    query it sent to the repository. *)
Lemma GetConversations_ok (query : ConversationQuery.t)
      (resp : GetConversationsResponse.t) (w w' : W) :
  GetConversations W s ctx query w = (inl resp, w') ->
  exists conversations total w1 loaded,
    List (cs_conversationRepo s) ctx (withDefaults query) w
    = (inl (conversations, total), w1)
    /\ resp = paginate (withDefaults query) loaded total
    /\ List.length loaded = List.length conversations.
Proof.
  unfold GetConversations, bind, ret.
  destruct (List _ ctx (withDefaults query) w) as [[[conversations total] | err] w1];
    [|discriminate].
  destruct (ConversationQuery.IncludeMessages (withDefaults query)).
  - destruct (loadMessages W s ctx conversations w1) as [[loaded | err] w2] eqn:E;
      [|discriminate].
    intros [= <- _]. exists conversations, total, w1, loaded.
    repeat split. eapply loadMessages_length, E.
  - intros [= <- _]. exists conversations, total, w1, conversations. repeat split.
Qed.

(** C9, as amended.  [GetConversations] queries the repository with limit 50
    when the limit is unset (zero), with the offset, [updated_at] and [desc]
    when the sort field and the sort order are unset (empty), and with the
    caller's values otherwise; on success the response carries the
    repository's total, [page = floor(offset / limit) + 1], [perPage = limit]
    and [hasMore = (offset + limit < total)] for that effective limit and
    offset.  This holds as long as [offset + limit] is within the range of
    Go's [int]. *)
Theorem GetConversations_pagination (query : ConversationQuery.t)
        (resp : GetConversationsResponse.t) (w w' : W) :
  GetConversations W s ctx query w = (inl resp, w') ->
  inInt64 (ConversationQuery.Limit query) ->
  inInt64 (ConversationQuery.Offset query) ->
  let sent := withDefaults query in
  let limit := ConversationQuery.Limit sent in
  let offset := ConversationQuery.Offset sent in
  offset + limit <= maxInt64 ->
  (limit = if ConversationQuery.Limit query <=? 0 then 50
           else ConversationQuery.Limit query)
  /\ (offset = if ConversationQuery.Offset query <? 0 then 0
               else ConversationQuery.Offset query)
  /\ (ConversationQuery.SortBy sent =
      if String.eqb (ConversationQuery.SortBy query) "" then "updated_at"
      else ConversationQuery.SortBy query)
  /\ (ConversationQuery.SortOrder sent =
      if String.eqb (ConversationQuery.SortOrder query) "" then "desc"
      else ConversationQuery.SortOrder query)
  /\ (exists conversations w1,
         List (cs_conversationRepo s) ctx sent w
         = (inl (conversations, GetConversationsResponse.Total resp), w1))
  /\ GetConversationsResponse.Page resp = offset / limit + 1
  /\ GetConversationsResponse.PerPage resp = limit
  /\ GetConversationsResponse.HasMore resp
     = (offset + limit <? GetConversationsResponse.Total resp).
Proof.
  intros Hrun Hlimit Hoffset sent limit offset Hsum.
  destruct (GetConversations_ok _ _ _ _ Hrun)
    as (conversations & total & w1 & loaded & Hlist & -> & _).
  assert (Hl : 1 <= limit <= maxInt64).
  { subst limit sent. cbn. unfold inInt64, maxInt64 in *.
    destruct (Z.leb_spec (ConversationQuery.Limit query) 0); lia. }
  assert (Ho : 0 <= offset <= maxInt64).
  { subst offset sent. cbn. unfold inInt64, maxInt64 in *.
    destruct (Z.ltb_spec (ConversationQuery.Offset query) 0); lia. }
  assert (Hq : Z.quot offset limit = offset / limit)
    by (apply Z.quot_div_nonneg; lia).
  assert (Hdiv : 0 <= offset / limit <= offset).
  { split; [apply Z.div_pos; lia|].
    apply Z.div_le_upper_bound; [lia|]. nia. }
  repeat split; try reflexivity.
  - exists conversations, w1. exact Hlist.
  - cbn [paginate GetConversationsResponse.Page]. fold sent offset limit.
    rewrite Hq. apply wrap64_inRange.
    unfold inInt64, minInt64, maxInt64 in *. lia.
  - cbn [paginate GetConversationsResponse.HasMore GetConversationsResponse.Total].
    fold sent offset limit. rewrite wrap64_inRange; [reflexivity|].
    unfold inInt64, minInt64, maxInt64 in *. lia.
Qed.

End ConversationQueries.

(** ** The orchestrator, over any collaborators *)

Section Orchestrator.
Import GoTime domain ports service Orchestration.
Local Open Scope string_scope.

Variable W : Type.
Variable rt : Runtime W.
Variable s : messagingService W.
Variable ctx : Context.

Lemma HandleInboundSMS_valid (webhook : InboundSMSWebhook.t) (w : W) :
  fst (validateInboundSMSWebhook W rt (Some webhook) w) = None ->
  let wv := snd (validateInboundSMSWebhook W rt (Some webhook) w) in
  let lookup := GetByProviderMessageID (messageRepo s) ctx
                  (InboundSMSWebhook.MessagingProviderID webhook) wv in
  HandleInboundSMS W rt s ctx (Some webhook) w
  = afterLookup rt s ctx (smsRecord webhook) (fst lookup) (snd lookup).
Proof.
  intros Hvalid wv lookup. subst lookup wv.
  unfold HandleInboundSMS, afterLookup, bind, ret.
  destruct (validateInboundSMSWebhook W rt (Some webhook) w) as [v wv].
  cbn [fst snd] in *. subst v.
  destruct (GetByProviderMessageID _ ctx _ wv) as [[[m|] [e|]] we]; cbn [fst snd];
    try reflexivity;
    unfold smsRecord; now destruct (createMessageRecord W rt s ctx _ we).
Qed.

Lemma HandleInboundSMS_invalid (webhook : option InboundSMSWebhook.t) (w : W) :
  fst (validateInboundSMSWebhook W rt webhook w) <> None ->
  fst (HandleInboundSMS W rt s ctx webhook w) <> None
  /\ snd (HandleInboundSMS W rt s ctx webhook w)
     = snd (validateInboundSMSWebhook W rt webhook w).
Proof.
  intros H. unfold HandleInboundSMS, bind, ret.
  destruct (validateInboundSMSWebhook W rt webhook w) as [[err|] wv];
    cbn [fst snd] in *; [split; [discriminate | reflexivity] | congruence].
Qed.

Lemma HandleInboundEmail_valid (webhook : InboundEmailWebhook.t) (w : W) :
  fst (validateInboundEmailWebhook W rt (Some webhook) w) = None ->
  let wv := snd (validateInboundEmailWebhook W rt (Some webhook) w) in
  let lookup := GetByProviderMessageID (messageRepo s) ctx
                  (InboundEmailWebhook.XillioID webhook) wv in
  HandleInboundEmail W rt s ctx (Some webhook) w
  = afterLookup rt s ctx (emailRecord webhook) (fst lookup) (snd lookup).
Proof.
  intros Hvalid wv lookup. subst lookup wv.
  unfold HandleInboundEmail, afterLookup, bind, ret.
  destruct (validateInboundEmailWebhook W rt (Some webhook) w) as [v wv].
  cbn [fst snd] in *. subst v.
  destruct (GetByProviderMessageID _ ctx _ wv) as [[[m|] [e|]] we]; cbn [fst snd];
    try reflexivity;
    unfold emailRecord; now destruct (createMessageRecord W rt s ctx _ we).
Qed.

(** The three ways [SendSMS] can go. *)
Lemma SendSMS_cases (req : option SendSMSRequest.t) (w : W) :
  let validated := validateSMSRequest W rt req w in
  match fst validated, req with
  | Some err, _ =>
      SendSMS W rt s ctx req w
      = (Some (Wrapf "invalid SMS request: %w" err), snd validated)
  | None, None => False
  | None, Some r =>
      let sent := sendSMSMessageWithRetry W rt s ctx r (snd validated) in
      match fst sent with
      | Some err =>
          SendSMS W rt s ctx req w
          = (Some (Wrapf "failed to send message through provider: %w" err), snd sent)
      | None =>
          let created := createMessageRecord W rt s ctx (smsOutbound r) (snd sent) in
          SendSMS W rt s ctx req w = (wrapCreateError (fst created), snd created)
      end
  end.
Proof.
  unfold SendSMS, bind, ret. cbv zeta.
  destruct req as [r|].
  - destruct (validateSMSRequest W rt (Some r) w) as [[err|] wv]; cbn [fst snd];
      [reflexivity|].
    destruct (sendSMSMessageWithRetry W rt s ctx r wv) as [[err|] ws]; cbn [fst snd];
      [reflexivity|].
    unfold smsOutbound. now destruct (createMessageRecord W rt s ctx _ ws).
  - cbn. reflexivity.
Qed.

(** The three ways [SendEmail] can go. *)
Lemma SendEmail_cases (req : option SendEmailRequest.t) (w : W) :
  let validated := validateEmailRequest W rt req w in
  match fst validated, req with
  | Some err, _ =>
      SendEmail W rt s ctx req w
      = (Some (Wrapf "invalid email request: %w" err), snd validated)
  | None, None => False
  | None, Some r =>
      let sent := sendEmailMessageWithRetry W rt s ctx r (snd validated) in
      match fst sent with
      | Some err =>
          SendEmail W rt s ctx req w
          = (Some (Wrapf "failed to send email through provider: %w" err), snd sent)
      | None =>
          let created := createMessageRecord W rt s ctx (emailOutbound r) (snd sent) in
          SendEmail W rt s ctx req w = (wrapCreateError (fst created), snd created)
      end
  end.
Proof.
  unfold SendEmail, bind, ret. cbv zeta.
  destruct req as [r|].
  - destruct (validateEmailRequest W rt (Some r) w) as [[err|] wv]; cbn [fst snd];
      [reflexivity|].
    destruct (sendEmailMessageWithRetry W rt s ctx r wv) as [[err|] ws]; cbn [fst snd];
      [reflexivity|].
    unfold emailOutbound. now destruct (createMessageRecord W rt s ctx _ ws).
  - cbn. reflexivity.
Qed.

End Orchestrator.

(** ** The orchestrator over the postgres repositories *)

Module PostgresFacts.
Import GoTime domain ports service Orchestration postgres.
Local Open Scope string_scope.
Local Open Scope list_scope.

Lemma sameRows_refl (w : World) : sameRows w w.
Proof. split; reflexivity. Qed.

Lemma sameRows_trans (w1 w2 w3 : World) :
  sameRows w1 w2 -> sameRows w2 w3 -> sameRows w1 w3.
Proof. intros [H1 H2] [H3 H4]. split; congruence. Qed.

Lemma quiet_refl (w : World) : quiet w w.
Proof. repeat split. Qed.

Lemma quiet_trans (w1 w2 w3 : World) : quiet w1 w2 -> quiet w2 w3 -> quiet w1 w3.
Proof. intros (H1 & H2 & H3) (H4 & H5 & H6). repeat split; congruence. Qed.

#[local] Hint Resolve sameRows_refl quiet_refl : core.

Lemma find_last {A : Type} (f : A -> bool) (l : list A) (x : A) :
  find f l = None -> f x = true -> find f (l ++ [x]) = Some x.
Proof.
  intros Hl Hx. induction l as [|y l IH]; cbn in *.
  - now rewrite Hx.
  - destruct (f y); [discriminate | auto].
Qed.

Lemma filter_last {A : Type} (f : A -> bool) (l : list A) (x : A) :
  find f l = None -> f x = true -> filter f (l ++ [x]) = [x].
Proof.
  intros Hl Hx. induction l as [|y l IH]; cbn in *.
  - now rewrite Hx.
  - destruct (f y); [discriminate | auto].
Qed.

Section WithEnv.
Variable env : Env.
Variable cfg : RetryConfig.
Variable ctx : Context.

Let rt := runtime env.
Let svc := NewMessagingServiceWithConfig env cfg.

(** *** What each collaborator touches *)

Lemma readClock_frame (w : World) :
  sameRows w (snd (readClock env w)) /\ quiet w (snd (readClock env w))
  /\ statements (snd (readClock env w)) = statements w.
Proof. repeat split. Qed.

Lemma frame_refl (w : World) :
  sameRows w w /\ quiet w w /\ statements w = statements w.
Proof. auto. Qed.

Lemma validateTimestamp_frame (timestamp : Time) (w : World) :
  sameRows w (snd (validateTimestamp World rt timestamp w))
  /\ quiet w (snd (validateTimestamp World rt timestamp w))
  /\ statements (snd (validateTimestamp World rt timestamp w)) = statements w.
Proof.
  unfold validateTimestamp, bind, ret. cbn [Now rt runtime].
  destruct (negb _); [apply frame_refl|].
  destruct (readClock env w) as [t w1] eqn:E.
  assert (Hw : w1 = snd (readClock env w)) by now rewrite E.
  repeat match goal with |- context [if ?c then _ else _] => destruct c end;
    cbn [snd]; rewrite Hw; apply readClock_frame.
Qed.

Ltac validation_frame :=
  unfold bind, ret;
  repeat match goal with
         | |- context [if ?c then _ else _] =>
             destruct c; cbn [snd]; try apply frame_refl
         end;
  match goal with
  | |- context [validateTimestamp World rt ?t ?w] =>
      pose proof (validateTimestamp_frame t w);
      destruct (validateTimestamp World rt t w); cbn [snd] in *; assumption
  end.

Lemma validateSMSRequest_frame (req : option SendSMSRequest.t) (w : World) :
  sameRows w (snd (validateSMSRequest World rt req w))
  /\ quiet w (snd (validateSMSRequest World rt req w))
  /\ statements (snd (validateSMSRequest World rt req w)) = statements w.
Proof. destruct req as [r|]; cbn [validateSMSRequest]; [validation_frame | apply frame_refl]. Qed.

Lemma validateEmailRequest_frame (req : option SendEmailRequest.t) (w : World) :
  sameRows w (snd (validateEmailRequest World rt req w))
  /\ quiet w (snd (validateEmailRequest World rt req w))
  /\ statements (snd (validateEmailRequest World rt req w)) = statements w.
Proof. destruct req as [r|]; cbn [validateEmailRequest]; [validation_frame | apply frame_refl]. Qed.

Lemma validateInboundSMSWebhook_frame (webhook : option InboundSMSWebhook.t) (w : World) :
  sameRows w (snd (validateInboundSMSWebhook World rt webhook w))
  /\ quiet w (snd (validateInboundSMSWebhook World rt webhook w))
  /\ statements (snd (validateInboundSMSWebhook World rt webhook w)) = statements w.
Proof.
  destruct webhook as [r|]; cbn [validateInboundSMSWebhook];
    [validation_frame | apply frame_refl].
Qed.

Lemma validateInboundEmailWebhook_frame (webhook : option InboundEmailWebhook.t)
      (w : World) :
  sameRows w (snd (validateInboundEmailWebhook World rt webhook w))
  /\ quiet w (snd (validateInboundEmailWebhook World rt webhook w))
  /\ statements (snd (validateInboundEmailWebhook World rt webhook w)) = statements w.
Proof.
  destruct webhook as [r|]; cbn [validateInboundEmailWebhook];
    [validation_frame | apply frame_refl].
Qed.

(** The lookup by provider id changes no row; when its statement succeeds it
    answers the first row with that id. *)
Lemma GetByProviderMessageID_frame (providerMessageID : string) (w : World) :
  let lookup := GetByProviderMessageID env ctx providerMessageID w in
  sameRows w (snd lookup) /\ quiet w (snd lookup)
  /\ statements (snd lookup) = S (statements w)
  /\ (dbFails env (statements w) = false ->
      fst lookup = (find (hasProviderID providerMessageID) (messages w), None))
  /\ (dbFails env (statements w) = true ->
      exists err, fst lookup = (None, Some err)).
Proof.
  unfold GetByProviderMessageID, statement, rows, bind, ret. cbn.
  destruct (dbFails env (statements w)); cbn; repeat split; eauto; discriminate.
Qed.

(** Get-or-create changes no message row and adds at most one conversation
    row; it answers a conversation when its statements succeed. *)
Lemma GetOrCreate_frame (customerContact businessContact : string) (w : World) :
  let got := GetOrCreate env ctx customerContact businessContact w in
  messages (snd got) = messages w
  /\ quiet w (snd got)
  /\ atMostOneConversation w (snd got)
  /\ (statements w <= statements (snd got))%nat
  /\ (healthyFrom env (statements w) -> exists conv, fst got = inl conv).
Proof.
  unfold GetOrCreate, GetByContacts, ConversationRepository_Create, statement,
    rows, insertConversation, bind, ret, atMostOneConversation, healthyFrom. cbn.
  destruct (dbFails env (statements w)) eqn:E1; cbn.
  - repeat split; auto. intros H. rewrite H in E1 by lia. discriminate.
  - destruct (find _ (conversations w)) as [conv|]; cbn.
    + repeat split; eauto.
    + destruct (dbFails env (S (statements w))) eqn:E2; cbn.
      * repeat split; auto. intros H. rewrite H in E2 by lia. discriminate.
      * repeat split; eauto.
Qed.

(** Creating a message changes no conversation row; it adds the message,
    with its new id, or fails and adds nothing. *)
Lemma MessageRepository_Create_frame (message : Message.t) (w : World) :
  let created := MessageRepository_Create env ctx message w in
  conversations (snd created) = conversations w
  /\ quiet w (snd created)
  /\ ((fst created <> None /\ messages (snd created) = messages w)
      \/ (fst created = None
          /\ exists id,
              messages (snd created) = messages w ++ [insertedRow message id]))
  /\ (healthyFrom env (statements w) -> fst created = None).
Proof.
  unfold MessageRepository_Create, statement, rows, insertMessage, bind, ret,
    healthyFrom.
  cbn. destruct (dbFails env (statements w)) eqn:E; cbn.
  - repeat split; auto.
    + left. split; [discriminate | reflexivity].
    + intros H. rewrite H in E by lia. discriminate.
  - repeat split; auto. right. split; [reflexivity | eauto].
Qed.

(** [createMessageRecord]: at most one conversation row, and either an error
    and no message row, or success and exactly one message row, which is the
    message with its conversation, its timestamps and its id set. *)
Lemma createMessageRecord_frame (message : Message.t) (w : World) :
  let created := createMessageRecord World rt svc ctx message w in
  quiet w (snd created)
  /\ atMostOneConversation w (snd created)
  /\ ((fst created <> None /\ messages (snd created) = messages w)
      \/ (fst created = None
          /\ exists conversationID createdAt updatedAt id,
              messages (snd created)
              = messages w
                ++ [insertedRow
                      (setRecordFields message conversationID createdAt updatedAt)
                      id]))
  /\ (healthyFrom env (statements w) -> fst created = None).
Proof.
  unfold createMessageRecord, bind, ret. cbn [conversationRepo messageRepo svc
    NewMessagingServiceWithConfig conversationRepository messageRepository
    ports.GetOrCreate ports.MessageRepository_Create Now rt runtime].
  destruct (normalizeContacts _ _) as [customerContact businessContact].
  pose proof (GetOrCreate_frame customerContact businessContact w) as Hgot.
  cbv zeta in Hgot.
  destruct (GetOrCreate env ctx customerContact businessContact w) as [[conv|err] w1].
  - cbn [fst snd] in Hgot. destruct Hgot as (Hm1 & Hq1 & Hc1 & Hs1 & _).
    destruct (readClock env w1) as [createdAt w2] eqn:E2.
    destruct (readClock env w2) as [updatedAt w3] eqn:E3.
    assert (H2 : w2 = snd (readClock env w1)) by now rewrite E2.
    assert (H3 : w3 = snd (readClock env w2)) by now rewrite E3.
    pose proof (MessageRepository_Create_frame
                  (setRecordFields message (Conversation.ID conv) createdAt updatedAt) w3)
      as Hcr.
    cbv zeta in Hcr.
    destruct (MessageRepository_Create env ctx _ w3) as [r w4].
    cbn [fst snd] in *. destruct Hcr as (Hc4 & Hq4 & Hm4 & Hok).
    assert (Hrows3 : conversations w3 = conversations w1 /\ messages w3 = messages w1)
      by (subst w3 w2; split; reflexivity).
    assert (Hq3 : quiet w1 w3) by (subst w3 w2; repeat split).
    destruct Hrows3 as [Hc3 Hm3].
    assert (Hs3 : statements w3 = statements w1) by (subst w3 w2; reflexivity).
    split; [eauto using quiet_trans|].
    split.
    { unfold atMostOneConversation in *. rewrite Hc4, Hc3. exact Hc1. }
    split; [|intros H; apply Hok; intros k Hk; apply H; lia].
    destruct Hm4 as [[Hr Hm4] | [Hr [id Hm4]]].
    + left. split; [exact Hr | congruence].
    + right. split; [exact Hr|]. exists (Conversation.ID conv), createdAt, updatedAt, id.
      congruence.
  - cbn [fst snd] in *. destruct Hgot as (Hm1 & Hq1 & Hc1 & Hs1 & Hok).
    split; [exact Hq1|]. split; [exact Hc1|]. split.
    + left. split; [discriminate | exact Hm1].
    + intros H. destruct (Hok H) as [conv Hconv]. discriminate.
Qed.

(** *** The retry loop over the providers touches no table *)

Lemma retryLoop_sameRows (operation : M World (option error)) :
  (forall w, sameRows w (snd (operation w))) ->
  forall n attempt w,
    sameRows w (snd (retryLoop World rt svc ctx operation n attempt w)).
Proof.
  intros Hop. induction n as [|n IH]; intros attempt w; [apply sameRows_refl|].
  cbn [retryLoop]. unfold bind, ret.
  pose proof (Hop w) as H1.
  destruct (operation w) as [[err|] w1]; cbn [fst snd] in *; [|exact H1].
  destruct (negb (IsRetryableError err)); [exact H1|].
  destruct (_ =? _)%Z; [exact H1|].
  cbn [Wait rt runtime].
  assert (H2 : sameRows w1
                 (snd (wait env ctx (backoffDelay World svc attempt err) w1)))
    by (split; reflexivity).
  destruct (wait env ctx (backoffDelay World svc attempt err) w1) as [[ctxErr|] w2];
    cbn [fst snd] in *; [eauto using sameRows_trans|].
  eapply sameRows_trans; [|apply IH]. eauto using sameRows_trans.
Qed.

Lemma sendSMSMessageWithRetry_sameRows (req : SendSMSRequest.t) (w : World) :
  sameRows w (snd (sendSMSMessageWithRetry World rt svc ctx req w)).
Proof.
  unfold sendSMSMessageWithRetry, retryWithBackoff. apply retryLoop_sameRows.
  intros w0. unfold sendSMSMessage.
  repeat match goal with |- context [if ?c then _ else _] => destruct c end;
    split; reflexivity.
Qed.

Lemma sendEmailMessageWithRetry_sameRows (req : SendEmailRequest.t) (w : World) :
  sameRows w (snd (sendEmailMessageWithRetry World rt svc ctx req w)).
Proof.
  unfold sendEmailMessageWithRetry, retryWithBackoff. apply retryLoop_sameRows.
  intros w0. split; reflexivity.
Qed.

Lemma wrapCreateError_None (r : option error) : wrapCreateError r = None -> r = None.
Proof. destruct r; [discriminate | reflexivity]. Qed.

(** The outcome of a send, from what its three stages do. *)
Lemma persists_from_stages {A : Type}
      (send validate : option A -> M World (option error))
      (deliver : A -> M World (option error)) (record : A -> Message.t) :
  (forall req w, sameRows w (snd (validate req w))) ->
  (forall r w, sameRows w (snd (deliver r w))) ->
  (forall r, Message.Status (record r) = "pending") ->
  (forall req w,
      let validated := validate req w in
      match fst validated, req with
      | Some err, _ => exists e, send req w = (Some e, snd validated)
      | None, None => False
      | None, Some r =>
          let sent := deliver r (snd validated) in
          match fst sent with
          | Some err => exists e, send req w = (Some e, snd sent)
          | None =>
              let created := createMessageRecord World rt svc ctx (record r) (snd sent) in
              send req w = (wrapCreateError (fst created), snd created)
          end
      end) ->
  persistsOnSuccessOnly send validate deliver.
Proof.
  intros Hval Hdel Hstatus Hcases req w. cbv zeta.
  specialize (Hcases req w). cbv zeta in Hcases.
  pose proof (Hval req w) as Hv.
  destruct (fst (validate req w)) as [verr|] eqn:Ev.
  - destruct Hcases as [e Hsend]. rewrite Hsend. cbn [fst snd].
    repeat split; try discriminate; try apply Hv; congruence.
  - destruct req as [r|]; [|contradiction].
    pose proof (Hdel r (snd (validate (Some r) w))) as Hd.
    destruct (fst (deliver r (snd (validate (Some r) w)))) as [derr|] eqn:Ed.
    + destruct Hcases as [e Hsend]. rewrite Hsend. cbn [fst snd].
      split; [congruence|]. split; [|discriminate].
      intros r' _ _ _. split; [discriminate | eauto using sameRows_trans].
    + rewrite Hcases. cbn [fst snd].
      split; [congruence|]. split.
      * intros r' [= <-] _ H. rewrite Ed in H. congruence.
      * intros Hnone. apply wrapCreateError_None in Hnone.
        destruct (createMessageRecord_frame (record r)
                    (snd (deliver r (snd (validate (Some r) w)))))
          as (_ & Hconv & Hmsg & _).
        destruct (sameRows_trans _ _ _ Hv Hd) as [Hc Hm].
        split.
        -- destruct Hmsg as [[Hne _] | [_ (cid & t1 & t2 & id & Hrows)]];
             [congruence|].
           eexists. split; [rewrite Hrows, Hm; reflexivity|].
           cbn. apply Hstatus.
        -- unfold atMostOneConversation in *. rewrite Hc in Hconv. exact Hconv.
Qed.

(** C5.  [SendSMS] and [SendEmail]: when validation fails, or when the
    provider call with its retries ends in an error, the call returns an
    error and both tables are as before; when the call returns success, one
    message row (status [pending]) and at most one conversation row were
    added. *)
Theorem send_persists_on_success_only :
  persistsOnSuccessOnly (SendSMS World rt svc ctx) (validateSMSRequest World rt)
                        (sendSMSMessageWithRetry World rt svc ctx)
  /\ persistsOnSuccessOnly (SendEmail World rt svc ctx) (validateEmailRequest World rt)
                           (sendEmailMessageWithRetry World rt svc ctx).
Proof.
  split.
  - apply (persists_from_stages _ _ _ smsOutbound).
    + intros req w. apply validateSMSRequest_frame.
    + apply sendSMSMessageWithRetry_sameRows.
    + reflexivity.
    + intros req w. pose proof (SendSMS_cases World rt svc ctx req w) as H.
      cbv zeta in *.
      destruct (fst (validateSMSRequest World rt req w)); [eauto|].
      destruct req as [r|]; [|exact H].
      destruct (fst (sendSMSMessageWithRetry World rt svc ctx r _)); [eauto | exact H].
  - apply (persists_from_stages _ _ _ emailOutbound).
    + intros req w. apply validateEmailRequest_frame.
    + apply sendEmailMessageWithRetry_sameRows.
    + reflexivity.
    + intros req w. pose proof (SendEmail_cases World rt svc ctx req w) as H.
      cbv zeta in *.
      destruct (fst (validateEmailRequest World rt req w)); [eauto|].
      destruct req as [r|]; [|exact H].
      destruct (fst (sendEmailMessageWithRetry World rt svc ctx r _)); [eauto | exact H].
Qed.

(** *** Inbound webhooks *)

Lemma hasProviderID_record (m : Message.t) (providerMessageID : string)
      (conversationID : Z) (createdAt updatedAt : Time) (id : Z) :
  Message.MessagingProviderID m = Some providerMessageID ->
  hasProviderID providerMessageID
    (insertedRow (setRecordFields m conversationID createdAt updatedAt) id)
  = true.
Proof.
  intros H. unfold hasProviderID. cbn. rewrite H. apply String.eqb_refl.
Qed.

(** The creation of a record, when its statements succeed. *)
Lemma createMessageRecord_healthy (message : Message.t) (w : World) :
  healthyFrom env (statements w) ->
  let created := createMessageRecord World rt svc ctx message w in
  fst created = None
  /\ quiet w (snd created)
  /\ atMostOneConversation w (snd created)
  /\ exists conversationID createdAt updatedAt id,
      messages (snd created)
      = messages w
        ++ [insertedRow (setRecordFields message conversationID createdAt updatedAt)
              id].
Proof.
  intros H. cbv zeta.
  destruct (createMessageRecord_frame message w) as (Hq & Hc & Hm & Hok).
  specialize (Hok H).
  split; [exact Hok|]. split; [exact Hq|]. split; [exact Hc|].
  destruct Hm as [[Hne _] | [_ Hrow]]; [congruence | exact Hrow].
Qed.

Section Inbound.
Variable A : Type.
Variables handle validate : option A -> M World (option error).
Variable idOf : A -> string.
Variable record : A -> Message.t.

Hypothesis validate_frame :
  forall webhook w,
    sameRows w (snd (validate webhook w)) /\ quiet w (snd (validate webhook w))
    /\ statements (snd (validate webhook w)) = statements w.
Hypothesis record_id :
  forall a, Message.MessagingProviderID (record a) = Some (idOf a).
Hypothesis record_status : forall a, Message.Status (record a) = "delivered".
Hypothesis handle_valid :
  forall a w,
    fst (validate (Some a) w) = None ->
    handle (Some a) w
    = afterLookup rt svc ctx (record a)
        (fst (GetByProviderMessageID env ctx (idOf a) (snd (validate (Some a) w))))
        (snd (GetByProviderMessageID env ctx (idOf a) (snd (validate (Some a) w)))).

Lemma suppression_from_stages :
  suppressesOnlyOnHit env cfg ctx handle validate idOf record.
Proof.
  intros webhook w Hvalid lookup created. subst created lookup.
  rewrite (handle_valid _ _ Hvalid). unfold afterLookup.
  destruct (GetByProviderMessageID env ctx (idOf webhook) _) as [[found err] we].
  cbn [fst snd]. split.
  - intros m [= -> ->]. reflexivity.
  - intros [Herr | Hnone]; cbn [fst snd] in *.
    + destruct found, err; try congruence; reflexivity.
    + subst found. now destruct err.
Qed.

Lemma replay_from_stages : healthy env -> replayIdempotent handle validate idOf.
Proof.
  intros Hhealthy first replay w Hid Hfresh Hv1 w1 Hv2 w2.
  assert (Hfrom : forall n, healthyFrom env n) by (intros n k _; apply Hhealthy).
  (* the first delivery *)
  pose proof (handle_valid first w Hv1) as H1.
  destruct (validate_frame (Some first) w) as ([Hvc Hvm] & Hvq & _).
  destruct (GetByProviderMessageID_frame (idOf first) (snd (validate (Some first) w)))
    as ([Hlc Hlm] & Hlq & _ & Hfound & _).
  rewrite (Hfound (Hhealthy _)), Hvm, Hfresh in H1. cbn [fst afterLookup] in H1.
  destruct (createMessageRecord_healthy (record first)
              (snd (GetByProviderMessageID env ctx (idOf first)
                      (snd (validate (Some first) w)))) (Hfrom _))
    as (Hres & Hcq & _ & cid & t1 & t2 & id & Hrows).
  rewrite Hres in H1. cbn [wrapCreateError] in H1.
  rewrite Hlm, Hvm in Hrows.
  set (row := insertedRow (setRecordFields (record first) cid t1 t2) id) in *.
  assert (Hrow : hasProviderID (idOf first) row = true)
    by (apply hasProviderID_record, record_id).
  assert (Hw1 : messages w1 = messages w ++ [row]) by (subst w1; now rewrite H1).
  (* the replay *)
  pose proof (handle_valid replay w1 Hv2) as H2. rewrite Hid in H2.
  destruct (validate_frame (Some replay) w1) as ([Hvc2 Hvm2] & Hvq2 & _).
  destruct (GetByProviderMessageID_frame (idOf first) (snd (validate (Some replay) w1)))
    as ([Hlc2 Hlm2] & Hlq2 & _ & Hfound2 & _).
  rewrite (Hfound2 (Hhealthy _)), Hvm2, Hw1, (find_last _ _ _ Hfresh Hrow) in H2.
  cbn [fst afterLookup] in H2.
  assert (Hw2 : w2 = snd (GetByProviderMessageID env ctx (idOf first)
                            (snd (validate (Some replay) w1))))
    by (subst w2; now rewrite H2).
  split; [rewrite H1; reflexivity|]. split; [rewrite H2; reflexivity|]. split.
  { exists row. split; [exact Hw1|]. split; [apply record_id | apply record_status]. }
  split; [rewrite Hw2; split; congruence|].
  split; [rewrite Hw2; eauto using quiet_trans|].
  rewrite Hw2, Hlm2, Hvm2, Hw1, (filter_last _ _ _ Hfresh Hrow). reflexivity.
Qed.

Lemma duplicates_from_stages : duplicatesOnLookupError env handle validate idOf.
Proof.
  intros webhook w Hvalid wv Hfail Hnext w'.
  pose proof (handle_valid webhook w Hvalid) as H.
  destruct (validate_frame (Some webhook) w) as ([Hvc Hvm] & _ & _).
  destruct (GetByProviderMessageID_frame (idOf webhook) wv)
    as ([Hlc Hlm] & _ & Hst & _ & Herr).
  destruct (Herr Hfail) as [err Hlookup].
  fold wv in H. rewrite Hlookup in H. cbn [fst afterLookup] in H.
  destruct (createMessageRecord_healthy (record webhook)
              (snd (GetByProviderMessageID env ctx (idOf webhook) wv)))
    as (Hres & _ & _ & cid & t1 & t2 & id & Hrows).
  { rewrite Hst. exact Hnext. }
  rewrite Hres in H. cbn [wrapCreateError] in H.
  rewrite Hlm in Hrows. fold wv in Hvm. rewrite Hvm in Hrows.
  set (row := insertedRow (setRecordFields (record webhook) cid t1 t2) id) in *.
  assert (Hrow : hasProviderID (idOf webhook) row = true)
    by (apply hasProviderID_record, record_id).
  assert (Hw' : messages w' = messages w ++ [row]) by (subst w'; now rewrite H).
  split; [rewrite H; reflexivity|]. split.
  - exists row. split; [exact Hw' | apply record_id].
  - unfold withProviderID. rewrite Hw', filter_app, length_app. cbn [filter].
    rewrite Hrow. cbn. lia.
Qed.

End Inbound.

(** C4, as amended.  As long as the SQL statements succeed: two valid
    inbound SMS webhooks with the same messaging provider id, handled one
    after the other from a store without a message of that id, leave exactly
    one message with that id; the first call persists it (status
    [delivered]), the replay returns success and changes no row, calls no
    provider and waits for nothing.  The same holds of [HandleInboundEmail],
    keyed on the XillioID. *)
Theorem inbound_replay_is_idempotent :
  healthy env ->
  replayIdempotent (HandleInboundSMS World rt svc ctx)
                   (validateInboundSMSWebhook World rt)
                   InboundSMSWebhook.MessagingProviderID
  /\ replayIdempotent (HandleInboundEmail World rt svc ctx)
                      (validateInboundEmailWebhook World rt)
                      InboundEmailWebhook.XillioID.
Proof.
  intros Hhealthy. split.
  - apply (replay_from_stages _ _ _ _ smsRecord); auto.
    + apply validateInboundSMSWebhook_frame.
    + intros a w Hv. apply (HandleInboundSMS_valid World rt svc ctx a w Hv).
  - apply (replay_from_stages _ _ _ _ emailRecord); auto.
    + apply validateInboundEmailWebhook_frame.
    + intros a w Hv. apply (HandleInboundEmail_valid World rt svc ctx a w Hv).
Qed.

(** C10.  In [HandleInboundSMS] and [HandleInboundEmail], with a valid
    webhook: the handler stops after the lookup, with success, only when the
    lookup by provider id answered a message and no error; when the lookup
    answered an error (or no message) the handler creates the record as for a
    new message.  So when the statement of the lookup fails and the
    statements after it succeed, the handler returns success and the message
    is added as a new row, a duplicate if a row with that provider id was
    there. *)
Theorem lookup_error_skips_suppression :
  (suppressesOnlyOnHit env cfg ctx (HandleInboundSMS World rt svc ctx)
     (validateInboundSMSWebhook World rt) InboundSMSWebhook.MessagingProviderID
     smsRecord
   /\ duplicatesOnLookupError env (HandleInboundSMS World rt svc ctx)
        (validateInboundSMSWebhook World rt) InboundSMSWebhook.MessagingProviderID)
  /\ (suppressesOnlyOnHit env cfg ctx (HandleInboundEmail World rt svc ctx)
        (validateInboundEmailWebhook World rt) InboundEmailWebhook.XillioID
        emailRecord
      /\ duplicatesOnLookupError env (HandleInboundEmail World rt svc ctx)
           (validateInboundEmailWebhook World rt) InboundEmailWebhook.XillioID).
Proof.
  assert (Hsms : forall a w,
             fst (validateInboundSMSWebhook World rt (Some a) w) = None ->
             HandleInboundSMS World rt svc ctx (Some a) w
             = afterLookup rt svc ctx (smsRecord a)
                 (fst (GetByProviderMessageID env ctx
                         (InboundSMSWebhook.MessagingProviderID a)
                         (snd (validateInboundSMSWebhook World rt (Some a) w))))
                 (snd (GetByProviderMessageID env ctx
                         (InboundSMSWebhook.MessagingProviderID a)
                         (snd (validateInboundSMSWebhook World rt (Some a) w)))))
    by (intros a w Hv; apply (HandleInboundSMS_valid World rt svc ctx a w Hv)).
  assert (Hemail : forall a w,
             fst (validateInboundEmailWebhook World rt (Some a) w) = None ->
             HandleInboundEmail World rt svc ctx (Some a) w
             = afterLookup rt svc ctx (emailRecord a)
                 (fst (GetByProviderMessageID env ctx (InboundEmailWebhook.XillioID a)
                         (snd (validateInboundEmailWebhook World rt (Some a) w))))
                 (snd (GetByProviderMessageID env ctx (InboundEmailWebhook.XillioID a)
                         (snd (validateInboundEmailWebhook World rt (Some a) w)))))
    by (intros a w Hv; apply (HandleInboundEmail_valid World rt svc ctx a w Hv)).
  split; split.
  - apply suppression_from_stages. exact Hsms.
  - apply (duplicates_from_stages _ _ _ _ smsRecord);
      auto using validateInboundSMSWebhook_frame.
  - apply suppression_from_stages. exact Hemail.
  - apply (duplicates_from_stages _ _ _ _ emailRecord);
      auto using validateInboundEmailWebhook_frame.
Qed.

End WithEnv.

End PostgresFacts.

(** ** The retry loop: bounds, outcomes, cancellation *)

Module RetryFacts.
Import GoTime domain ports service Orchestration postgres Store.
Local Open Scope string_scope.
Local Open Scope list_scope.
Local Open Scope Z_scope.

(** The delay before a retry never exceeds [MaxDelay], whatever the
    products wrap around to. *)
Lemma backoffDelay_le_MaxDelay (W : Type) (s : messagingService W)
      (attempt : Z) (err : error) :
  backoffDelay W s attempt err <= MaxDelay (retryConfig s).
Proof.
  unfold backoffDelay. cbv zeta.
  repeat match goal with
         | |- context [if ?a <? ?b then _ else _] => destruct (Z.ltb_spec a b)
         end; lia.
Qed.


(** *** What a run reports

    [calls] counts the invocations of the operation, whose n-th invocation
    answers [outcome n]; nothing is assumed of the context. *)
Section Outcome.
Import RetrySpec.
Variable W : Type.
Variable rt : Runtime W.
Variable s : messagingService W.
Variable ctx : Context.
Variable operation : M W (option error).
Variable calls : W -> nat.
Variable outcome : nat -> option error.

Hypothesis operation_calls : forall w, calls (snd (operation w)) = S (calls w).
Hypothesis operation_outcome : forall w, fst (operation w) = outcome (calls w).
Hypothesis Wait_calls : forall d w, calls (snd (Wait rt ctx d w)) = calls w.

Lemma retryLoop_reported (n : nat) (attempt : Z) (w : W) :
  attempt + Z.of_nat n = MaxRetries (retryConfig s) + 1 ->
  let run := retryLoop W rt s ctx operation n attempt w in
  reported rt ctx calls outcome w (snd run) (fst run)
  /\ ((1 <= n)%nat -> (calls w < calls (snd run))%nat).
Proof.
  revert attempt w. induction n as [|n IH]; intros attempt w Hturns; cbv zeta.
  - cbn. unfold reported. split; [|lia]. split; [lia|]. split; [intros; lia|].
    right. right. split; reflexivity.
  - rewrite retryLoop_step, operation_outcome.
    assert (Hstop : forall r : option error,
               outcome (calls w) = r ->
               reported rt ctx calls outcome w (snd (r, snd (operation w)))
                        (fst (r, snd (operation w)))
               /\ ((1 <= S n)%nat -> (calls w < calls (snd (r, snd (operation w))))%nat)).
    { intros r Hr. unfold reported. cbn [fst snd]. rewrite operation_calls. cbn [pred].
      split; [|lia]. split; [lia|]. split; [intros; lia|].
      destruct r; [left|]; split; auto; lia. }
    destruct (outcome (calls w)) as [err|] eqn:Eo; [|now apply Hstop].
    destruct (IsRetryableError err) eqn:Er; cbn [negb]; [|now apply Hstop].
    destruct (Z.eqb_spec attempt (MaxRetries (retryConfig s))) as [|Hmore];
      [now apply Hstop|].
    cbv zeta.
    set (waited := Wait rt ctx (backoffDelay W s attempt err) (snd (operation w))).
    assert (Hc : calls (snd waited) = S (calls w))
      by (subst waited; now rewrite Wait_calls, operation_calls).
    destruct (fst waited) as [ctxErr|] eqn:Ew.
    + unfold reported. cbn [fst snd]. rewrite Hc.
      split; [|lia]. split; [lia|]. split; [intros; lia|].
      right. left. split; [lia | eauto].
    + destruct (IH (attempt + 1) (snd waited) ltac:(lia)) as ((Hle & Hall & Hres) & Hpos).
      specialize (Hpos ltac:(lia)). rewrite Hc in *.
      unfold reported. split; [|lia]. split; [lia|]. split.
      * intros k Hk1 Hk2.
        destruct (Nat.eq_dec k (calls w)) as [->|];
          [exists err; auto | apply Hall; lia].
      * destruct (fst (retryLoop W rt s ctx operation n (attempt + 1) (snd waited))).
        -- destruct Hres as [[H1 H2] | [[H1 H2] | [H1 H2]]];
             [left; split; [lia | exact H2] | right; left; split; [lia | exact H2] | lia].
        -- destruct Hres as [H1 H2]. split; [lia | exact H2].
Qed.

End Outcome.

Section OverPostgres.
Variable env : Env.
Variable cfg : RetryConfig.
Variable ctx : Context.

Let rt := runtime env.
Let svc := NewMessagingServiceWithConfig env cfg.

Lemma sendSMSMessage_callsOnce (req : SendSMSRequest.t) :
  callsOnce env (sendSMSMessage World svc ctx req).
Proof.
  intros w. unfold sendSMSMessage.
  destruct (String.eqb _ MessageTypeSMS); [left; reflexivity|].
  destruct (String.eqb _ MessageTypeMMS); [left; reflexivity|].
  right. right. eexists. split; reflexivity.
Qed.

Lemma sendEmail_callsOnce (req : SendEmailRequest.t) :
  callsOnce env (EmailProvider_SendEmail (emailProvider svc) ctx
               (SendEmailRequest.From req) (SendEmailRequest.To req)
               (SendEmailRequest.Body req) (SendEmailRequest.Attachments req)).
Proof. intros w. right. left. reflexivity. Qed.

(** The loop with [n] turns left: at most [n] calls to the providers, fewer
    waits than turns, no wait longer than [MaxDelay]. *)
Lemma retryLoop_bounded (operation : M World (option error)) :
  callsOnce env operation ->
  forall n attempt w,
    attempt + Z.of_nat n = MaxRetries cfg + 1 ->
    let run := retryLoop World rt svc ctx operation n attempt w in
    exists delays,
      waitedBetween w (snd run) delays
      /\ (List.length delays <= n - 1)%nat
      /\ Forall (fun d => d <= MaxDelay cfg) delays
      /\ (smsCalls w <= smsCalls (snd run))%nat
      /\ (emailCalls w <= emailCalls (snd run))%nat
      /\ (smsCalls (snd run) + emailCalls (snd run)
          <= smsCalls w + emailCalls w + n)%nat.
Proof.
  intros Hop. unfold waitedBetween.
  induction n as [|n IH]; intros attempt w Hturns; cbv zeta.
  - exists []. cbn. rewrite app_nil_r. repeat split; auto; lia.
  - rewrite retryLoop_step.
    assert (Hstop : forall r,
               exists delays,
                 sleeps (snd (r : option error, snd (operation w))) = sleeps w ++ delays
                 /\ (List.length delays <= S n - 1)%nat
                 /\ Forall (fun d => d <= MaxDelay cfg) delays
                 /\ (smsCalls w <= smsCalls (snd (r, snd (operation w))))%nat
                 /\ (emailCalls w <= emailCalls (snd (r, snd (operation w))))%nat
                 /\ (smsCalls (snd (r, snd (operation w)))
                     + emailCalls (snd (r, snd (operation w)))
                     <= smsCalls w + emailCalls w + S n)%nat).
    { intros r. exists []. rewrite app_nil_r. cbn [snd].
      destruct (Hop w) as [H | [H | (e & H & _)]]; rewrite H; cbn;
        repeat split; auto; lia. }
    destruct (fst (operation w)) as [err|] eqn:Eop; [|apply Hstop].
    destruct (negb (IsRetryableError err)); [apply Hstop|].
    destruct (Z.eqb_spec attempt (MaxRetries (retryConfig svc))) as [|Hmore];
      [apply Hstop|].
    assert (Hn : (1 <= n)%nat) by (cbn [retryConfig svc NewMessagingServiceWithConfig] in Hmore; lia).
    cbv zeta. cbn [Wait rt runtime].
    set (d := backoffDelay World svc attempt err).
    assert (Hd : d <= MaxDelay cfg) by apply (backoffDelay_le_MaxDelay World svc).
    assert (Hw : sleeps (snd (wait env ctx d (snd (operation w)))) = sleeps w ++ [d]
                 /\ smsCalls (snd (wait env ctx d (snd (operation w))))
                    = smsCalls (snd (operation w))
                 /\ emailCalls (snd (wait env ctx d (snd (operation w))))
                    = emailCalls (snd (operation w))
                 /\ (smsCalls w <= smsCalls (snd (operation w)))%nat
                 /\ (emailCalls w <= emailCalls (snd (operation w)))%nat
                 /\ (smsCalls (snd (operation w)) + emailCalls (snd (operation w))
                     <= smsCalls w + emailCalls w + 1)%nat).
    { destruct (Hop w) as [H | [H | (e & H & _)]]; rewrite H; cbn;
        repeat split; auto; lia. }
    destruct Hw as (Hs & Hsms & Hemail & Hle1 & Hle2 & Hle3).
    destruct (fst (wait env ctx d (snd (operation w)))) as [ctxErr|].
    + exists [d]. cbn [snd]. rewrite Hs, Hsms, Hemail.
      repeat split; auto; cbn; lia.
    + destruct (IH (attempt + 1) (snd (wait env ctx d (snd (operation w)))) ltac:(lia))
        as (delays & H1 & H2 & H3 & H4 & H5 & H6).
      exists (d :: delays). rewrite H1, Hs, <- app_assoc. cbn [app].
      repeat split; auto; cbn [List.length]; try lia.
Qed.

(** A run of the retry loop over a provider call. *)
Lemma retryWithBackoff_bounded (operation : M World (option error)) (w : World) :
  callsOnce env operation ->
  let run := retryWithBackoff World rt svc ctx operation w in
  exists delays,
    waitedBetween w (snd run) delays
    /\ Z.of_nat (List.length delays) <= Z.max 0 (MaxRetries cfg)
    /\ Forall (fun d => d <= MaxDelay cfg) delays
    /\ Z.of_nat (smsCalls (snd run) + emailCalls (snd run))
       <= Z.of_nat (smsCalls w + emailCalls w) + Z.max 0 (MaxRetries cfg + 1)
    /\ (smsCalls w <= smsCalls (snd run))%nat
    /\ (emailCalls w <= emailCalls (snd run))%nat.
Proof.
  intros Hop run. subst run. unfold retryWithBackoff.
  cbn [retryConfig svc NewMessagingServiceWithConfig].
  destruct (Z.le_gt_cases (MaxRetries cfg + 1) 0) as [Hneg | Hpos].
  - replace (Z.to_nat (MaxRetries cfg + 1)) with 0%nat by lia.
    exists []. unfold waitedBetween. cbn. rewrite app_nil_r.
    repeat split; auto; lia.
  - destruct (retryLoop_bounded operation Hop (Z.to_nat (MaxRetries cfg + 1)) 0 w
                ltac:(lia)) as (delays & H1 & H2 & H3 & H4 & H5 & H6).
    exists delays. repeat split; auto; lia.
Qed.

(** X1.  Whatever the provider answers and whether or not the context is
    cancelled, sending an SMS, an MMS or an email with retries calls the
    provider at most [MaxRetries + 1] times, waits at most [MaxRetries]
    times, and never waits longer than [MaxDelay] before a retry (the cap
    also holds when the exponential delay or the retry-after hint
    overflows). *)
Theorem retry_is_bounded (w : World) :
  (forall req : SendSMSRequest.t,
      let run := sendSMSMessageWithRetry World rt svc ctx req w in
      exists delays,
        waitedBetween w (snd run) delays
        /\ Z.of_nat (List.length delays) <= Z.max 0 (MaxRetries cfg)
        /\ Forall (fun d => d <= MaxDelay cfg) delays
        /\ Z.of_nat (smsCalls (snd run))
           <= Z.of_nat (smsCalls w) + Z.max 0 (MaxRetries cfg + 1))
  /\ (forall req : SendEmailRequest.t,
         let run := sendEmailMessageWithRetry World rt svc ctx req w in
         exists delays,
           waitedBetween w (snd run) delays
           /\ Z.of_nat (List.length delays) <= Z.max 0 (MaxRetries cfg)
           /\ Forall (fun d => d <= MaxDelay cfg) delays
           /\ Z.of_nat (emailCalls (snd run))
              <= Z.of_nat (emailCalls w) + Z.max 0 (MaxRetries cfg + 1)).
Proof.
  split; intros req run; subst run.
  - destruct (retryWithBackoff_bounded _ w (sendSMSMessage_callsOnce req))
      as (delays & H1 & H2 & H3 & H4 & H5 & H6).
    exists delays. repeat split; auto.
    unfold sendSMSMessageWithRetry. lia.
  - destruct (retryWithBackoff_bounded _ w (sendEmail_callsOnce req))
      as (delays & H1 & H2 & H3 & H4 & H5 & H6).
    exists delays. repeat split; auto.
    unfold sendEmailMessageWithRetry. lia.
Qed.

(** A run of the retry loop over the scripted providers, against their
    answers. *)
Lemma retryWithBackoff_reported (operation : M World (option error))
      (calls : World -> nat) (outcome : nat -> option error) (w : World) :
  (forall w0, calls (snd (operation w0)) = S (calls w0)) ->
  (forall w0, fst (operation w0) = outcome (calls w0)) ->
  (forall d w0, calls (snd (wait env ctx d w0)) = calls w0) ->
  let run := retryWithBackoff World rt svc ctx operation w in
  reported rt ctx calls outcome w (snd run) (fst run).
Proof.
  intros Hcalls Hout Hwait run. subst run. unfold retryWithBackoff.
  destruct (Z.le_gt_cases (MaxRetries (retryConfig svc) + 1) 0) as [Hneg | Hpos].
  - replace (Z.to_nat (MaxRetries (retryConfig svc) + 1)) with 0%nat by lia.
    cbn. unfold reported. split; [lia|]. split; [intros; lia|].
    right. right. split; reflexivity.
  - apply (retryLoop_reported World rt svc ctx operation calls outcome
             Hcalls Hout Hwait). lia.
Qed.

Lemma sendSMSMessageWithRetry_reported (req : SendSMSRequest.t) (w : World) :
  SendSMSRequest.Type_ req = MessageTypeSMS
  \/ SendSMSRequest.Type_ req = MessageTypeMMS ->
  let run := sendSMSMessageWithRetry World rt svc ctx req w in
  reported rt ctx smsCalls (smsReply env) w (snd run) (fst run).
Proof.
  intros Htype run. subst run. unfold sendSMSMessageWithRetry.
  assert (Hop : sendSMSMessage World svc ctx req = smsCall env).
  { unfold sendSMSMessage. destruct Htype as [-> | ->]; reflexivity. }
  rewrite Hop. apply retryWithBackoff_reported; reflexivity.
Qed.

Lemma sendEmailMessageWithRetry_reported (req : SendEmailRequest.t) (w : World) :
  let run := sendEmailMessageWithRetry World rt svc ctx req w in
  reported rt ctx emailCalls (emailReply env) w (snd run) (fst run).
Proof.
  intros run. subst run. unfold sendEmailMessageWithRetry.
  apply retryWithBackoff_reported; reflexivity.
Qed.

(** X2.  What a send with retries reports, against the answers of the
    provider: every call but the last was answered with a retryable error, so
    the provider accepts a message at most once per send; success is reported
    only when the last call was answered with success; an error is the answer
    to the last call, the error of the context after a wait, or, when no
    call was made, the error of a loop whose [MaxRetries] is negative.  For
    an SMS request this holds when its type is [sms] or [mms]. *)
Theorem retry_reports_last_answer (w : World) :
  (forall req : SendSMSRequest.t,
      SendSMSRequest.Type_ req = MessageTypeSMS
      \/ SendSMSRequest.Type_ req = MessageTypeMMS ->
      let run := sendSMSMessageWithRetry World rt svc ctx req w in
      reported rt ctx smsCalls (smsReply env) w (snd run) (fst run))
  /\ (forall req : SendEmailRequest.t,
         let run := sendEmailMessageWithRetry World rt svc ctx req w in
         reported rt ctx emailCalls (emailReply env) w (snd run) (fst run)).
Proof.
  split.
  - intros req Htype. apply (sendSMSMessageWithRetry_reported req w Htype).
  - intros req. apply (sendEmailMessageWithRetry_reported req w).
Qed.

(** The [select] of the loop with a timer that has nothing to run: when the
    delay is zero or less the loop can go on although the context is done,
    and it does whenever the timer is the case that is taken. *)
Lemma wait_without_delay (delay : Duration) (w : World) :
  delay <= 0 ->
  timerFirst env (List.length (sleeps w)) = true ->
  fst (wait env ctx delay w) = None.
Proof.
  intros Hdelay Htimer. unfold wait, selected. cbn [fst]. rewrite Htimer.
  destruct (ctxErr ctx _); [|reflexivity].
  destruct (Z.leb_spec delay 0); [reflexivity | lia].
Qed.

(** X4.  Cancellation stops the retries: when the first call to the SMS
    provider fails with a retryable error, a retry is allowed, the delay
    before it is positive and the context is done before that delay has
    passed, the send returns the error of the context, the provider was
    called once, and no row is changed.  (With a delay of zero or less the
    timer of the [select] is ready at once, and Go may take it although the
    context is done; the property is about positive delays only.) *)
Theorem cancellation_stops_retries (req : SendSMSRequest.t) (w : World)
        (e ctxError : error) :
  SendSMSRequest.Type_ req = MessageTypeSMS
  \/ SendSMSRequest.Type_ req = MessageTypeMMS ->
  smsReply env (smsCalls w) = Some e ->
  IsRetryableError e = true ->
  0 < MaxRetries cfg ->
  0 < backoffDelay World svc 0 e ->
  ctxErr ctx (List.length (sleeps w)) = Some ctxError ->
  let run := sendSMSMessageWithRetry World rt svc ctx req w in
  fst run = Some ctxError
  /\ smsCalls (snd run) = S (smsCalls w)
  /\ waitedBetween w (snd run) [backoffDelay World svc 0 e]
  /\ sameRows w (snd run).
Proof.
  intros Htype Hreply Hretry Hmax Hdelay Hdone run. subst run.
  unfold sendSMSMessageWithRetry, retryWithBackoff.
  assert (Hop : sendSMSMessage World svc ctx req = smsCall env).
  { unfold sendSMSMessage. destruct Htype as [-> | ->]; reflexivity. }
  rewrite Hop. cbn [retryConfig svc NewMessagingServiceWithConfig].
  replace (Z.to_nat (MaxRetries cfg + 1)) with (S (Z.to_nat (MaxRetries cfg))) by lia.
  rewrite retryLoop_step. cbn [smsCall fst snd]. rewrite Hreply, Hretry.
  cbn [negb retryConfig svc NewMessagingServiceWithConfig].
  destruct (Z.eqb_spec 0 (MaxRetries cfg)); [lia|].
  cbv zeta. cbn [Wait rt runtime wait fst snd sleeps]. unfold selected.
  rewrite Hdone.
  destruct (Z.leb_spec (backoffDelay World svc 0 e) 0) as [Hle | _]; [lia|].
  cbn. unfold waitedBetween, sameRows. cbn. repeat split.
Qed.

End OverPostgres.

(** *** A retry policy without attempts *)

Section Disabled.
Variable W : Type.
Variable rt : Runtime W.
Variable s : messagingService W.
Variable ctx : Context.

(** X3.  With a negative [MaxRetries] nothing is ever sent: the retry loop
    returns "max retries exceeded" without invoking the operation, so every
    valid SMS or email request fails with that error, wrapped, right after
    its validation. *)
Theorem negative_MaxRetries_disables_sending :
  MaxRetries (retryConfig s) < 0 ->
  (forall operation w,
      retryWithBackoff W rt s ctx operation w
      = (Some (Errorf "max retries exceeded"), w))
  /\ (forall req w,
         fst (validateSMSRequest W rt (Some req) w) = None ->
         SendSMS W rt s ctx (Some req) w
         = (Some (Wrapf "failed to send message through provider: %w"
                    (Errorf "max retries exceeded")),
            snd (validateSMSRequest W rt (Some req) w)))
  /\ (forall req w,
         fst (validateEmailRequest W rt (Some req) w) = None ->
         SendEmail W rt s ctx (Some req) w
         = (Some (Wrapf "failed to send email through provider: %w"
                    (Errorf "max retries exceeded")),
            snd (validateEmailRequest W rt (Some req) w))).
Proof.
  intros Hneg.
  assert (Hloop : forall operation w,
             retryWithBackoff W rt s ctx operation w
             = (Some (Errorf "max retries exceeded"), w)).
  { intros operation w. unfold retryWithBackoff.
    replace (Z.to_nat (MaxRetries (retryConfig s) + 1)) with 0%nat by lia.
    reflexivity. }
  split; [exact Hloop|]. split; intros req w Hvalid.
  - pose proof (SendSMS_cases W rt s ctx (Some req) w) as H. cbv zeta in H.
    rewrite Hvalid in H. unfold sendSMSMessageWithRetry in H.
    rewrite Hloop in H. exact H.
  - pose proof (SendEmail_cases W rt s ctx (Some req) w) as H. cbv zeta in H.
    rewrite Hvalid in H. unfold sendEmailMessageWithRetry in H.
    rewrite Hloop in H. exact H.
Qed.

End Disabled.

(** *** The multiplier *)

Section Multiplier.
Variable W : Type.
Variable rt : Runtime W.
Variable s : messagingService W.
Variable ctx : Context.

(** X19.  The [Multiplier] of the retry policy is never read: the delay
    before a retry doubles with each attempt whatever the multiplier says,
    and a run of the retry loop, the calls it makes, the delays it waits and
    its result, is the same under two policies that only differ in their
    multiplier. *)
Theorem Multiplier_is_ignored (multiplier : Z * Z) :
  (forall attempt err,
      backoffDelay W (withMultiplier s multiplier) attempt err
      = backoffDelay W s attempt err)
  /\ (forall operation w,
         retryWithBackoff W rt (withMultiplier s multiplier) ctx operation w
         = retryWithBackoff W rt s ctx operation w).
Proof.
  assert (Hdelay : forall attempt err,
             backoffDelay W (withMultiplier s multiplier) attempt err
             = backoffDelay W s attempt err) by reflexivity.
  split; [exact Hdelay|].
  intros operation w. unfold retryWithBackoff.
  cbn [retryConfig withMultiplier MaxRetries].
  generalize (Z.to_nat (MaxRetries (retryConfig s) + 1)), 0.
  intros n. revert w. induction n as [|n IH]; intros w attempt; [reflexivity|].
  rewrite !retryLoop_step.
  destruct (fst (operation w)); [|reflexivity].
  destruct (negb _); [reflexivity|].
  cbn [retryConfig withMultiplier MaxRetries].
  destruct (_ =? _); [reflexivity|].
  cbv zeta. rewrite Hdelay.
  destruct (fst (Wait rt ctx _ (snd (operation w)))); [reflexivity | apply IH].
Qed.

End Multiplier.

End RetryFacts.

(** ** The store behind the four operations *)

Module StoreFacts.
Import GoStrings GoTime domain ports service Orchestration postgres Store.
Import PostgresFacts.
Local Open Scope string_scope.
Local Open Scope list_scope.
Local Open Scope Z_scope.

(** The messaging normalizer answers its two arguments, in one order or the
    other. *)
Lemma normalizeContacts_originals (a b : string) :
  normalizeContacts a b = (a, b) \/ normalizeContacts a b = (b, a).
Proof.
  unfold normalizeContacts, MessagingNormalizer.normalizeContacts.
  destruct (Contains a "@" && Contains b "@").
  - rewrite GoStringsFacts.Strings_pair. destruct (lt b a); cbn; auto.
  - destruct (lt _ _); auto.
Qed.

Lemma matchesContacts_swap (a b : string) (c : Conversation.t) :
  matchesContacts a b c = matchesContacts b a c.
Proof. unfold matchesContacts. apply orb_comm. Qed.

Lemma matchesContacts_rows (c d : Conversation.t) :
  matchesContacts (Conversation.CustomerContact c) (Conversation.BusinessContact c) d
  = matchesContacts (Conversation.CustomerContact d) (Conversation.BusinessContact d) c.
Proof.
  unfold matchesContacts.
  rewrite (String.eqb_sym (Conversation.CustomerContact d) (Conversation.CustomerContact c)),
    (String.eqb_sym (Conversation.BusinessContact d) (Conversation.BusinessContact c)),
    (String.eqb_sym (Conversation.CustomerContact d) (Conversation.BusinessContact c)),
    (String.eqb_sym (Conversation.BusinessContact d) (Conversation.CustomerContact c)).
  destruct (_ =? _)%string, (_ =? _)%string, (_ =? _)%string, (_ =? _)%string;
    reflexivity.
Qed.

Lemma find_snoc {A : Type} (f : A -> bool) (l : list A) (x : A) :
  find f (l ++ [x])
  = match find f l with
    | Some y => Some y
    | None => if f x then Some x else None
    end.
Proof.
  induction l as [|y l IH]; cbn; [reflexivity|].
  destruct (f y); [reflexivity | exact IH].
Qed.

Lemma find_ext {A : Type} (f g : A -> bool) (l : list A) :
  (forall x, f x = g x) -> find f l = find g l.
Proof.
  intros H. induction l as [|x l IH]; cbn; [reflexivity|].
  rewrite H. destruct (g x); [reflexivity | exact IH].
Qed.

Lemma find_none_forall {A : Type} (f : A -> bool) (l : list A) (i : nat) (x : A) :
  find f l = None -> nth_error l i = Some x -> f x = false.
Proof.
  intros Hnone Hi. apply nth_error_In in Hi.
  destruct (f x) eqn:E; [|reflexivity].
  pose proof (find_none f l Hnone x Hi). congruence.
Qed.

Section WithEnv.
Variable env : Env.
Variable cfg : RetryConfig.
Variable ctx : Context.

#[local] Abbreviation rt := (runtime env).
#[local] Abbreviation svc := (NewMessagingServiceWithConfig env cfg).

(** *** Get-or-create, statement by statement *)

Lemma GetOrCreate_run (a b : string) (w : World) :
  let got := GetOrCreate env ctx a b w in
  messages (snd got) = messages w
  /\ (statements w < statements (snd got))%nat
  /\ match fst got with
     | inl c =>
         matchesContacts a b c = true
         /\ find (matchesContacts a b) (conversations (snd got)) = Some c
         /\ dbFails env (statements w) = false
         /\ match find (matchesContacts a b) (conversations w) with
            | Some _ =>
                conversations (snd got) = conversations w
                /\ statements (snd got) = S (statements w)
            | None =>
                conversations (snd got) = conversations w ++ [c]
                /\ Conversation.CustomerContact c = a
                /\ Conversation.BusinessContact c = b
                /\ dbFails env (S (statements w)) = false
                /\ statements (snd got) = S (S (statements w))
            end
     | inr _ => conversations (snd got) = conversations w
     end.
Proof.
  unfold GetOrCreate, GetByContacts, ConversationRepository_Create, statement,
    rows, insertConversation, bind, ret. cbn.
  destruct (dbFails env (statements w)) eqn:E1; cbn.
  - repeat split; auto.
  - destruct (find _ (conversations w)) as [conv|] eqn:Ef; cbn.
    + repeat split; auto. apply (find_some _ _ Ef).
    + destruct (dbFails env (S (statements w))) eqn:E2; cbn.
      * repeat split; auto.
      * assert (Hm : forall id t,
                   matchesContacts a b (Conversation.mk id a b t t []) = true).
        { intros id t. unfold matchesContacts. cbn. now rewrite !String.eqb_refl. }
        repeat split; auto. rewrite find_snoc, Ef, Hm. reflexivity.
Qed.

(** Get-or-create answers the same conversation for the two contacts in
    either order, as long as no conversation is added in between. *)
Lemma GetOrCreate_again (a b a' b' : string) (c : Conversation.t) (w : World) :
  (a' = a /\ b' = b) \/ (a' = b /\ b' = a) ->
  find (matchesContacts a b) (conversations w) = Some c ->
  dbFails env (statements w) = false ->
  fst (GetOrCreate env ctx a' b' w) = inl c
  /\ conversations (snd (GetOrCreate env ctx a' b' w)) = conversations w
  /\ statements (snd (GetOrCreate env ctx a' b' w)) = S (statements w).
Proof.
  intros Hpair Hfind Hok.
  assert (Hsame : find (matchesContacts a' b') (conversations w) = Some c).
  { destruct Hpair as [[-> ->] | [-> ->]]; [exact Hfind|].
    rewrite <- Hfind. apply find_ext. intros x. apply matchesContacts_swap. }
  unfold GetOrCreate, GetByContacts, statement, rows, bind, ret. cbn.
  rewrite Hok. cbn. rewrite Hsame. cbn. repeat split.
Qed.

(** *** The creation of a record, statement by statement *)

Lemma createMessageRecord_run (message : Message.t) (w : World) :
  let pair := normalizeContacts (Message.From message) (Message.To message) in
  let got := GetOrCreate env ctx (fst pair) (snd pair) w in
  let created := createMessageRecord World rt svc ctx message w in
  match fst got with
  | inr err =>
      created = (Some (Wrapf "failed to get or create conversation: %w" err), snd got)
  | inl conv =>
      exists createdAt updatedAt w3,
        created = MessageRepository_Create env ctx
                    (setRecordFields message (Conversation.ID conv) createdAt updatedAt)
                    w3
        /\ conversations w3 = conversations (snd got)
        /\ messages w3 = messages (snd got)
        /\ statements w3 = statements (snd got)
        /\ quiet (snd got) w3
  end.
Proof.
  cbv zeta. unfold createMessageRecord, bind, ret.
  cbn [conversationRepo messageRepo NewMessagingServiceWithConfig
         conversationRepository messageRepository ports.GetOrCreate
         ports.MessageRepository_Create Now runtime].
  destruct (normalizeContacts _ _) as [x y]. cbn [fst snd].
  destruct (GetOrCreate env ctx x y w) as [[conv|err] w1]; cbn [fst snd];
    [|reflexivity].
  eexists _, _, _. split; [reflexivity|]. repeat split.
Qed.


(** The row a successful creation adds, and the conversation it refers to. *)
Lemma createMessageRecord_row (message : Message.t) (w : World) :
  let created := createMessageRecord World rt svc ctx message w in
  fst created = None ->
  exists conv row,
    messages (snd created) = messages w ++ [row]
    /\ insertedAs message row
    /\ Message.ConversationID row = Conversation.ID conv
    /\ matchesContacts (Message.From message) (Message.To message) conv = true
    /\ find (matchesContacts (Message.From message) (Message.To message))
            (conversations (snd created)) = Some conv
    /\ grownByAtMostOne (conversations w) (conversations (snd created))
    /\ (statements w < statements (snd created))%nat.
Proof.
  cbv zeta. intros Hok.
  pose proof (createMessageRecord_run message w) as Hrun. cbv zeta in Hrun.
  set (pair := normalizeContacts (Message.From message) (Message.To message)) in *.
  pose proof (GetOrCreate_run (fst pair) (snd pair) w) as Hgot. cbv zeta in Hgot.
  destruct (fst (GetOrCreate env ctx (fst pair) (snd pair) w)) as [conv|err].
  2:{ rewrite Hrun in Hok. discriminate. }
  destruct Hrun as (t1 & t2 & w3 & Hrun & Hc3 & Hm3 & Hs3 & _).
  destruct Hgot as (Hm1 & Hs1 & Hmatch & Hfind & _ & Hgrow).
  rewrite Hrun in *.
  destruct (MessageRepository_Create_frame env ctx
              (setRecordFields message (Conversation.ID conv) t1 t2) w3)
    as (Hc4 & _ & Hrow & _).
  destruct Hrow as [[Hne _] | [_ [id Hrow]]]; [congruence|].
  assert (Hpair : forall c : Conversation.t,
             matchesContacts (fst pair) (snd pair) c
             = matchesContacts (Message.From message) (Message.To message) c).
  { intros c. subst pair.
    destruct (normalizeContacts_originals (Message.From message) (Message.To message))
      as [-> | ->]; cbn [fst snd]; [reflexivity | apply matchesContacts_swap]. }
  exists conv, (insertedRow (setRecordFields message (Conversation.ID conv) t1 t2) id).
  split; [rewrite Hrow, Hm3, Hm1; reflexivity|].
  split; [repeat split|]. split; [reflexivity|].
  split; [rewrite <- Hpair; exact Hmatch|].
  split.
  { rewrite Hc4, Hc3, <- Hfind. apply find_ext. intros c. symmetry. apply Hpair. }
  split.
  { rewrite Hc4, Hc3. unfold grownByAtMostOne.
    destruct (find _ (conversations w)); [left; apply Hgrow | right; exists conv; apply Hgrow]. }
  unfold MessageRepository_Create, statement, rows, insertMessage, bind, ret. cbn.
  destruct (dbFails env (statements w3)); cbn; lia.
Qed.

(** *** Conversations *)

(** X5.  Grouping does not depend on the direction: as long as the SQL
    statements succeed, the records of two messages between the same two
    addresses, in the same direction or in opposite ones, are both stored,
    and under the same conversation; the second record adds no conversation.
    Each row holds the fields of its message that the [INSERT] lists; the
    error code and the error message are not among them and are [NULL] in
    the row.  ([createMessageRecord] is what the four operations store a
    message with; the lookup of the repository matches the two contacts in
    either order, so this holds whichever order the normalizer answers.) *)
Theorem conversation_grouping (m1 m2 : Message.t) (w : World) :
  healthyFrom env (statements w) ->
  sameParties m1 m2 ->
  let first := createMessageRecord World rt svc ctx m1 w in
  let second := createMessageRecord World rt svc ctx m2 (snd first) in
  fst first = None /\ fst second = None
  /\ exists row1 row2,
      messages (snd second) = messages w ++ [row1; row2]
      /\ insertedAs m1 row1 /\ insertedAs m2 row2
      /\ Message.ConversationID row1 = Message.ConversationID row2
      /\ conversations (snd second) = conversations (snd first)
      /\ grownByAtMostOne (conversations w) (conversations (snd first)).
Proof.
  intros Hhealthy Hsame first second.
  assert (H1 : fst first = None).
  { subst first. destruct (createMessageRecord_frame env cfg ctx m1 w) as (_ & _ & _ & H).
    exact (H Hhealthy). }
  destruct (createMessageRecord_row m1 w H1)
    as (conv & row1 & Hrows1 & Hstored1 & Hid1 & _ & Hfind1 & Hgrow1 & Hst1).
  fold first in Hrows1, Hfind1, Hgrow1, Hst1.
  assert (Hhealthy1 : healthyFrom env (statements (snd first)))
    by (intros k Hk; apply Hhealthy; lia).
  assert (H2 : fst second = None).
  { subst second.
    destruct (createMessageRecord_frame env cfg ctx m2 (snd first)) as (_ & _ & _ & H).
    exact (H Hhealthy1). }
  pose proof (createMessageRecord_run m2 (snd first)) as Hrun. cbv zeta in Hrun.
  set (pair := normalizeContacts (Message.From m2) (Message.To m2)) in *.
  assert (Hpair : (fst pair = Message.From m1 /\ snd pair = Message.To m1)
                  \/ (fst pair = Message.To m1 /\ snd pair = Message.From m1)).
  { subst pair.
    destruct (normalizeContacts_originals (Message.From m2) (Message.To m2)) as [-> | ->];
      destruct Hsame as [[-> ->] | [-> ->]]; cbn [fst snd]; auto. }
  destruct (GetOrCreate_again (Message.From m1) (Message.To m1) (fst pair) (snd pair)
              conv (snd first) Hpair Hfind1 (Hhealthy1 _ (Nat.le_refl _)))
    as (Hgot & Hconv & Hst).
  rewrite Hgot in Hrun.
  destruct Hrun as (t1 & t2 & w3 & Hrun & Hc3 & Hm3 & Hs3 & _).
  fold second in Hrun.
  destruct (MessageRepository_Create_frame env ctx
              (setRecordFields m2 (Conversation.ID conv) t1 t2) w3)
    as (Hc4 & _ & Hrow & _).
  rewrite <- Hrun in Hc4, Hrow.
  destruct Hrow as [[Hne _] | [_ [id Hrow]]]; [congruence|].
  pose proof (GetOrCreate_run (fst pair) (snd pair) (snd first)) as Hg.
  cbv zeta in Hg. destruct Hg as (Hmsg & _).
  split; [exact H1|]. split; [exact H2|].
  exists row1, (insertedRow (setRecordFields m2 (Conversation.ID conv) t1 t2) id).
  split; [rewrite Hrow, Hm3, Hmsg, Hrows1, <- app_assoc; reflexivity|].
  split; [exact Hstored1|]. split; [repeat split|].
  split; [exact Hid1|]. split; [congruence | exact Hgrow1].
Qed.

(** X6.  Whatever fails, a record that is stored refers to a conversation
    that is in the table and whose two contacts are the sender and the
    recipient of the message, in one order or the other; the row holds the
    fields of the message that the [INSERT] lists (addresses, type, body,
    attachments, status, timestamp, provider id), and no error code and no
    error message, whatever the message carried there. *)
Theorem stored_message_has_its_conversation (message : Message.t) (w : World) :
  let created := createMessageRecord World rt svc ctx message w in
  fst created = None ->
  exists conv row,
    messages (snd created) = messages w ++ [row]
    /\ insertedAs message row
    /\ In conv (conversations (snd created))
    /\ Message.ConversationID row = Conversation.ID conv
    /\ matchesContacts (Message.From message) (Message.To message) conv = true.
Proof.
  intros created Hok. subst created.
  destruct (createMessageRecord_row message w Hok)
    as (conv & row & Hrows & Hstored & Hid & Hmatch & Hfind & _).
  exists conv, row. repeat split; try assumption; try apply Hstored.
  apply (find_some _ _ Hfind).
Qed.

Lemma uniquePairs_snoc (w w' : World) (c : Conversation.t) :
  uniquePairs w ->
  conversations w' = conversations w ++ [c] ->
  find (matchesContacts (Conversation.CustomerContact c) (Conversation.BusinessContact c))
       (conversations w) = None ->
  uniquePairs w'.
Proof.
  intros Huniq Hrows Hnone i j x y Hi Hj Hmatch. rewrite Hrows in Hi, Hj.
  destruct (Nat.lt_ge_cases i (List.length (conversations w))) as [Hil | Hil];
    destruct (Nat.lt_ge_cases j (List.length (conversations w))) as [Hjl | Hjl].
  - rewrite nth_error_app1 in Hi, Hj by assumption. eauto.
  - rewrite nth_error_app1 in Hi by assumption.
    rewrite nth_error_app2 in Hj by assumption.
    destruct (j - List.length (conversations w))%nat as [|k] eqn:Ej; cbn in Hj;
      [|destruct k; discriminate].
    injection Hj as <-. rewrite matchesContacts_rows in Hmatch.
    pose proof (find_none_forall _ _ _ _ Hnone Hi). congruence.
  - rewrite nth_error_app2 in Hi by assumption.
    rewrite nth_error_app1 in Hj by assumption.
    destruct (i - List.length (conversations w))%nat as [|k] eqn:Ei; cbn in Hi;
      [|destruct k; discriminate].
    injection Hi as <-.
    pose proof (find_none_forall _ _ _ _ Hnone Hj). congruence.
  - rewrite nth_error_app2 in Hi, Hj by assumption.
    destruct (i - List.length (conversations w))%nat as [|k] eqn:Ei; cbn in Hi;
      [|destruct k; discriminate].
    destruct (j - List.length (conversations w))%nat as [|k] eqn:Ej; cbn in Hj;
      [|destruct k; discriminate].
    lia.
Qed.

(** X7.  One conversation per pair of contacts: if no two conversations of
    the table are for the same two contacts (in either order), this is still
    so after get-or-create and after the creation of a record, whatever
    fails. *)
Theorem one_conversation_per_pair (w : World) :
  uniquePairs w ->
  (forall a b, uniquePairs (snd (GetOrCreate env ctx a b w)))
  /\ (forall message,
         uniquePairs (snd (createMessageRecord World rt svc ctx message w))).
Proof.
  intros Huniq.
  assert (Hgoc : forall a b, uniquePairs (snd (GetOrCreate env ctx a b w))).
  { intros a b. pose proof (GetOrCreate_run a b w) as H. cbv zeta in H.
    destruct H as (_ & _ & H).
    destruct (fst (GetOrCreate env ctx a b w)) as [c|err].
    - destruct H as (_ & _ & _ & H).
      destruct (find (matchesContacts a b) (conversations w)) eqn:Ef.
      + destruct H as [H _]. unfold uniquePairs in *. rewrite H. exact Huniq.
      + destruct H as (H & Ha & Hb & _).
        apply (uniquePairs_snoc w _ c Huniq H). now rewrite Ha, Hb.
    - unfold uniquePairs in *. rewrite H. exact Huniq. }
  split; [exact Hgoc|].
  intros message.
  pose proof (createMessageRecord_run message w) as Hrun. cbv zeta in Hrun.
  set (pair := normalizeContacts (Message.From message) (Message.To message)) in *.
  specialize (Hgoc (fst pair) (snd pair)).
  destruct (fst (GetOrCreate env ctx (fst pair) (snd pair) w)) as [conv|err].
  - destruct Hrun as (t1 & t2 & w3 & Hrun & Hc3 & _).
    rewrite Hrun.
    destruct (MessageRepository_Create_frame env ctx
                (setRecordFields message (Conversation.ID conv) t1 t2) w3)
      as (Hc4 & _).
    unfold uniquePairs in *. rewrite Hc4, Hc3. exact Hgoc.
  - rewrite Hrun. exact Hgoc.
Qed.

(** *** The four operations *)

Lemma grownByAtMostOne_refl {A : Type} (l : list A) : grownByAtMostOne l l.
Proof. left. reflexivity. Qed.

(** The retry loop leaves alone whatever the operation and the waits leave
    alone. *)
Lemma retryLoop_preserves {A : Type} (proj : World -> A)
      (operation : M World (option error)) :
  (forall w, proj (snd (operation w)) = proj w) ->
  (forall d w, proj (snd (wait env ctx d w)) = proj w) ->
  forall n attempt w,
    proj (snd (retryLoop World rt svc ctx operation n attempt w)) = proj w.
Proof.
  intros Hop Hwait. induction n as [|n IH]; intros attempt w; [reflexivity|].
  rewrite retryLoop_step.
  destruct (fst (operation w)); [|apply Hop].
  destruct (negb _); [apply Hop|].
  destruct (_ =? _); [apply Hop|].
  cbv zeta. cbn [Wait runtime].
  destruct (fst (wait env ctx _ (snd (operation w)))); cbn [snd].
  - now rewrite Hwait, Hop.
  - now rewrite IH, Hwait, Hop.
Qed.

Lemma sendSMSMessageWithRetry_statements (req : SendSMSRequest.t) (w : World) :
  statements (snd (sendSMSMessageWithRetry World rt svc ctx req w)) = statements w.
Proof.
  unfold sendSMSMessageWithRetry, retryWithBackoff.
  apply (retryLoop_preserves statements); [|reflexivity].
  intros w0. unfold sendSMSMessage.
  repeat match goal with |- context [if ?c then _ else _] => destruct c end;
    reflexivity.
Qed.

Lemma sendEmailMessageWithRetry_statements (req : SendEmailRequest.t) (w : World) :
  statements (snd (sendEmailMessageWithRetry World rt svc ctx req w)) = statements w.
Proof.
  unfold sendEmailMessageWithRetry, retryWithBackoff.
  apply (retryLoop_preserves statements); reflexivity.
Qed.

Lemma createMessageRecord_grows (message : Message.t) (w : World) :
  let created := createMessageRecord World rt svc ctx message w in
  quiet w (snd created)
  /\ grownByAtMostOne (conversations w) (conversations (snd created))
  /\ (messages (snd created) = messages w
      \/ exists row, messages (snd created) = messages w ++ [row]
                     /\ insertedAs message row).
Proof.
  cbv zeta.
  destruct (createMessageRecord_frame env cfg ctx message w) as (Hq & Hc & Hm & _).
  split; [exact Hq|]. split; [exact Hc|].
  destruct Hm as [[_ Hm] | [_ (cid & t1 & t2 & id & Hm)]]; [left; exact Hm|].
  right. eexists. split; [exact Hm | repeat split].
Qed.

(** The rows after a send: those before, and the request as one more
    message when the record was created. *)
Lemma SendSMS_rows (req : option SendSMSRequest.t) (w : World) :
  let w' := snd (SendSMS World rt svc ctx req w) in
  grownByAtMostOne (conversations w) (conversations w')
  /\ (messages w' = messages w
      \/ exists r row, req = Some r /\ messages w' = messages w ++ [row]
                       /\ insertedAs (smsOutbound r) row).
Proof.
  cbv zeta. pose proof (SendSMS_cases World rt svc ctx req w) as H. cbv zeta in H.
  destruct (validateSMSRequest_frame env req w) as ([Hvc Hvm] & _).
  destruct (fst (validateSMSRequest World rt req w)).
  - rewrite H. cbn [snd]. rewrite Hvc, Hvm. split; [left|left]; reflexivity.
  - destruct req as [r|]; [|contradiction].
    destruct (sendSMSMessageWithRetry_sameRows env cfg ctx r
                (snd (validateSMSRequest World rt (Some r) w))) as [Hsc Hsm].
    destruct (fst (sendSMSMessageWithRetry World rt svc ctx r _)).
    + rewrite H. cbn [snd]. rewrite Hsc, Hsm, Hvc, Hvm. split; [left|left]; reflexivity.
    + rewrite H. cbn [snd].
      destruct (createMessageRecord_grows (smsOutbound r)
                  (snd (sendSMSMessageWithRetry World rt svc ctx r
                          (snd (validateSMSRequest World rt (Some r) w)))))
        as (_ & Hc & Hm).
      rewrite Hsc, Hvc in Hc. rewrite Hsm, Hvm in Hm. split; [exact Hc|].
      destruct Hm as [Hm | (row & Hm & Hs)]; [left; exact Hm | right; eauto].
Qed.

Lemma SendEmail_rows (req : option SendEmailRequest.t) (w : World) :
  let w' := snd (SendEmail World rt svc ctx req w) in
  grownByAtMostOne (conversations w) (conversations w')
  /\ (messages w' = messages w
      \/ exists r row, req = Some r /\ messages w' = messages w ++ [row]
                       /\ insertedAs (emailOutbound r) row).
Proof.
  cbv zeta. pose proof (SendEmail_cases World rt svc ctx req w) as H. cbv zeta in H.
  destruct (validateEmailRequest_frame env req w) as ([Hvc Hvm] & _).
  destruct (fst (validateEmailRequest World rt req w)).
  - rewrite H. cbn [snd]. rewrite Hvc, Hvm. split; [left|left]; reflexivity.
  - destruct req as [r|]; [|contradiction].
    destruct (sendEmailMessageWithRetry_sameRows env cfg ctx r
                (snd (validateEmailRequest World rt (Some r) w))) as [Hsc Hsm].
    destruct (fst (sendEmailMessageWithRetry World rt svc ctx r _)).
    + rewrite H. cbn [snd]. rewrite Hsc, Hsm, Hvc, Hvm. split; [left|left]; reflexivity.
    + rewrite H. cbn [snd].
      destruct (createMessageRecord_grows (emailOutbound r)
                  (snd (sendEmailMessageWithRetry World rt svc ctx r
                          (snd (validateEmailRequest World rt (Some r) w)))))
        as (_ & Hc & Hm).
      rewrite Hsc, Hvc in Hc. rewrite Hsm, Hvm in Hm. split; [exact Hc|].
      destruct Hm as [Hm | (row & Hm & Hs)]; [left; exact Hm | right; eauto].
Qed.

(** The rows after an inbound webhook, for a handler that validates, looks
    the provider id up and creates the record. *)
Lemma inbound_rows {A : Type} (handle validate : option A -> M World (option error))
      (idOf : A -> string) (record : A -> Message.t) :
  (forall webhook w,
      sameRows w (snd (validate webhook w)) /\ quiet w (snd (validate webhook w))
      /\ statements (snd (validate webhook w)) = statements w) ->
  (forall webhook w,
      fst (validate webhook w) <> None ->
      snd (handle webhook w) = snd (validate webhook w)) ->
  (forall a w,
      fst (validate (Some a) w) = None ->
      handle (Some a) w
      = afterLookup rt svc ctx (record a)
          (fst (GetByProviderMessageID env ctx (idOf a) (snd (validate (Some a) w))))
          (snd (GetByProviderMessageID env ctx (idOf a) (snd (validate (Some a) w))))) ->
  (forall w, fst (validate None w) <> None) ->
  forall webhook w,
    let w' := snd (handle webhook w) in
    quiet w w'
    /\ grownByAtMostOne (conversations w) (conversations w')
    /\ grownByAtMostOne (messages w) (messages w').
Proof.
  intros Hframe Hinvalid Hvalid Hnil webhook w. cbv zeta.
  destruct (Hframe webhook w) as ([Hvc Hvm] & Hvq & _).
  destruct (fst (validate webhook w)) as [err|] eqn:Ev.
  - rewrite Hinvalid by congruence. rewrite Hvc, Hvm.
    split; [exact Hvq|]. split; left; reflexivity.
  - destruct webhook as [a|]; [|destruct (Hnil w Ev)].
    rewrite (Hvalid a w Ev).
    destruct (GetByProviderMessageID_frame env ctx (idOf a) (snd (validate (Some a) w)))
      as ([Hlc Hlm] & Hlq & _).
    set (lookup := GetByProviderMessageID env ctx (idOf a) (snd (validate (Some a) w))) in *.
    assert (Hstop : quiet w (snd lookup)
                    /\ grownByAtMostOne (conversations w) (conversations (snd lookup))
                    /\ grownByAtMostOne (messages w) (messages (snd lookup))).
    { rewrite Hlc, Hlm, Hvc, Hvm. split; [eauto using quiet_trans|].
      split; left; reflexivity. }
    assert (Hgo : let created := createMessageRecord World rt svc ctx (record a) (snd lookup) in
                  quiet w (snd (wrapCreateError (fst created), snd created))
                  /\ grownByAtMostOne (conversations w)
                       (conversations (snd (wrapCreateError (fst created), snd created)))
                  /\ grownByAtMostOne (messages w)
                       (messages (snd (wrapCreateError (fst created), snd created)))).
    { cbv zeta. cbn [snd].
      destruct (createMessageRecord_grows (record a) (snd lookup)) as (Hq & Hc & Hm).
      rewrite Hlc, Hvc in Hc. rewrite Hlm, Hvm in Hm.
      split; [eauto using quiet_trans|]. split; [exact Hc|].
      destruct Hm as [Hm | (row & Hm & _)]; [left; exact Hm | right; eauto]. }
    unfold afterLookup.
    destruct (fst lookup) as [[m|] [e|]]; try exact Hgo. exact Hstop.
Qed.

(** X12.  The store only grows: whatever the request, the answers of the
    providers and the failures of the database, each of [SendSMS],
    [SendEmail], [HandleInboundSMS] and [HandleInboundEmail] leaves every
    row of the two tables as it was and adds at most one message and at most
    one conversation; the two inbound handlers call no provider and wait for
    nothing. *)
Theorem store_only_grows (w : World) :
  (forall req,
      let w' := snd (SendSMS World rt svc ctx req w) in
      grownByAtMostOne (conversations w) (conversations w')
      /\ grownByAtMostOne (messages w) (messages w'))
  /\ (forall req,
         let w' := snd (SendEmail World rt svc ctx req w) in
         grownByAtMostOne (conversations w) (conversations w')
         /\ grownByAtMostOne (messages w) (messages w'))
  /\ (forall webhook,
         let w' := snd (HandleInboundSMS World rt svc ctx webhook w) in
         quiet w w'
         /\ grownByAtMostOne (conversations w) (conversations w')
         /\ grownByAtMostOne (messages w) (messages w'))
  /\ (forall webhook,
         let w' := snd (HandleInboundEmail World rt svc ctx webhook w) in
         quiet w w'
         /\ grownByAtMostOne (conversations w) (conversations w')
         /\ grownByAtMostOne (messages w) (messages w')).
Proof.
  split; [|split; [|split]].
  - intros req. destruct (SendSMS_rows req w) as [Hc Hm]. split; [exact Hc|].
    destruct Hm as [Hm | (r & row & _ & Hm & _)]; [left; exact Hm | right; eauto].
  - intros req. destruct (SendEmail_rows req w) as [Hc Hm]. split; [exact Hc|].
    destruct Hm as [Hm | (r & row & _ & Hm & _)]; [left; exact Hm | right; eauto].
  - intros webhook.
    apply (inbound_rows _ (validateInboundSMSWebhook World rt)
             InboundSMSWebhook.MessagingProviderID smsRecord).
    + apply validateInboundSMSWebhook_frame.
    + intros wh w0 H. apply (HandleInboundSMS_invalid World rt svc ctx wh w0 H).
    + intros a w0 H. apply (HandleInboundSMS_valid World rt svc ctx a w0 H).
    + intros w0. cbn. discriminate.
  - intros webhook.
    apply (inbound_rows _ (validateInboundEmailWebhook World rt)
             InboundEmailWebhook.XillioID emailRecord).
    + apply validateInboundEmailWebhook_frame.
    + intros wh w0 H. unfold HandleInboundEmail, bind, ret.
      destruct (validateInboundEmailWebhook World rt wh w0) as [[err|] wv];
        cbn [fst snd] in *; [reflexivity | congruence].
    + intros a w0 H. apply (HandleInboundEmail_valid World rt svc ctx a w0 H).
    + intros w0. cbn. discriminate.
Qed.

(** X9.  Outbound messages are invisible to the duplicate check: a message
    stored by [SendSMS] or [SendEmail] carries no provider id, so the lookup
    by provider id finds after a send exactly what it found before, for every
    id. *)
Theorem sends_leave_provider_ids (providerMessageID : string) (w : World) :
  (forall req,
      find (hasProviderID providerMessageID)
           (messages (snd (SendSMS World rt svc ctx req w)))
      = find (hasProviderID providerMessageID) (messages w))
  /\ (forall req,
         find (hasProviderID providerMessageID)
              (messages (snd (SendEmail World rt svc ctx req w)))
         = find (hasProviderID providerMessageID) (messages w)).
Proof.
  assert (Hrow : forall record row,
             Message.MessagingProviderID record = None -> insertedAs record row ->
             find (hasProviderID providerMessageID) (messages w ++ [row])
             = find (hasProviderID providerMessageID) (messages w)).
  { intros record row Hnone Hs. rewrite find_snoc.
    destruct (find _ (messages w)); [reflexivity|].
    unfold hasProviderID.
    replace (Message.MessagingProviderID row) with (@None string); [reflexivity|].
    destruct Hs as (_ & _ & _ & _ & _ & _ & _ & -> & _). now rewrite Hnone. }
  split; intros req.
  - destruct (SendSMS_rows req w) as [_ [-> | (r & row & _ & -> & Hs)]];
      [reflexivity | exact (Hrow _ _ (eq_refl : Message.MessagingProviderID (smsOutbound r) = None) Hs)].
  - destruct (SendEmail_rows req w) as [_ [-> | (r & row & _ & -> & Hs)]];
      [reflexivity | exact (Hrow _ _ (eq_refl : Message.MessagingProviderID (emailOutbound r) = None) Hs)].
Qed.

(** *** Round trips and failures *)







(** X10.  Errors come before the database: a send whose request fails
    validation runs no SQL statement, calls no provider and waits for
    nothing; a send whose provider call (with its retries) ends in an error
    runs no SQL statement; an inbound webhook that fails validation runs no
    SQL statement either. *)
Theorem errors_come_before_the_database (w : World) :
  (forall req,
      let w' := snd (SendSMS World rt svc ctx req w) in
      (fst (validateSMSRequest World rt req w) <> None ->
       statements w' = statements w /\ quiet w w')
      /\ (forall r, req = Some r ->
                    fst (validateSMSRequest World rt req w) = None ->
                    fst (sendSMSMessageWithRetry World rt svc ctx r
                           (snd (validateSMSRequest World rt req w))) <> None ->
                    statements w' = statements w))
  /\ (forall req,
         let w' := snd (SendEmail World rt svc ctx req w) in
         (fst (validateEmailRequest World rt req w) <> None ->
          statements w' = statements w /\ quiet w w')
         /\ (forall r, req = Some r ->
                       fst (validateEmailRequest World rt req w) = None ->
                       fst (sendEmailMessageWithRetry World rt svc ctx r
                              (snd (validateEmailRequest World rt req w))) <> None ->
                       statements w' = statements w))
  /\ (forall webhook,
         fst (validateInboundSMSWebhook World rt webhook w) <> None ->
         statements (snd (HandleInboundSMS World rt svc ctx webhook w)) = statements w)
  /\ (forall webhook,
         fst (validateInboundEmailWebhook World rt webhook w) <> None ->
         statements (snd (HandleInboundEmail World rt svc ctx webhook w)) = statements w).
Proof.
  split; [|split; [|split]].
  - intros req w'. subst w'.
    pose proof (SendSMS_cases World rt svc ctx req w) as H. cbv zeta in H.
    destruct (validateSMSRequest_frame env req w) as (_ & Hq & Hs).
    destruct (fst (validateSMSRequest World rt req w)) as [err|].
    + rewrite H. cbn [snd]. split; [auto | congruence].
    + split; [congruence|]. intros r -> _ Hfail.
      pose proof (sendSMSMessageWithRetry_statements r
                    (snd (validateSMSRequest World rt (Some r) w))) as Hst.
      destruct (fst (sendSMSMessageWithRetry World rt svc ctx r _)); [|congruence].
      rewrite H. cbn [snd]. congruence.
  - intros req w'. subst w'.
    pose proof (SendEmail_cases World rt svc ctx req w) as H. cbv zeta in H.
    destruct (validateEmailRequest_frame env req w) as (_ & Hq & Hs).
    destruct (fst (validateEmailRequest World rt req w)) as [err|].
    + rewrite H. cbn [snd]. split; [auto | congruence].
    + split; [congruence|]. intros r -> _ Hfail.
      pose proof (sendEmailMessageWithRetry_statements r
                    (snd (validateEmailRequest World rt (Some r) w))) as Hst.
      destruct (fst (sendEmailMessageWithRetry World rt svc ctx r _)); [|congruence].
      rewrite H. cbn [snd]. congruence.
  - intros webhook Hv.
    destruct (HandleInboundSMS_invalid World rt svc ctx webhook w Hv) as [_ ->].
    apply validateInboundSMSWebhook_frame.
  - intros webhook Hv.
    destruct (validateInboundEmailWebhook_frame env webhook w) as (_ & _ & Hs).
    unfold HandleInboundEmail, bind, ret.
    destruct (validateInboundEmailWebhook World rt webhook w) as [[err|] wv];
      cbn [fst snd] in *; [exact Hs | congruence].
Qed.

(** A request that passes validation is of type [sms] or [mms]. *)
Lemma validateSMSRequest_type (r : SendSMSRequest.t) (w : World) :
  fst (validateSMSRequest World rt (Some r) w) = None ->
  SendSMSRequest.Type_ r = MessageTypeSMS \/ SendSMSRequest.Type_ r = MessageTypeMMS.
Proof.
  unfold validateSMSRequest, bind, ret.
  do 3 (match goal with
        | |- context [if ?c then _ else _] => destruct c; [discriminate|]
        end).
  destruct (String.eqb_spec (SendSMSRequest.Type_ r) MessageTypeSMS); [auto|].
  destruct (String.eqb_spec (SendSMSRequest.Type_ r) MessageTypeMMS); [auto|].
  cbn. discriminate.
Qed.

(** The creation of a record whose first statement fails. *)
Lemma createMessageRecord_lookup_fails (message : Message.t) (w : World) :
  dbFails env (statements w) = true ->
  let created := createMessageRecord World rt svc ctx message w in
  fst created <> None /\ sameRows w (snd created) /\ quiet w (snd created).
Proof.
  intros Hfail. cbv zeta.
  pose proof (createMessageRecord_run message w) as Hrun. cbv zeta in Hrun.
  set (pair := normalizeContacts (Message.From message) (Message.To message)) in *.
  pose proof (GetOrCreate_run (fst pair) (snd pair) w) as Hgot. cbv zeta in Hgot.
  destruct (GetOrCreate_frame env ctx (fst pair) (snd pair) w) as (_ & Hq & _).
  destruct (fst (GetOrCreate env ctx (fst pair) (snd pair) w)) as [conv|err].
  - destruct Hgot as (_ & _ & _ & _ & Hok & _). congruence.
  - rewrite Hrun. cbn [fst snd]. destruct Hgot as (Hm & _ & Hc).
    split; [discriminate|]. split; [split; assumption | exact Hq].
Qed.

(** X11.  A send is not atomic: when the provider has accepted the message
    and the first SQL statement of the record then fails, [SendSMS] (and
    [SendEmail]) returns an error and stores nothing, although the last call
    to the provider was answered with success. *)
Theorem sent_but_not_stored (w : World) :
  dbFails env (statements w) = true ->
  (forall r,
      fst (validateSMSRequest World rt (Some r) w) = None ->
      fst (sendSMSMessageWithRetry World rt svc ctx r
             (snd (validateSMSRequest World rt (Some r) w))) = None ->
      let result := SendSMS World rt svc ctx (Some r) w in
      fst result <> None /\ sameRows w (snd result)
      /\ (smsCalls w < smsCalls (snd result))%nat
      /\ smsReply env (pred (smsCalls (snd result))) = None)
  /\ (forall r,
         fst (validateEmailRequest World rt (Some r) w) = None ->
         fst (sendEmailMessageWithRetry World rt svc ctx r
                (snd (validateEmailRequest World rt (Some r) w))) = None ->
         let result := SendEmail World rt svc ctx (Some r) w in
         fst result <> None /\ sameRows w (snd result)
         /\ (emailCalls w < emailCalls (snd result))%nat
         /\ emailReply env (pred (emailCalls (snd result))) = None).
Proof.
  intros Hfail. split; intros r Hv Hsent result; subst result.
  - pose proof (SendSMS_cases World rt svc ctx (Some r) w) as H. cbv zeta in H.
    rewrite Hv, Hsent in H. rewrite H. cbn [fst snd].
    destruct (validateSMSRequest_frame env (Some r) w) as (Hvr & (Hvq & _) & Hvs).
    set (wv := snd (validateSMSRequest World rt (Some r) w)) in *.
    pose proof (sendSMSMessageWithRetry_sameRows env cfg ctx r wv) as Hsr.
    pose proof (sendSMSMessageWithRetry_statements r wv) as Hss.
    destruct (RetryFacts.sendSMSMessageWithRetry_reported env cfg ctx r wv
                (validateSMSRequest_type r w Hv)) as (_ & _ & Hrep).
    rewrite Hsent in Hrep. destruct Hrep as [Hlt Hlast].
    set (ws := snd (sendSMSMessageWithRetry World rt svc ctx r wv)) in *.
    destruct (createMessageRecord_lookup_fails (smsOutbound r) ws
                ltac:(rewrite Hss, Hvs; exact Hfail)) as (Hne & Hcr & (Hcq & _)).
    split; [destruct (fst (createMessageRecord World rt svc ctx _ ws));
            [discriminate | congruence]|].
    split; [eauto using sameRows_trans|].
    rewrite Hcq. split; [lia | exact Hlast].
  - pose proof (SendEmail_cases World rt svc ctx (Some r) w) as H. cbv zeta in H.
    rewrite Hv, Hsent in H. rewrite H. cbn [fst snd].
    destruct (validateEmailRequest_frame env (Some r) w) as (Hvr & (_ & Hvq & _) & Hvs).
    set (wv := snd (validateEmailRequest World rt (Some r) w)) in *.
    pose proof (sendEmailMessageWithRetry_sameRows env cfg ctx r wv) as Hsr.
    pose proof (sendEmailMessageWithRetry_statements r wv) as Hss.
    destruct (RetryFacts.sendEmailMessageWithRetry_reported env cfg ctx r wv)
      as (_ & _ & Hrep).
    rewrite Hsent in Hrep. destruct Hrep as [Hlt Hlast].
    set (ws := snd (sendEmailMessageWithRetry World rt svc ctx r wv)) in *.
    destruct (createMessageRecord_lookup_fails (emailOutbound r) ws
                ltac:(rewrite Hss, Hvs; exact Hfail)) as (Hne & Hcr & (_ & Hcq & _)).
    split; [destruct (fst (createMessageRecord World rt svc ctx _ ws));
            [discriminate | congruence]|].
    split; [eauto using sameRows_trans|].
    rewrite Hcq. split; [lia | exact Hlast].
Qed.

(** X13.  The creation of a record is not a transaction: when the pair of
    contacts has no conversation yet, the lookup and the insertion of the
    conversation succeed and the insertion of the message fails, the call
    returns an error and no message is stored, but the new conversation
    stays in the table. *)
Theorem conversation_without_message (message : Message.t) (w : World) :
  find (matchesContacts (Message.From message) (Message.To message)) (conversations w)
  = None ->
  dbFails env (statements w) = false ->
  dbFails env (S (statements w)) = false ->
  dbFails env (S (S (statements w))) = true ->
  let created := createMessageRecord World rt svc ctx message w in
  fst created <> None
  /\ messages (snd created) = messages w
  /\ exists conv,
      conversations (snd created) = conversations w ++ [conv]
      /\ matchesContacts (Message.From message) (Message.To message) conv = true.
Proof.
  intros Hnone H0 H1 H2 created. subst created.
  pose proof (createMessageRecord_run message w) as Hrun. cbv zeta in Hrun.
  set (pair := normalizeContacts (Message.From message) (Message.To message)) in *.
  assert (Hpair : forall c : Conversation.t,
             matchesContacts (fst pair) (snd pair) c
             = matchesContacts (Message.From message) (Message.To message) c).
  { intros c. subst pair.
    destruct (normalizeContacts_originals (Message.From message) (Message.To message))
      as [-> | ->]; cbn [fst snd]; [reflexivity | apply matchesContacts_swap]. }
  assert (Hnone' : find (matchesContacts (fst pair) (snd pair)) (conversations w) = None)
    by (rewrite <- Hnone; apply find_ext, Hpair).
  pose proof (GetOrCreate_run (fst pair) (snd pair) w) as Hgot. cbv zeta in Hgot.
  destruct (GetOrCreate_frame env ctx (fst pair) (snd pair) w) as (_ & _ & _ & _ & Hok).
  destruct (fst (GetOrCreate env ctx (fst pair) (snd pair) w)) as [conv|err] eqn:Eg.
  - destruct Hgot as (Hm & _ & Hmatch & _ & _ & Hgrow). rewrite Hnone' in Hgrow.
    destruct Hgrow as (Hc & _ & _ & _ & Hst).
    destruct Hrun as (t1 & t2 & w3 & Hrun & Hc3 & Hm3 & Hs3 & _). rewrite Hrun.
    unfold MessageRepository_Create, statement, rows, insertMessage, bind, ret. cbn.
    rewrite Hs3, Hst, H2. cbn.
    split; [discriminate|]. split; [congruence|].
    exists conv. split; [congruence | rewrite <- Hpair; exact Hmatch].
  - exfalso.
    revert Eg. unfold GetOrCreate, GetByContacts, ConversationRepository_Create,
      statement, rows, insertConversation, bind, ret. cbn.
    rewrite H0. cbn. rewrite Hnone'. cbn. rewrite H1. cbn. discriminate.
Qed.

End WithEnv.

End StoreFacts.

(** ** Validation *)

Module ValidationFacts.
Import GoStrings GoTime domain ports service Store.
Local Open Scope string_scope.

Lemma spaceLen_asciiSpace (c : ascii) (s : string) :
  asciiSpace c = true -> spaceLen (String c s) = 1%nat.
Proof.
  unfold asciiSpace, spaceLen, byte. cbn [String.get]. intros H.
  cbv zeta in *. now rewrite H.
Qed.

Lemma trimLeft_blank (s : string) (fuel : nat) :
  blank s = true -> (String.length s <= fuel)%nat -> trimLeft fuel s = "".
Proof.
  revert fuel. induction s as [|c s IH]; intros fuel Hb Hfuel.
  - now destruct fuel.
  - cbn in Hb. apply andb_true_iff in Hb as [Hc Hs].
    destruct fuel as [|fuel]; [cbn in Hfuel; lia|].
    cbn [trimLeft]. rewrite (spaceLen_asciiSpace c s Hc). cbn [drop].
    apply IH; [exact Hs | cbn in Hfuel; lia].
Qed.

(** [strings.TrimSpace] leaves nothing of a string of ASCII white space. *)
Lemma TrimSpace_blank (s : string) : blank s = true -> TrimSpace s = "".
Proof.
  intros H. unfold TrimSpace. rewrite (trimLeft_blank s _ H (Nat.le_refl _)).
  reflexivity.
Qed.

Section Blank.
Variable W : Type.
Variable rt : Runtime W.
Variable s : messagingService W.
Variable ctx : Context.

Ltac blank_field H :=
  unfold bind, ret;
  repeat match goal with
         | |- context [if String.eqb (TrimSpace ?x) "" then _ else _] =>
             destruct (String.eqb_spec (TrimSpace x) "");
             [eexists; reflexivity|]
         end;
  repeat match goal with
         | E : blank ?x = true, N : TrimSpace ?x <> "" |- _ =>
             destruct (N (TrimSpace_blank x E))
         end.

(** X14.  A request or webhook whose sender, recipient or body is empty or
    made of white space only (spaces, tabs, line breaks) is rejected by
    each of the four operations with an "invalid ..." error, before the
    clock is read and before any provider or repository is called: the world
    is left exactly as it was. *)
Theorem blank_fields_are_rejected (w : W) :
  (forall req,
      blank (SendSMSRequest.From req) = true \/ blank (SendSMSRequest.To req) = true
      \/ blank (SendSMSRequest.Body req) = true ->
      exists e, SendSMS W rt s ctx (Some req) w
                = (Some (Wrapf "invalid SMS request: %w" e), w))
  /\ (forall req,
         blank (SendEmailRequest.From req) = true
         \/ blank (SendEmailRequest.To req) = true
         \/ blank (SendEmailRequest.Body req) = true ->
         exists e, SendEmail W rt s ctx (Some req) w
                   = (Some (Wrapf "invalid email request: %w" e), w))
  /\ (forall webhook,
         blank (InboundSMSWebhook.From webhook) = true
         \/ blank (InboundSMSWebhook.To webhook) = true
         \/ blank (InboundSMSWebhook.Body webhook) = true ->
         exists e, HandleInboundSMS W rt s ctx (Some webhook) w
                   = (Some (Wrapf "invalid inbound SMS webhook: %w" e), w))
  /\ (forall webhook,
         blank (InboundEmailWebhook.From webhook) = true
         \/ blank (InboundEmailWebhook.To webhook) = true
         \/ blank (InboundEmailWebhook.Body webhook) = true ->
         exists e, HandleInboundEmail W rt s ctx (Some webhook) w
                   = (Some (Wrapf "invalid inbound email webhook: %w" e), w)).
Proof.
  split; [|split; [|split]].
  - intros req H.
    assert (Hv : exists e, validateSMSRequest W rt (Some req) w = (Some e, w)).
    { unfold validateSMSRequest. destruct H as [H | [H | H]]; blank_field H. }
    destruct Hv as [e Hv]. exists e. unfold SendSMS, bind. now rewrite Hv.
  - intros req H.
    assert (Hv : exists e, validateEmailRequest W rt (Some req) w = (Some e, w)).
    { unfold validateEmailRequest. destruct H as [H | [H | H]]; blank_field H. }
    destruct Hv as [e Hv]. exists e. unfold SendEmail, bind. now rewrite Hv.
  - intros webhook H.
    assert (Hv : exists e, validateInboundSMSWebhook W rt (Some webhook) w = (Some e, w)).
    { unfold validateInboundSMSWebhook. destruct H as [H | [H | H]]; blank_field H. }
    destruct Hv as [e Hv]. exists e. unfold HandleInboundSMS, bind. now rewrite Hv.
  - intros webhook H.
    assert (Hv : exists e, validateInboundEmailWebhook W rt (Some webhook) w = (Some e, w)).
    { unfold validateInboundEmailWebhook. destruct H as [H | [H | H]]; blank_field H. }
    destruct Hv as [e Hv]. exists e. unfold HandleInboundEmail, bind. now rewrite Hv.
Qed.

End Blank.

End ValidationFacts.

(** ** The statements [List] builds *)

Module ListQueryFacts.
Import GoTime strconv ListQuery.
Local Open Scope list_scope.
Local Open Scope Z_scope.
Local Open Scope string_scope.

(** The sort column is one of the five columns of the table. *)
Lemma sortBy_cases (query : ConversationQuery.t) :
  In (sortBy query)
     ["id"; "created_at"; "updated_at"; "customer_contact"; "business_contact"].
Proof.
  unfold sortBy, validSortFields.
  destruct (String.eqb (ConversationQuery.SortBy query) ""); cbn [negb];
    [cbn; auto|].
  destruct (String.eqb_spec (ConversationQuery.SortBy query) "id") as [->|];
    [cbn; auto|].
  destruct (String.eqb_spec (ConversationQuery.SortBy query) "created_at") as [->|];
    [cbn; auto|].
  destruct (String.eqb_spec (ConversationQuery.SortBy query) "updated_at") as [->|];
    [cbn; auto|].
  destruct (String.eqb_spec (ConversationQuery.SortBy query) "customer_contact") as [->|];
    [cbn; auto|].
  destruct (String.eqb_spec (ConversationQuery.SortBy query) "business_contact") as [->|];
    cbn; auto 6.
Qed.

(** X20.  No text of the caller reaches the SQL: the texts of the two
    statements that [List] runs are the same for two queries that set the
    same filters, sort by the same allowed column and agree on whether the
    order is ["asc"].  The search string, the business email and the business
    phone only travel as arguments; a sort column outside the five allowed
    ones is replaced by [updated_at], and any order other than ["asc"] is
    [DESC]. *)
Theorem list_statements_depend_on_shape (query query' : ConversationQuery.t) :
  shape query = shape query' ->
  fst (countQuery query) = fst (countQuery query')
  /\ fst (baseQuery query) = fst (baseQuery query').
Proof.
  unfold shape. intros H. injection H as H1 H2 H3 H4 H5 H6 H7.
  unfold countQuery, baseQuery, filters, sortOrder.
  rewrite H1, H2, H3, H4, H5, H6, H7.
  destruct (IsZero (ConversationQuery.From query')),
    (IsZero (ConversationQuery.To query')),
    (String.eqb (ConversationQuery.Search query') ""),
    (String.eqb (ConversationQuery.BusinessEmail query') ""),
    (String.eqb (ConversationQuery.BusinessPhone query') "");
    split; reflexivity.
Qed.

Ltac sortBy_value query :=
  let H := fresh in
  pose proof (sortBy_cases query) as H; cbn [In] in H;
  repeat (destruct H as [H | H]); [| | | | | contradiction];
  rewrite <- H; clear H.

Ltac numbered :=
  intros p; vm_compute placeholders; cbn [In]; intuition lia.

Ltac split_last_two :=
  match goal with
  | |- ?l = _ =>
      let n := eval vm_compute in (List.length l - 2)%nat in
      rewrite <- (firstn_skipn n l); reflexivity
  end.

Ltac last_two :=
  eexists _, _; cbv zeta; vm_compute placeholders; split; split_last_two.

(** X21.  Every placeholder has its argument: in each of the two statements
    that [List] runs the placeholders are numbered from 1 to the number of
    arguments handed over with the statement, none is missing and none is
    beyond; in the listing statement the last two are those of [LIMIT] and
    [OFFSET], and the last two arguments are the limit and the offset of the
    query. *)
Theorem placeholders_match_arguments (query : ConversationQuery.t) :
  (forall p, In p (placeholders (fst (countQuery query)))
             <-> 1 <= p <= Z.of_nat (List.length (snd (countQuery query))))
  /\ (forall p, In p (placeholders (fst (baseQuery query)))
                <-> 1 <= p <= Z.of_nat (List.length (snd (baseQuery query))))
  /\ (exists before args,
         let n := Z.of_nat (List.length (snd (baseQuery query))) in
         placeholders (fst (baseQuery query)) = (before ++ [n - 1; n])%list
         /\ snd (baseQuery query)
            = (args ++ [IntArg (ConversationQuery.Limit query);
                        IntArg (ConversationQuery.Offset query)])%list).
Proof.
  unfold countQuery, baseQuery, filters, sortOrder.
  sortBy_value query;
    destruct (IsZero (ConversationQuery.From query)),
      (IsZero (ConversationQuery.To query)),
      (String.eqb (ConversationQuery.Search query) ""),
      (String.eqb (ConversationQuery.BusinessEmail query) ""),
      (String.eqb (ConversationQuery.BusinessPhone query) ""),
      (String.eqb (ConversationQuery.SortOrder query) "asc");
    cbn [negb fst snd append List.length app];
    (split; [numbered | split; [numbered | last_two]]).
Qed.

End ListQueryFacts.

(** ** Lookups by id, updates and the query service over postgres *)

Module RepositoryFacts.
Import GoTime domain ports service Orchestration postgres Store repository conversations.
Import PostgresFacts.
Local Open Scope string_scope.
Local Open Scope list_scope.
Local Open Scope Z_scope.

Lemma find_map_byID (f : Message.t -> Message.t) (id : Z) (l : list Message.t) :
  (forall m, Message.ID (f m) = Message.ID m) ->
  find (fun m => Message.ID m =? id) (map f l)
  = option_map f (find (fun m => Message.ID m =? id) l).
Proof.
  intros Hid. induction l as [|m l IH]; cbn; [reflexivity|].
  rewrite Hid. destruct (Message.ID m =? id); [reflexivity | exact IH].
Qed.

Lemma updated_ID (message : Message.t) (now : Time) (row : Message.t) :
  Message.ID (updated message now row) = Message.ID row.
Proof. unfold updated. now destruct (_ =? _). Qed.

Lemma Before_asym (t u : Time) : Before t u = true -> Before u t = false.
Proof.
  unfold Before. rewrite orb_true_iff, orb_false_iff, !andb_true_iff, !andb_false_iff.
  rewrite !Z.ltb_lt, !Z.ltb_ge, !Z.eqb_eq, Z.eqb_neq. lia.
Qed.

Lemma insertByCreatedAt_perm (m : Message.t) (l : list Message.t) :
  Permutation.Permutation (insertByCreatedAt m l) (m :: l).
Proof.
  induction l as [|x l IH]; cbn; [apply Permutation.Permutation_refl|].
  destruct (Before _ _); [apply Permutation.Permutation_refl|].
  apply Permutation.perm_trans with (x :: m :: l);
    [apply Permutation.perm_skip, IH | apply Permutation.perm_swap].
Qed.

Lemma insertByCreatedAt_sorted (m : Message.t) (l : list Message.t) :
  oldestFirst l -> oldestFirst (insertByCreatedAt m l).
Proof.
  unfold oldestFirst. induction l as [|x l IH]; intros Hs; cbn.
  - repeat constructor.
  - destruct (Before (Message.CreatedAt m) (Message.CreatedAt x)) eqn:E.
    + constructor; [exact Hs|]. constructor. unfold notAfter.
      apply Before_asym, E.
    + apply Sorted.Sorted_inv in Hs as [Hs Hhd].
      constructor; [apply IH, Hs|].
      destruct l as [|y l]; cbn.
      * constructor. exact E.
      * destruct (Before (Message.CreatedAt m) (Message.CreatedAt y));
          constructor; [exact E|].
        now apply Sorted.HdRel_inv in Hhd.
Qed.

Lemma sortByCreatedAt (l acc : list Message.t) :
  oldestFirst acc ->
  let sorted := fold_left (fun acc m => insertByCreatedAt m acc) l acc in
  oldestFirst sorted /\ Permutation.Permutation sorted (l ++ acc).
Proof.
  revert acc. induction l as [|m l IH]; intros acc Hacc; cbn.
  - split; [exact Hacc | apply Permutation.Permutation_refl].
  - destruct (IH (insertByCreatedAt m acc) (insertByCreatedAt_sorted m acc Hacc))
      as [Hs Hp].
    split; [exact Hs|].
    apply Permutation.perm_trans with (l ++ insertByCreatedAt m acc); [exact Hp|].
    apply Permutation.perm_trans with (l ++ m :: acc);
      [apply Permutation.Permutation_app_head, insertByCreatedAt_perm|].
    apply Permutation.Permutation_sym, Permutation.Permutation_middle.
Qed.

Section WithEnv.
Variable env : Env.
Variable ctx : Context.

#[local] Abbreviation getMessages :=
  (GetConversationMessages World (ConversationRepository_GetByID env)
     (NewConversationService env)).

(** *** Updating a message *)

(** X22.  [Update] changes the status of a message and nothing else, and
    does not tell a message that is not there.  When its statement succeeds
    it returns [nil], changes no conversation and neither adds nor removes a
    message.  If no row has the id of the message both tables are as before,
    and the caller is told nothing.  If a row has it, a lookup by id then
    answers that row with the status, the error code and the error message
    of the update and the database's time as the date of its last change;
    everything else in it (sender, recipient, type, body, attachments,
    timestamp, provider id, conversation and creation date) is as before. *)
Theorem Update_changes_the_status_only (message : Message.t) (w : World) :
  dbFails env (statements w) = false ->
  let w1 := snd (MessageRepository_Update env ctx message w) in
  fst (MessageRepository_Update env ctx message w) = None
  /\ conversations w1 = conversations w
  /\ List.length (messages w1) = List.length (messages w)
  /\ (find (fun m => Message.ID m =? Message.ID message) (messages w) = None ->
      messages w1 = messages w)
  /\ (forall old,
         find (fun m => Message.ID m =? Message.ID message) (messages w) = Some old ->
         dbFails env (S (statements w)) = false ->
         exists row,
           fst (MessageRepository_GetByID env ctx (Message.ID message) w1)
           = (Some row, None)
           /\ Message.Status row = Message.Status message
           /\ Message.ErrorCode row = Message.ErrorCode message
           /\ Message.ErrorMessage row = Message.ErrorMessage message
           /\ Message.UpdatedAt row = dbClock env (statements w)
           /\ sameContent old row).
Proof.
  intros H0 w1. subst w1.
  unfold MessageRepository_Update, MessageRepository_GetByID, updateMessages,
    statement, rows, bind, ret. cbn.
  rewrite H0. cbn.
  split; [reflexivity|]. split; [reflexivity|]. split; [apply length_map|]. split.
  - intros Hnone. rewrite <- (map_id (messages w)) at 2. apply map_ext_in.
    intros m Hm. unfold updated. now rewrite (find_none _ _ Hnone m Hm).
  - intros old Hfind H1. rewrite H1. cbn.
    rewrite (find_map_byID _ _ _ (updated_ID message _)), Hfind. cbn.
    eexists. split; [reflexivity|].
    destruct (find_some _ _ Hfind) as [_ Hid]. unfold updated. rewrite Hid. cbn.
    repeat split.
Qed.

(** *** The messages of a conversation *)

(** The messages of a conversation that does not exist. *)
Lemma GetConversationMessages_unknown (conversationID : Z) (w : World) :
  find (fun c => Conversation.ID c =? conversationID) (conversations w) = None ->
  dbFails env (statements w) = false ->
  getMessages ctx conversationID w
  = (inr (Errorf "conversation not found: %d"),
     mkWorld (conversations w) (messages w) (S (statements w)) (smsCalls w)
             (emailCalls w) (sleeps w) (ticks w)).
Proof.
  intros Hnone Hok.
  unfold GetConversationMessages, ConversationRepository_GetByID, statement, rows,
    bind, ret. cbn.
  rewrite Hok. cbn. rewrite Hnone. reflexivity.
Qed.

(** X16.  The messages of a conversation: when a conversation has the id
    and the two statements succeed, [GetConversationMessages] answers the
    messages stored under that conversation, all of them and no other, the
    oldest first. *)
Theorem GetConversationMessages_answers (conversationID : Z)
        (conversation : Conversation.t) (w : World) :
  find (fun c => Conversation.ID c =? conversationID) (conversations w)
  = Some conversation ->
  dbFails env (statements w) = false ->
  dbFails env (S (statements w)) = false ->
  exists answered,
    fst (getMessages ctx conversationID w) = inl answered
    /\ Permutation.Permutation answered (ofConversation conversationID w)
    /\ oldestFirst answered
    /\ Forall (fun m => Message.ConversationID m = conversationID) answered.
Proof.
  intros Hfind H0 H1.
  unfold GetConversationMessages, ConversationRepository_GetByID, statement, rows,
    bind, ret. cbn.
  rewrite H0. cbn. rewrite Hfind. cbn.
  unfold postgres.GetByConversationID, statement, rows, bind, ret. cbn.
  rewrite H1. cbn.
  eexists. split; [reflexivity|].
  destruct (sortByCreatedAt
              (filter (fun m => Message.ConversationID m =? conversationID) (messages w))
              []) as [Hs Hp]; [constructor|].
  rewrite app_nil_r in Hp.
  split; [exact Hp|]. split; [exact Hs|].
  apply Forall_forall. intros m Hm.
  apply (Permutation.Permutation_in _ Hp) in Hm.
  apply filter_In in Hm as [_ Hm]. now apply Z.eqb_eq.
Qed.

(** *** The two queries *)

Lemma statement_frame (w : World) :
  sameRows w (snd (statement env w)) /\ quiet w (snd (statement env w)).
Proof. repeat split. Qed.

Lemma List_frame (query : ConversationQuery.t) (w : World) :
  sameRows w (snd (postgres.List env ctx query w))
  /\ quiet w (snd (postgres.List env ctx query w)).
Proof.
  unfold postgres.List, statement, rows, bind, ret. cbn.
  destruct (dbFails env (statements w)); cbn; [repeat split|].
  destruct (dbFails env (S (statements w))); cbn; repeat split.
Qed.

Lemma GetByConversationID_frame (conversationID : Z) (w : World) :
  sameRows w (snd (postgres.GetByConversationID env ctx conversationID w))
  /\ quiet w (snd (postgres.GetByConversationID env ctx conversationID w)).
Proof.
  unfold postgres.GetByConversationID, statement, rows, bind, ret. cbn.
  destruct (dbFails env (statements w)); cbn; repeat split.
Qed.

Lemma loadMessages_frame (listed : list Conversation.t) (w : World) :
  sameRows w (snd (loadMessages World (NewConversationService env) ctx listed w))
  /\ quiet w (snd (loadMessages World (NewConversationService env) ctx listed w)).
Proof.
  revert w. induction listed as [|c rest IH]; intros w; [repeat split|].
  cbn [loadMessages]. unfold bind, ret.
  cbn [cs_messageRepo NewConversationService messageRepository
         ports.GetByConversationID].
  destruct (GetByConversationID_frame (Conversation.ID c) w) as [Hr Hq].
  destruct (postgres.GetByConversationID env ctx (Conversation.ID c) w)
    as [[found | err] w1]; cbn [fst snd] in *; [|split; assumption].
  destruct (IH w1) as [Hr' Hq'].
  destruct (loadMessages World (NewConversationService env) ctx rest w1)
    as [[rest' | err] w2]; cbn [fst snd] in *;
    split; eauto using sameRows_trans, quiet_trans.
Qed.

(** X17.  The two queries only read: whatever fails,
    [GetConversations] and [GetConversationMessages] change no row of the
    two tables, call no provider and wait for nothing. *)
Theorem queries_only_read (w : World) :
  (forall query,
      let w' := snd (GetConversations World (NewConversationService env) ctx query w) in
      sameRows w w' /\ quiet w w')
  /\ (forall conversationID,
         let w' := snd (getMessages ctx conversationID w) in
         sameRows w w' /\ quiet w w').
Proof.
  split.
  - intros query w'. subst w'. unfold GetConversations, bind, ret.
    cbn [cs_conversationRepo NewConversationService conversationRepository ports.List].
    destruct (List_frame (withDefaults query) w) as [Hr Hq].
    destruct (postgres.List env ctx (withDefaults query) w)
      as [[[listed total] | err] w1]; cbn [fst snd] in *; [|split; assumption].
    destruct (ConversationQuery.IncludeMessages (withDefaults query));
      [|split; assumption].
    destruct (loadMessages_frame listed w1) as [Hr' Hq'].
    destruct (loadMessages World (NewConversationService env) ctx listed w1)
      as [[loaded | err] w2]; cbn [fst snd] in *;
      split; eauto using sameRows_trans, quiet_trans.
  - intros conversationID w'. subst w'.
    unfold GetConversationMessages, ConversationRepository_GetByID, statement, rows,
      bind, ret. cbn.
    destruct (dbFails env (statements w)); cbn; [repeat split|].
    destruct (find _ (conversations w)); cbn; [|repeat split].
    unfold postgres.GetByConversationID, statement, rows, bind, ret. cbn.
    destruct (dbFails env (S (statements w))); cbn; repeat split.
Qed.

(** Loading the messages of the listed conversations, when the statements
    succeed: one statement for each. *)
Lemma loadMessages_healthy (listed : list Conversation.t) (w : World) :
  healthyFrom env (statements w) ->
  let run := loadMessages World (NewConversationService env) ctx listed w in
  fst run = inl (map (fun c => setMessages c (messagesOf (Conversation.ID c) w)) listed)
  /\ statements (snd run) = (statements w + List.length listed)%nat
  /\ messages (snd run) = messages w.
Proof.
  revert w. induction listed as [|c rest IH]; intros w Hhealthy; cbv zeta.
  - cbn. repeat split. lia.
  - cbn [loadMessages]. unfold bind, ret.
    cbn [cs_messageRepo NewConversationService messageRepository
           ports.GetByConversationID].
    unfold postgres.GetByConversationID at 1. unfold statement, rows, bind, ret. cbn.
    rewrite (Hhealthy _ (Nat.le_refl _)). cbn.
    set (w1 := mkWorld (conversations w) (messages w) (S (statements w)) (smsCalls w)
                       (emailCalls w) (sleeps w) (ticks w)).
    destruct (IH w1) as (Hres & Hst & Hm).
    { intros k Hk. apply Hhealthy. cbn in Hk. lia. }
    destruct (loadMessages World (NewConversationService env) ctx rest w1)
      as [[rest' | err] w2]; cbn [fst snd] in *; [|discriminate].
    injection Hres as ->. split; [reflexivity|].
    subst w1. cbn in Hst, Hm. split; [lia | exact Hm].
Qed.

(** X18.  One query per conversation: as long as the statements succeed,
    [GetConversations] answers the conversations and the total of the
    listing; with [include_messages] it runs, after the two statements of the
    listing, one more statement for each conversation listed, and each
    conversation comes back with the messages stored under it, the oldest
    first; without it, it runs the two statements only and the conversations
    come back as listed. *)
Theorem GetConversations_loads_messages (query : ConversationQuery.t) (w : World) :
  healthyFrom env (statements w) ->
  let sent := withDefaults query in
  let listed := listReply env sent (conversations w) in
  let run := GetConversations World (NewConversationService env) ctx query w in
  exists response,
    fst run = inl response
    /\ GetConversationsResponse.Total response = snd listed
    /\ GetConversationsResponse.Conversations response
       = (if ConversationQuery.IncludeMessages query
          then map (fun c => setMessages c (messagesOf (Conversation.ID c) w)) (fst listed)
          else fst listed)
    /\ statements (snd run)
       = (statements w + 2
          + if ConversationQuery.IncludeMessages query
            then List.length (fst listed) else 0)%nat.
Proof.
  intros Hhealthy sent listed run. subst run.
  unfold GetConversations, bind, ret.
  cbn [cs_conversationRepo NewConversationService conversationRepository ports.List].
  unfold postgres.List, statement, rows, bind, ret. cbn.
  rewrite (Hhealthy _ (Nat.le_refl _)). cbn.
  rewrite (Hhealthy (S (statements w)) ltac:(lia)). cbn.
  fold sent. fold listed. destruct listed as [found total] eqn:El.
  destruct (ConversationQuery.IncludeMessages query); cbn [fst snd].
  - set (w1 := mkWorld (conversations w) (messages w) (S (S (statements w)))
                       (smsCalls w) (emailCalls w) (sleeps w) (ticks w)).
    destruct (loadMessages_healthy found w1) as (Hres & Hst & _).
    { intros k Hk. apply Hhealthy. cbn in Hk. lia. }
    destruct (loadMessages World (NewConversationService env) ctx found w1)
      as [[loaded | err] w2]; cbn [fst snd] in *; [|discriminate].
    injection Hres as ->. eexists. split; [reflexivity|].
    subst w1. cbn in Hst. cbn. repeat split. lia.
  - eexists. split; [reflexivity|]. cbn. repeat split. lia.
Qed.

End WithEnv.

End RepositoryFacts.

(** ** The providers and the wired application *)

Module ContainerFacts.
Import GoTime domain ports service Orchestration Store provider container.
Local Open Scope string_scope.
Local Open Scope list_scope.
Local Open Scope Z_scope.

Section WithEnv.
Variable env : postgres.Env.
Variable cfg : RetryConfig.
Variable ctx : Context.

#[local] Abbreviation rt := (runtime env).
#[local] Abbreviation svc := (MessagingServiceWithConfig env cfg).
#[local] Abbreviation dbrt := (postgres.runtime env).
#[local] Abbreviation dbsvc := (postgres.NewMessagingServiceWithConfig env cfg).

(** *** What acts on the database part acts there only *)





(** *** The mock providers in failure mode *)

(** The retry loop over an operation that always fails in the same way,
    with a context that is never done. *)
Lemma retryLoop_failing (operation : M World (option error)) (e : error) :
  (forall w, operation w = (Some e, w)) ->
  IsRetryableError e = true ->
  forall n attempt w,
    attempt + Z.of_nat (S n) = MaxRetries cfg + 1 ->
    let run := retryLoop World rt svc Background operation (S n) attempt w in
    fst run = Some e
    /\ postgres.sleeps (DB (snd run))
       = postgres.sleeps (DB w)
         ++ map (fun i => backoffDelay World svc (attempt + Z.of_nat i) e) (seq 0 n)
    /\ SMSProvider (snd run) = SMSProvider w
    /\ EmailProvider (snd run) = EmailProvider w
    /\ sameRows (DB w) (DB (snd run)).
Proof.
  intros Hop Hretry. induction n as [|n IH]; intros attempt w Hturns; cbv zeta;
    rewrite retryLoop_step, Hop; cbn [fst snd]; rewrite Hretry; cbn [negb];
    cbn [retryConfig MessagingServiceWithConfig].
  - replace attempt with (MaxRetries cfg) by lia. rewrite Z.eqb_refl. cbn.
    rewrite app_nil_r. repeat split.
  - destruct (Z.eqb_spec attempt (MaxRetries cfg)); [lia|].
    cbv zeta.
    set (d := backoffDelay World svc attempt e).
    set (w1 := snd (Wait rt Background d w)).
    assert (Hw : fst (Wait rt Background d w) = None) by reflexivity.
    rewrite Hw.
    destruct (IH (attempt + 1) w1 ltac:(lia)) as (H1 & H2 & H3 & H4 & H5).
    split; [exact H1|]. split; [|split; [exact H3 | split; [exact H4 | exact H5]]].
    rewrite H2. subst w1. cbn [Wait runtime onDB postgres.wait fst snd DB postgres.sleeps].
    rewrite <- app_assoc. cbn [app seq map].
    rewrite Z.add_0_r. do 2 f_equal.
    rewrite <- seq_shift, map_map. apply map_ext. intros i. f_equal. lia.
Qed.

(** The delay after a 429 that asks for 30 seconds. *)
Lemma backoffDelay_429 (attempt : Z) (message : string) :
  backoffDelay World svc attempt (ProviderErr (mkProviderError 429 message 30))
  = Z.min (30 * Second) (MaxDelay cfg).
Proof.
  unfold backoffDelay. cbn [GetRetryAfterSeconds Code RetryAfter Z.eqb Pos.eqb Z.ltb
                              Z.compare retryConfig MessagingServiceWithConfig].
  cbv zeta.
  replace (wrap64 (30 * Second)) with (30 * Second) by reflexivity.
  destruct (Z.ltb_spec (30 * Second) (MaxDelay cfg)); lia.
Qed.

(** What the mock in failure mode answers to an SMS or an MMS. *)
Lemma sendSMSMessage_mock_fails (req : SendSMSRequest.t) (w : World) :
  sms_shouldFail (SMSProvider w) = true ->
  SendSMSRequest.Type_ req = MessageTypeSMS
  \/ SendSMSRequest.Type_ req = MessageTypeMMS ->
  exists what,
    sendSMSMessage World svc Background req w
    = (if sms_errorCode (SMSProvider w) =? 500
       then Some (ProviderErr (mkProviderError 500 "Internal server error" 0))
       else if sms_errorCode (SMSProvider w) =? 429
            then Some (ProviderErr (mkProviderError 429 "Too many requests" 30))
            else Some (Errorf what), w).
Proof.
  intros Hfail Htype. unfold sendSMSMessage.
  destruct Htype as [-> | ->];
    cbn [String.eqb Ascii.eqb Bool.eqb MessageTypeSMS MessageTypeMMS];
    cbn [service.smsProvider MessagingServiceWithConfig container.smsProvider
           SMSProvider_SendSMS SMSProvider_SendMMS];
    unfold MockSMSProvider_SendSMS, MockSMSProvider_SendMMS, ret;
    rewrite Hfail;
    [exists "mock SMS provider failure" | exists "mock MMS provider failure"];
    destruct (_ =? 500); [| destruct (_ =? 429) | | destruct (_ =? 429)];
    destruct w as [db [msgs fails code] email out]; reflexivity.
Qed.

(** X23.  The mock SMS provider in failure mode, behind the retry loop
    (the context is never done, [MaxRetries] is not negative, the request is
    an SMS or an MMS).  With error code 500 the send is retried [MaxRetries]
    times and ends with the provider's error 500; with 429 it is retried
    [MaxRetries] times, each time after 30 seconds or [MaxDelay] if that is
    less; with any other code, the retryable 502, 503 and 504 included, the
    mock answers a plain error, so the send is not retried at all and
    nothing is waited for.  In no case does the mock record a message, and
    no row is changed. *)
Theorem mock_failure_modes (req : SendSMSRequest.t) (w : World) :
  sms_shouldFail (SMSProvider w) = true ->
  0 <= MaxRetries cfg ->
  SendSMSRequest.Type_ req = MessageTypeSMS
  \/ SendSMSRequest.Type_ req = MessageTypeMMS ->
  let code := sms_errorCode (SMSProvider w) in
  let run := sendSMSMessageWithRetry World rt svc Background req w in
  SMSProvider (snd run) = SMSProvider w
  /\ sameRows (DB w) (DB (snd run))
  /\ (code = 500 ->
      fst run = Some (ProviderErr (mkProviderError 500 "Internal server error" 0))
      /\ exists delays,
          postgres.sleeps (DB (snd run)) = postgres.sleeps (DB w) ++ delays
          /\ Z.of_nat (List.length delays) = MaxRetries cfg)
  /\ (code = 429 ->
      fst run = Some (ProviderErr (mkProviderError 429 "Too many requests" 30))
      /\ postgres.sleeps (DB (snd run))
         = postgres.sleeps (DB w)
           ++ repeat (Z.min (30 * Second) (MaxDelay cfg)) (Z.to_nat (MaxRetries cfg)))
  /\ (code <> 500 -> code <> 429 ->
      snd run = w
      /\ exists e, fst run = Some e /\ IsRetryableError e = false).
Proof.
  intros Hfail Hmax Htype code run. subst run.
  unfold sendSMSMessageWithRetry, retryWithBackoff.
  cbn [retryConfig MessagingServiceWithConfig].
  replace (Z.to_nat (MaxRetries cfg + 1)) with (S (Z.to_nat (MaxRetries cfg))) by lia.
  (* the mock answers the same in every world the loop goes through *)
  assert (Hsame : forall e,
             sendSMSMessage World svc Background req w = (Some e, w) ->
             IsRetryableError e = true ->
             let run := retryLoop World rt svc Background
                          (sendSMSMessage World svc Background req)
                          (S (Z.to_nat (MaxRetries cfg))) 0 w in
             fst run = Some e
             /\ postgres.sleeps (DB (snd run))
                = postgres.sleeps (DB w)
                  ++ map (fun i => backoffDelay World svc (0 + Z.of_nat i) e)
                       (seq 0 (Z.to_nat (MaxRetries cfg)))
             /\ SMSProvider (snd run) = SMSProvider w
             /\ sameRows (DB w) (DB (snd run))).
  { intros e He Hretry. cbv zeta.
    (* an operation that answers [e] wherever the provider is the same *)
    set (always := fun w0 : World => (Some e, w0)).
    assert (Hloop : forall n attempt w0,
               SMSProvider w0 = SMSProvider w ->
               retryLoop World rt svc Background
                 (sendSMSMessage World svc Background req) n attempt w0
               = retryLoop World rt svc Background always n attempt w0).
    { induction n as [|n IHn]; intros attempt w0 Hp; [reflexivity|].
      rewrite !retryLoop_step.
      assert (Hw0 : sendSMSMessage World svc Background req w0 = (Some e, w0)).
      { destruct (sendSMSMessage_mock_fails req w0 ltac:(now rewrite Hp) Htype)
          as [what Hw0].
        destruct (sendSMSMessage_mock_fails req w Hfail Htype) as [what' Hw].
        rewrite Hw0, Hp. rewrite Hw in He.
        destruct (_ =? 500); [|destruct (_ =? 429)];
          try (injection He as <-; reflexivity).
        injection He as <-. discriminate Hretry. }
      rewrite Hw0. subst always. cbn [fst snd].
      destruct (negb _); [reflexivity|]. destruct (_ =? _); [reflexivity|].
      cbv zeta. destruct (fst (Wait rt Background _ w0)); [reflexivity|].
      apply IHn. exact Hp. }
    rewrite (Hloop _ _ w eq_refl).
    destruct (retryLoop_failing always e (fun _ => eq_refl) Hretry
                (Z.to_nat (MaxRetries cfg)) 0 w ltac:(lia))
      as (H1 & H2 & H3 & _ & H5).
    repeat split; try assumption; apply H5. }
  destruct (sendSMSMessage_mock_fails req w Hfail Htype) as [what Hw].
  fold code in Hw.
  destruct (Z.eqb_spec code 500) as [E500 | N500];
    [|destruct (Z.eqb_spec code 429) as [E429 | N429]].
  - destruct (Hsame _ Hw eq_refl) as (H1 & H2 & H3 & H4).
    split; [exact H3|]. split; [exact H4|].
    split; [|split; intros; congruence].
    intros _. split; [exact H1|]. eexists. split; [exact H2|].
    rewrite length_map, length_seq. lia.
  - destruct (Hsame _ Hw eq_refl) as (H1 & H2 & H3 & H4).
    split; [exact H3|]. split; [exact H4|].
    split; [intros; congruence|]. split; [|intros; congruence].
    intros _. split; [exact H1|]. rewrite H2. f_equal.
    assert (Hall : forall l : list nat,
               map (fun i => backoffDelay World svc (0 + Z.of_nat i)
                               (ProviderErr (mkProviderError 429 "Too many requests" 30))) l
               = repeat (Z.min (30 * Second) (MaxDelay cfg)) (List.length l)).
    { induction l as [|i l IHl]; cbn [map repeat List.length]; [reflexivity|].
      now rewrite backoffDelay_429, IHl. }
    now rewrite Hall, length_seq.
  - rewrite retryLoop_step, Hw. cbn.
    split; [reflexivity|]. split; [split; reflexivity|].
    split; [intros; congruence|]. split; [intros; congruence|].
    intros _ _. split; [reflexivity|]. eexists. split; reflexivity.
Qed.

(** *** The application as [NewContainer] wires it *)



(** X30.  The email provider is chosen by name, and both choices accept
    every email.  The factory makes the SendGrid provider for the type
    [sendgrid] exactly (with the [api_key] of the configuration, empty when
    there is none) and the mock for every other type, unknown names
    included.  With the provider the factory made, sending an email succeeds
    at the first attempt and without a wait.  The SendGrid provider sends
    nothing: it prints one line with the sender and the recipient and
    changes nothing else, the API key is not used.  The mock records the
    message, with its attachments and the time of the clock. *)
Theorem email_provider_is_chosen_by_name
        (providerType : string) (config : list (string * string))
        (req : SendEmailRequest.t) (w : World) :
  EmailProvider w = NewEmailProvider providerType config ->
  0 <= MaxRetries cfg ->
  let run := sendEmailMessageWithRetry World rt svc ctx req w in
  fst run = None
  /\ postgres.sleeps (DB (snd run)) = postgres.sleeps (DB w)
  /\ SMSProvider (snd run) = SMSProvider w
  /\ (providerType = "sendgrid" ->
      EmailProvider (snd run)
      = SendGrid (NewSendGridEmailProvider (lookup config "api_key"))
      /\ DB (snd run) = DB w
      /\ stdout (snd run)
         = (stdout w
            ++ [("SendGrid: Sending email from " ++ SendEmailRequest.From req
                 ++ " to " ++ SendEmailRequest.To req
                 ++ String (ascii_of_nat 10) "")%string])%list)
  /\ (providerType <> "sendgrid" ->
      EmailProvider (snd run)
      = Mock (mkMockEmailProvider
                [mkMockEmailMessage (SendEmailRequest.From req)
                   (SendEmailRequest.To req) (SendEmailRequest.Body req)
                   (SendEmailRequest.Attachments req)
                   (fst (postgres.readClock env (DB w)))]
                false 0)
      /\ DB (snd run) = snd (postgres.readClock env (DB w))
      /\ stdout (snd run) = stdout w).
Proof.
  intros Hprovider Hmax run. subst run.
  unfold sendEmailMessageWithRetry, retryWithBackoff.
  cbn [retryConfig MessagingServiceWithConfig].
  replace (Z.to_nat (MaxRetries cfg + 1)) with (S (Z.to_nat (MaxRetries cfg))) by lia.
  rewrite retryLoop_step.
  cbn [service.emailProvider MessagingServiceWithConfig container.emailProvider
         EmailProvider_SendEmail].
  rewrite Hprovider. unfold NewEmailProvider, EmailProviderSendGrid.
  destruct (String.eqb_spec providerType "sendgrid") as [-> | Hother].
  - unfold SendGridEmailProvider_SendEmail, NewSendGridEmailProvider, Printf, bind, ret.
    cbn [sg_shouldFail fst snd DB SMSProvider EmailProvider stdout].
    split; [reflexivity|]. split; [reflexivity|]. split; [reflexivity|].
    split; [intros _; repeat split | intros H; now contradiction H].
  - unfold MockEmailProvider_SendEmail, NewMockEmailProvider, bind, ret.
    cbn [email_shouldFail email_messages email_errorCode Now runtime].
    unfold onDB. cbn [postgres.readClock fst snd DB SMSProvider EmailProvider stdout
                        postgres.sleeps app].
    split; [reflexivity|]. split; [reflexivity|]. split; [reflexivity|].
    split; [intros H; now contradiction Hother | intros _; repeat split].
Qed.

End WithEnv.

End ContainerFacts.

(** ** The HTTP handlers *)

Module HandlerFacts.
Import GoTime domain ports service conversations handler.
Local Open Scope string_scope.
Local Open Scope list_scope.
Local Open Scope Z_scope.

Section OverTheServices.
Variable W : Type.
Variable rt : Runtime W.
Variable s : service.messagingService W.
Variable getByID : Context -> Z -> M W (option Conversation.t * option error).
Variable c : service.conversationService W.
Variable Parse : string -> string -> Time + error.
Variable Atoi : string -> Z + error.
Variable ctx : Context.

#[local] Abbreviation h := (handlerOf rt s getByID c).

(** A timestamp in a location other than UTC fails the policy at its first
    check, before the clock is read. *)
Lemma validateTimestamp_not_UTC (timestamp : Time) (w : W) :
  loc timestamp <> UTC ->
  validateTimestamp W rt timestamp w
  = (Some (Errorf "timestamp must be in UTC timezone"), w).
Proof.
  intros Hloc. unfold validateTimestamp, Time_Location.
  destruct (Location_eqb (loc timestamp) UTC) eqn:E; [|reflexivity].
  apply GoTimeFacts.Location_eqb_UTC in E. contradiction.
Qed.

(** X26.  An inbound webhook without a timestamp is never accepted.  The
    two webhook handlers fill an empty timestamp with [time.Now()] as it is,
    in the local location, while the service only accepts the location UTC
    (the two send handlers fill in [time.Now().UTC()]).  So, the clock being
    read in a location other than UTC as [time.Now()] does, such a webhook is
    answered 500 with an "invalid inbound ... webhook" error, whatever its
    other fields; apart from the handler's reading of the clock nothing
    happens: no lookup, no row, no provider call. *)
Theorem webhook_without_timestamp_is_rejected :
  (forall w, loc (fst (Now rt w)) <> UTC) ->
  (forall webhook w,
      IsZero (InboundSMSWebhook.Timestamp webhook) = true ->
      exists e,
        HandleInboundSMS W rt h ctx (inl webhook) w
        = (JSON StatusInternalServerError
             (ErrorResponse "Failed to process inbound SMS"
                (Some (Wrapf "invalid inbound SMS webhook: %w" e))),
           snd (Now rt w)))
  /\ (forall webhook w,
         IsZero (InboundEmailWebhook.Timestamp webhook) = true ->
         exists e,
           HandleInboundEmail W rt h ctx (inl webhook) w
           = (JSON StatusInternalServerError
                (ErrorResponse "Failed to process inbound email"
                   (Some (Wrapf "invalid inbound email webhook: %w" e))),
              snd (Now rt w))).
Proof.
  intros Hlocal. split; intros webhook w Hzero.
  - unfold HandleInboundSMS, bind, ret. rewrite Hzero. unfold bind, ret.
    specialize (Hlocal w). destruct (Now rt w) as [now w1]. cbn [fst snd] in *.
    cbn [messagingService handlerOf MessagingService_HandleInboundSMS].
    unfold service.HandleInboundSMS, bind, ret.
    assert (Hv : exists e,
               validateInboundSMSWebhook W rt
                 (Some (InboundSMSWebhook.mk (InboundSMSWebhook.From webhook)
                          (InboundSMSWebhook.To webhook)
                          (InboundSMSWebhook.Type_ webhook)
                          (InboundSMSWebhook.MessagingProviderID webhook)
                          (InboundSMSWebhook.Body webhook)
                          (InboundSMSWebhook.Attachments webhook) now)) w1
               = (Some e, w1)).
    { unfold validateInboundSMSWebhook, bind, ret.
      repeat match goal with
             | |- context [if ?b then _ else _] => destruct b; [eexists; reflexivity|]
             end.
      cbn [InboundSMSWebhook.Timestamp].
      rewrite (validateTimestamp_not_UTC now w1 Hlocal). eexists. reflexivity. }
    destruct Hv as [e Hv]. rewrite Hv. exists e. reflexivity.
  - unfold HandleInboundEmail, bind, ret. rewrite Hzero. unfold bind, ret.
    specialize (Hlocal w). destruct (Now rt w) as [now w1]. cbn [fst snd] in *.
    cbn [messagingService handlerOf MessagingService_HandleInboundEmail].
    unfold service.HandleInboundEmail, bind, ret.
    assert (Hv : exists e,
               validateInboundEmailWebhook W rt
                 (Some (InboundEmailWebhook.mk (InboundEmailWebhook.From webhook)
                          (InboundEmailWebhook.To webhook)
                          (InboundEmailWebhook.XillioID webhook)
                          (InboundEmailWebhook.Body webhook)
                          (InboundEmailWebhook.Attachments webhook) now)) w1
               = (Some e, w1)).
    { unfold validateInboundEmailWebhook, bind, ret.
      repeat match goal with
             | |- context [if ?b then _ else _] => destruct b; [eexists; reflexivity|]
             end.
      cbn [InboundEmailWebhook.Timestamp].
      rewrite (validateTimestamp_not_UTC now w1 Hlocal). eexists. reflexivity. }
    destruct Hv as [e Hv]. rewrite Hv. exists e. reflexivity.
Qed.

(** The query the handler hands to the service: a page of 1 to 100 and an
    offset that is not negative. *)
Lemma sanitized_bounds (query : ConversationQuery.t) (fromStr toStr : string) :
  let sent := sanitized Parse query fromStr toStr in
  1 <= ConversationQuery.Limit sent <= 100
  /\ 0 <= ConversationQuery.Offset sent
  /\ ConversationQuery.BusinessEmail sent = ConversationQuery.BusinessEmail query
  /\ ConversationQuery.BusinessPhone sent = ConversationQuery.BusinessPhone query
  /\ ConversationQuery.Search sent = ConversationQuery.Search query
  /\ ConversationQuery.MessageType sent = ConversationQuery.MessageType query
  /\ ConversationQuery.IncludeMessages sent = ConversationQuery.IncludeMessages query.
Proof.
  unfold sanitized.
  destruct (Z.ltb_spec 100 (ConversationQuery.Limit query)); cbv zeta;
    cbn [withLimit ConversationQuery.Limit ConversationQuery.Offset];
    match goal with
    | |- context [if ?a <=? 0 then _ else _] => destruct (Z.leb_spec a 0)
    end;
    cbn [withLimit ConversationQuery.Limit ConversationQuery.Offset];
    destruct (Z.ltb_spec (ConversationQuery.Offset query) 0);
    destruct (String.eqb fromStr ""), (String.eqb toStr ""); cbn [negb];
    repeat match goal with
           | |- context [match Parse ?l ?v with _ => _ end] => destruct (Parse l v)
           end;
    cbn; repeat split; lia.
Qed.

(** X27.  The listing endpoint: a query without any of the six filters is
    answered 400 and the world is left as it was; otherwise the service is
    called, with a limit between 1 and 100 and an offset that is not
    negative, and the world after the request is the one the service
    leaves; a listing answered 200 reports a page size between 1 and 100. *)
Theorem listing_is_filtered_and_bounded (bound : ConversationQuery.t + error)
        (fromStr toStr : string) (w : W) :
  let run := GetConversations W Parse h ctx bound fromStr toStr w in
  (forall query,
      bound = inl query -> noFilter query = true ->
      status (fst run) = StatusBadRequest /\ snd run = w)
  /\ (forall query,
         bound = inl query -> noFilter query = false ->
         let sent := sanitized Parse query fromStr toStr in
         1 <= ConversationQuery.Limit sent <= 100
         /\ 0 <= ConversationQuery.Offset sent
         /\ snd run = snd (service.GetConversations W c ctx sent w))
  /\ (forall response,
         fst run = JSON StatusOK (ConversationsResponse response) ->
         1 <= GetConversationsResponse.PerPage response <= 100).
Proof.
  intros run. subst run. split; [|split].
  - intros query -> Hnone. unfold GetConversations. rewrite Hnone. split; reflexivity.
  - intros query -> Hsome sent. subst sent.
    destruct (sanitized_bounds query fromStr toStr) as (Hl & Ho & _).
    split; [exact Hl|]. split; [exact Ho|].
    unfold GetConversations, bind, ret. rewrite Hsome.
    cbn [conversationService handlerOf ConversationService_GetConversations].
    now destruct (service.GetConversations W c ctx _ w) as [[response|err] w1].
  - intros response. unfold GetConversations, bind, ret.
    destruct bound as [query|err]; [|discriminate].
    destruct (noFilter query); [discriminate|].
    cbn [conversationService handlerOf ConversationService_GetConversations].
    destruct (sanitized_bounds query fromStr toStr) as (Hl & _).
    destruct (service.GetConversations W c ctx (sanitized Parse query fromStr toStr) w)
      as [[resp|err] w1] eqn:E; [|discriminate].
    intros [= <-].
    destruct (GetConversations_ok W c ctx _ _ _ _ E)
      as (listed & total & w2 & loaded & _ & -> & _).
    cbn [paginate GetConversationsResponse.PerPage withDefaults ConversationQuery.Limit].
    destruct (Z.leb_spec (ConversationQuery.Limit (sanitized Parse query fromStr toStr)) 0);
      lia.
Qed.

(** X28.  No handler answers 404: whatever the services answer, each of the
    six handlers answers 200, 400 or 500; when it answers 400 (a body, a
    query string or an id that could not be read, a listing without a
    filter) the world is as it was before the request: no service has
    changed anything. *)
Theorem handlers_answer_200_400_or_500 (any : MessagingHandler W) (w : W) :
  (forall bound, answered w (SendSMS W rt any ctx bound w))
  /\ (forall bound, answered w (SendEmail W rt any ctx bound w))
  /\ (forall bound, answered w (HandleInboundSMS W rt any ctx bound w))
  /\ (forall bound, answered w (HandleInboundEmail W rt any ctx bound w))
  /\ (forall bound fromStr toStr,
         answered w (GetConversations W Parse any ctx bound fromStr toStr w))
  /\ (forall idStr, answered w (GetConversationMessages W Atoi any ctx idStr w)).
Proof.
  assert (H400 : forall message err,
             answered w (sendErrorResponse StatusBadRequest message err, w)).
  { intros. split; [cbn; auto | reflexivity]. }
  assert (H500 : forall message err w',
             answered w (sendErrorResponse StatusInternalServerError message err, w')).
  { intros. split; [cbn; auto | cbn; discriminate]. }
  assert (H200 : forall body w', answered w (JSON StatusOK body, w')).
  { intros. split; [cbn; auto | cbn; discriminate]. }
  split; [|split; [|split; [|split; [|split]]]].
  - intros [req|err]; [|apply H400]. unfold SendSMS, bind, ret.
    destruct (IsZero _); [unfold bind, ret; destruct (Now rt w)|];
      destruct (MessagingService_SendSMS _ ctx _ _) as [[e|] w']; auto.
  - intros [req|err]; [|apply H400]. unfold SendEmail, bind, ret.
    destruct (IsZero _); [unfold bind, ret; destruct (Now rt w)|];
      destruct (MessagingService_SendEmail _ ctx _ _) as [[e|] w']; auto.
  - intros [req|err]; [|apply H400]. unfold HandleInboundSMS, bind, ret.
    destruct (IsZero _); [unfold bind, ret; destruct (Now rt w)|];
      destruct (MessagingService_HandleInboundSMS _ ctx _ _) as [[e|] w']; auto.
  - intros [req|err]; [|apply H400]. unfold HandleInboundEmail, bind, ret.
    destruct (IsZero _); [unfold bind, ret; destruct (Now rt w)|];
      destruct (MessagingService_HandleInboundEmail _ ctx _ _) as [[e|] w']; auto.
  - intros [query|err] fromStr toStr; [|apply H400]. unfold GetConversations, bind, ret.
    destruct (noFilter query); [apply H400|].
    destruct (ConversationService_GetConversations _ ctx _ w) as [[r|e] w']; auto.
  - intros idStr. unfold GetConversationMessages, bind, ret.
    destruct (Atoi idStr) as [id|err]; [|apply H400].
    destruct (ConversationService_GetConversationMessages _ ctx id w) as [[r|e] w']; auto.
Qed.

End OverTheServices.

(** *** Over the postgres repositories *)

Section OverPostgres.
Import postgres repository.
Variable env : Env.
Variable Parse : string -> string -> Time + error.
Variable Atoi : string -> Z + error.
Variable ctx : Context.

#[local] Abbreviation app :=
  (handlerOf (postgres.runtime env) (NewMessagingService env)
     (ConversationRepository_GetByID env) (NewConversationService env)).

(** X15.  The messages of a conversation that does not exist are answered
    500, not 404: when the id of the path is a number, no conversation has
    that id and the lookup succeeds, the handler answers 500 "Failed to get
    messages" with the cause "conversation not found"; one SQL statement was
    run, the table of messages was not queried, and no row is changed. *)
Theorem unknown_conversation_is_answered_500 (idStr : string) (id : Z) (w : World) :
  Atoi idStr = inl id ->
  find (fun c => Conversation.ID c =? id) (conversations w) = None ->
  dbFails env (statements w) = false ->
  let run := handler.GetConversationMessages World Atoi app ctx idStr w in
  fst run = JSON StatusInternalServerError
              (ErrorResponse "Failed to get messages"
                 (Some (Errorf "conversation not found: %d")))
  /\ statements (snd run) = S (statements w)
  /\ Orchestration.sameRows w (snd run).
Proof.
  intros Hid Hnone Hok run. subst run.
  unfold handler.GetConversationMessages, bind, ret. rewrite Hid.
  cbn [conversationService handlerOf ConversationService_GetConversationMessages].
  rewrite (RepositoryFacts.GetConversationMessages_unknown env ctx id w Hnone Hok).
  repeat split.
Qed.

(** X25.  The filter on the message type is accepted and ignored.  The
    statements [List] builds and their arguments are the same whatever the
    [message_type] of the query.  So a listing that only gives a message
    type passes the handler's check that a filter is given, and reaches the
    database without any condition: it counts and lists the conversations of
    every type. *)
Theorem message_type_is_ignored (query : ConversationQuery.t) :
  (forall messageType,
      ListQuery.countQuery (ListQuery.withMessageType query messageType)
      = ListQuery.countQuery query
      /\ ListQuery.baseQuery (ListQuery.withMessageType query messageType)
         = ListQuery.baseQuery query)
  /\ (ConversationQuery.BusinessEmail query = "" ->
      ConversationQuery.BusinessPhone query = "" ->
      ConversationQuery.Search query = "" ->
      IsZero (ConversationQuery.From query) = true ->
      IsZero (ConversationQuery.To query) = true ->
      ConversationQuery.MessageType query <> "" ->
      let sent := withDefaults (sanitized Parse query "" "") in
      noFilter query = false
      /\ ConversationQuery.MessageType sent = ConversationQuery.MessageType query
      /\ ListQuery.countQuery sent = (ListQuery.countSelect, [])).
Proof.
  split.
  - intros messageType. split; reflexivity.
  - intros He Hp Hs Hf Ht Hm sent. subst sent. split; [|split].
    + unfold noFilter. rewrite He, Hp, Hs, Hf, Ht. cbn.
      now apply String.eqb_neq.
    + unfold sanitized. cbn [String.eqb negb]. cbv zeta.
      repeat match goal with
             | |- context [if ?b then _ else _] => destruct b
             end; reflexivity.
    + unfold ListQuery.countQuery, ListQuery.filters, sanitized.
      cbn [String.eqb negb]. cbv zeta.
      repeat match goal with
             | |- context [if ?a <? ?b then _ else _] => destruct (a <? b)
             | |- context [if ?a <=? ?b then _ else _] => destruct (a <=? b)
             end;
        cbn [withDefaults withLimit withOffset ConversationQuery.From ConversationQuery.To
               ConversationQuery.Search ConversationQuery.BusinessEmail
               ConversationQuery.BusinessPhone];
        rewrite He, Hp, Hs, Hf, Ht; reflexivity.
Qed.

End OverPostgres.

End HandlerFacts.

(** ** The configuration *)

Module ConfigFacts.
Import GoTime domain config.
Local Open Scope list_scope.
Local Open Scope Z_scope.
Local Open Scope string_scope.

Section Environment.
Variable Getenv : string -> string.
Variable Atoi : string -> Z + error.
Variable ParseDuration : string -> Duration + error.

Lemma getEnv_not_empty (key defaultValue : string) :
  defaultValue <> "" -> getEnv Getenv key defaultValue <> "".
Proof.
  intros Hd. unfold getEnv. cbv zeta.
  destruct (String.eqb_spec (Getenv key) ""); cbn [negb]; assumption.
Qed.

(** X29.  [Load] can only fail on a number.  An empty value counts as a
    value that is not set, so the port, the host, the name and the user of
    a loaded configuration are never empty and the four complaints of
    [validate] about an empty field cannot come out of [Load]: its error,
    if any, is one of the six complaints about a timeout or a pool size
    that is not positive.  A number or a duration that does not parse
    counts as not set too: when none of the six numeric variables holds a
    value that parses, [Load] succeeds, with the defaults for them. *)
Theorem Load_fails_only_on_a_number :
  (forall c,
      Load Getenv Atoi ParseDuration = inl c ->
      c = fromEnvironment Getenv Atoi ParseDuration
      /\ validate c = None
      /\ ServerConfig.Port (Config.Server c) <> ""
      /\ DatabaseConfig.Host (Config.Database c) <> ""
      /\ DatabaseConfig.Name (Config.Database c) <> ""
      /\ DatabaseConfig.User (Config.Database c) <> "")
  /\ (forall err,
         Load Getenv Atoi ParseDuration = inr err ->
         exists complaint,
           err = Wrapf "invalid configuration: %w" (Errorf complaint)
           /\ In complaint numberComplaints)
  /\ ((forall key, In key numberKeys ->
                   Getenv key = ""
                   \/ (exists e, Atoi (Getenv key) = inr e)
                      /\ (exists e, ParseDuration (Getenv key) = inr e)) ->
      exists c,
        Load Getenv Atoi ParseDuration = inl c
        /\ ServerConfig.ReadTimeout (Config.Server c) = 30 * Second
        /\ ServerConfig.WriteTimeout (Config.Server c) = 30 * Second
        /\ ServerConfig.IdleTimeout (Config.Server c) = 60 * Second
        /\ DatabaseConfig.MaxOpenConns (Config.Database c) = 25
        /\ DatabaseConfig.MaxIdleConns (Config.Database c) = 25
        /\ DatabaseConfig.ConnMaxLifetime (Config.Database c) = 5 * Minute).
Proof.
  assert (Hport : getEnv Getenv "PORT" "8080" <> "")
    by (apply getEnv_not_empty; discriminate).
  assert (Hhost : getEnv Getenv "DB_HOST" "localhost" <> "")
    by (apply getEnv_not_empty; discriminate).
  assert (Hname : getEnv Getenv "DB_NAME" "messaging_service" <> "")
    by (apply getEnv_not_empty; discriminate).
  assert (Huser : getEnv Getenv "DB_USER" "messaging_user" <> "")
    by (apply getEnv_not_empty; discriminate).
  assert (Hstrings :
            forall rest,
              (if String.eqb (getEnv Getenv "PORT" "8080") "" then
                 Some (Errorf "server port cannot be empty")
               else if String.eqb (getEnv Getenv "DB_HOST" "localhost") "" then
                 Some (Errorf "database host cannot be empty")
               else if String.eqb (getEnv Getenv "DB_NAME" "messaging_service") "" then
                 Some (Errorf "database name cannot be empty")
               else if String.eqb (getEnv Getenv "DB_USER" "messaging_user") "" then
                 Some (Errorf "database user cannot be empty")
               else rest) = rest).
  { intros rest.
    apply String.eqb_neq in Hport, Hhost, Hname, Huser.
    now rewrite Hport, Hhost, Hname, Huser. }
  split; [|split].
  - unfold Load. cbv zeta. intros c.
    destruct (validate (fromEnvironment Getenv Atoi ParseDuration)) eqn:E; [discriminate|].
    intros [= <-]. repeat split; assumption.
  - unfold Load. cbv zeta. intros err.
    destruct (validate (fromEnvironment Getenv Atoi ParseDuration)) as [e|] eqn:E;
      [|discriminate].
    intros [= <-]. revert E. unfold validate, fromEnvironment.
    cbn [Config.Server Config.Database ServerConfig.Port DatabaseConfig.Host
           DatabaseConfig.Name DatabaseConfig.User ServerConfig.ReadTimeout
           ServerConfig.WriteTimeout ServerConfig.IdleTimeout
           DatabaseConfig.MaxOpenConns DatabaseConfig.MaxIdleConns
           DatabaseConfig.ConnMaxLifetime].
    rewrite Hstrings. unfold numberComplaints.
    repeat match goal with
           | |- context [if ?b then _ else _] => destruct b
           end; intros [= <-]; eexists; (split; [reflexivity|]); cbn; auto 10.
  - intros Hunset.
    assert (Hd : forall key d, In key numberKeys ->
                               getEnvAsDuration Getenv ParseDuration key d = d).
    { intros key d Hk. unfold getEnvAsDuration. cbv zeta.
      destruct (Hunset key Hk) as [-> | [_ [e ->]]]; reflexivity || 
        now destruct (negb _). }
    assert (Hi : forall key d, In key numberKeys -> getEnvAsInt Getenv Atoi key d = d).
    { intros key d Hk. unfold getEnvAsInt. cbv zeta.
      destruct (Hunset key Hk) as [-> | [[e ->] _]]; reflexivity || 
        now destruct (negb _). }
    exists (fromEnvironment Getenv Atoi ParseDuration).
    unfold Load, validate, fromEnvironment.
    cbn [Config.Server Config.Database ServerConfig.Port DatabaseConfig.Host
           DatabaseConfig.Name DatabaseConfig.User ServerConfig.ReadTimeout
           ServerConfig.WriteTimeout ServerConfig.IdleTimeout
           DatabaseConfig.MaxOpenConns DatabaseConfig.MaxIdleConns
           DatabaseConfig.ConnMaxLifetime].
    cbv zeta. rewrite Hstrings.
    rewrite !Hd, !Hi by (unfold numberKeys; cbn; auto 10).
    repeat split.
Qed.

End Environment.

End ConfigFacts.

(** ** The properties at work on the scenarios *)

Module Witnesses.
Import GoTime domain ports service RetrySpec Orchestration postgres Scenario.
Local Open Scope string_scope.
Local Open Scope Z_scope.

Lemma calm_healthy : healthy calm.
Proof. intros k. reflexivity. Defined.

(** The webhook of the unit test, delivered twice to an empty store. *)
Lemma inbound_replay_is_idempotent_witness :
  let handle := HandleInboundSMS World (runtime calm) (NewMessagingService calm)
                  Background in
  let w1 := snd (handle (Some inboundSMS) emptyWorld) in
  let w2 := snd (handle (Some inboundSMS) w1) in
  healthy calm
  /\ fst (handle (Some inboundSMS) emptyWorld) = None
  /\ fst (handle (Some inboundSMS) w1) = None
  /\ List.length (filter (hasProviderID "message-1") (messages w2)) = 1%nat.
Proof.
  intros handle w1 w2.
  destruct (proj1 (PostgresFacts.inbound_replay_is_idempotent
                     calm DefaultRetryConfig Background calm_healthy)
                  inboundSMS inboundSMS emptyWorld eq_refl eq_refl eq_refl eq_refl)
    as (H1 & H2 & _ & _ & _ & H3).
  exact (conj calm_healthy (conj H1 (conj H2 H3))).
Defined.

(** The SMS of the specification's scenario, sent through a provider that
    answers 500 four times: an error and no row; sent through a provider
    that works: one [pending] message. *)
Lemma send_persists_on_success_only_witness :
  let failing := SendSMS World (runtime always500) (NewMessagingService always500)
                   Background (Some outboundSMS) emptyWorld in
  let working := SendSMS World (runtime calm) (NewMessagingService calm)
                   Background (Some outboundSMS) emptyWorld in
  (fst failing <> None /\ sameRows emptyWorld (snd failing))
  /\ (exists m, messages (snd working) = [m] /\ Message.Status m = "pending").
Proof.
  intros failing working. split.
  - destruct (proj1 (PostgresFacts.send_persists_on_success_only
                       always500 DefaultRetryConfig Background)
                    (Some outboundSMS) emptyWorld) as (_ & H & _).
    apply (H outboundSMS eq_refl eq_refl). vm_compute. discriminate.
  - destruct (proj1 (PostgresFacts.send_persists_on_success_only
                       calm DefaultRetryConfig Background)
                    (Some outboundSMS) emptyWorld) as (_ & _ & H).
    destruct (H eq_refl) as [Hm _]. exact Hm.
Defined.

(** A provider that always answers 500, under the default policy of 3
    retries: 4 calls. *)
Lemma retryWithBackoff_attempts_witness :
  let run := retryWithBackoff World (runtime always500) (NewMessagingService always500)
               Background (smsCall always500) emptyWorld in
  fst run = Some error500 /\ Z.of_nat (smsCalls (snd run)) = 4.
Proof.
  intros run.
  destruct (retryWithBackoff_attempts World (runtime always500)
              (NewMessagingService always500) Background (smsCall always500)
              smsCalls sleeps (smsReply always500)
              (fun w => eq_refl) (fun w => eq_refl) (fun w => eq_refl)
              (fun d w => eq_refl) (fun d w => eq_refl) (fun d w => eq_refl)
              emptyWorld ltac:(cbn; lia)) as (_ & H & _).
  destruct H as (_ & H1 & H2).
  - intros i _. exists error500. split; reflexivity.
  - exact (conj H1 H2).
Defined.

(** Failures 500, 429 (retry after 30 s) and 500 under the default policy:
    the waits are 1 s, 30 s and 4 s. *)
Lemma retryWithBackoff_delays_witness :
  sleeps (snd (retryWithBackoff World (runtime flaky) (NewMessagingService flaky)
                 Background (smsCall flaky) emptyWorld))
  = [1 * Second; 30 * Second; 4 * Second].
Proof.
  refine (retryWithBackoff_delays World (runtime flaky) (NewMessagingService flaky)
            Background (smsCall flaky) smsCalls sleeps (smsReply flaky)
            (fun w => eq_refl) (fun w => eq_refl) (fun w => eq_refl)
            (fun d w => eq_refl) (fun d w => eq_refl) (fun d w => eq_refl)
            3 emptyWorld _ _ _ _).
  - intros i Hi.
    destruct i as [|[|[|i]]]; [| | | lia]; eexists; split; reflexivity.
  - cbn. lia.
  - exact I.
  - intros i Hi. unfold delayInRange, inInt64, minInt64, maxInt64.
    destruct i as [|[|[|i]]]; [| | | lia]; cbn; lia.
Defined.

(** A timestamp exactly 5 minutes after the clock reading is accepted. *)
Lemma validateTimestamp_policy_witness :
  fst (validateTimestamp World (runtime calm) (Add noon (5 * Minute)) emptyWorld)
  = None.
Proof.
  refine (proj2 (proj2 (validateTimestamp_policy World (runtime calm)
                          (Add noon (5 * Minute)) emptyWorld _ _)) _ _ _).
  - unfold wellFormed. cbn. lia.
  - unfold wellFormed. cbn. lia.
  - reflexivity.
  - reflexivity.
  - vm_compute. discriminate.
Defined.

(** Limit 1, offset 0, two conversations: page 1 and more to come. *)
Lemma GetConversations_pagination_witness :
  exists resp,
    fst (GetConversations World (queries twoConversations) Background listFirstPage
           emptyWorld) = inl resp
    /\ GetConversationsResponse.Page resp = 1
    /\ GetConversationsResponse.PerPage resp = 1
    /\ GetConversationsResponse.HasMore resp = true.
Proof.
  destruct (GetConversations World (queries twoConversations) Background listFirstPage
              emptyWorld) as [[resp | err] w'] eqn:E; [|vm_compute in E; discriminate].
  exists resp. split; [reflexivity|].
  destruct (GetConversations_pagination World (queries twoConversations) Background
              listFirstPage resp emptyWorld w' E)
    as (_ & _ & _ & _ & Hlist & Hpage & Hper & Hmore).
  - unfold inInt64, minInt64, maxInt64. cbn. lia.
  - unfold inInt64, minInt64, maxInt64. cbn. lia.
  - unfold maxInt64. cbn. lia.
  - destruct Hlist as (cs & w1 & Hlist).
    assert (Hc : fst (ports.List (cs_conversationRepo (queries twoConversations)) Background
                        (withDefaults listFirstPage) emptyWorld)
                 = inl ([firstOfTwo], 2)) by reflexivity.
    rewrite Hlist in Hc. cbn [fst] in Hc. injection Hc as _ Htotal.
    rewrite Hpage, Hper, Hmore, Htotal. repeat split.
Defined.

(** The webhook of the unit test, replayed while the lookup fails: the
    replay returns success and the store holds two messages with the same
    provider id. *)
Lemma lookup_error_skips_suppression_witness :
  let handle := HandleInboundSMS World (runtime lookupDown)
                  (NewMessagingService lookupDown) Background in
  let w1 := snd (handle (Some inboundSMS) emptyWorld) in
  let w2 := snd (handle (Some inboundSMS) w1) in
  fst (handle (Some inboundSMS) w1) = None
  /\ List.length (withProviderID "message-1" w1) = 1%nat
  /\ List.length (withProviderID "message-1" w2) = 2%nat.
Proof.
  intros handle w1 w2.
  destruct (proj2 (proj1 (PostgresFacts.lookup_error_skips_suppression
                            lookupDown DefaultRetryConfig Background))
                  inboundSMS w1 eq_refl eq_refl)
    as (H1 & _ & H2).
  - intros k Hk. unfold lookupDown. cbn.
    apply Nat.eqb_neq. vm_compute in Hk. lia.
  - split; [exact H1|]. split; [reflexivity | exact H2].
Defined.

End Witnesses.

(** ** Where the claims, taken without their side conditions, fail *)

Module Counterexamples.
Import GoTime domain ports service RetrySpec Orchestration postgres Scenario.
Local Open Scope string_scope.
Local Open Scope Z_scope.

(** C4, as stated for every valid webhook, fails when the lookup of the
    replay ends in an error: the webhook of the unit test, valid both times,
    is stored twice. *)
Lemma replay_stored_twice_counterexample :
  let handle := HandleInboundSMS World (runtime lookupDown)
                  (NewMessagingService lookupDown) Background in
  let validate := validateInboundSMSWebhook World (runtime lookupDown) in
  let w1 := snd (handle (Some inboundSMS) emptyWorld) in
  let w2 := snd (handle (Some inboundSMS) w1) in
  fst (validate (Some inboundSMS) emptyWorld) = None
  /\ fst (validate (Some inboundSMS) w1) = None
  /\ fst (handle (Some inboundSMS) emptyWorld) = None
  /\ fst (handle (Some inboundSMS) w1) = None
  /\ List.length (withProviderID "message-1" w2) = 2%nat
  /\ ~ replayIdempotent handle validate InboundSMSWebhook.MessagingProviderID.
Proof.
  repeat split.
  intros H.
  destruct (H inboundSMS inboundSMS emptyWorld eq_refl eq_refl eq_refl eq_refl)
    as (_ & _ & _ & _ & _ & Hone).
  vm_compute in Hone. discriminate.
Qed.

(** C6, as stated for every run, fails when the context is cancelled during
    a wait and when [MaxRetries] is negative.  Under the default policy (3
    retries) with a provider that always answers 500 and a context that is
    done at the first wait, the operation is invoked once, not 4 times, and
    the result is the context's error, not the last error of the provider.
    With [MaxRetries = -1] and a provider that always answers 400 the
    operation is not invoked at all, not once, and the result is not the
    provider's error. *)
Lemma retry_cut_short_counterexample :
  let stopped := retryWithBackoff World (runtime always500)
                   (NewMessagingService always500) cancelled (smsCall always500)
                   emptyWorld in
  let skipped := retryWithBackoff World (runtime always400)
                   (NewMessagingServiceWithConfig always400 noAttempt) Background
                   (smsCall always400) emptyWorld in
  (forall n, smsReply always500 n = Some error500)
  /\ IsRetryableError error500 = true
  /\ MaxRetries (retryConfig (NewMessagingService always500)) = 3
  /\ smsCalls (snd stopped) = 1%nat
  /\ fst stopped = Some (Opaque "context canceled")
  /\ (forall n, smsReply always400 n = Some error400)
  /\ IsRetryableError error400 = false
  /\ smsCalls (snd skipped) = 0%nat
  /\ fst skipped = Some (Errorf "max retries exceeded").
Proof. repeat split. Qed.

(** C7, as stated for every retry, fails when a product overflows.  Under
    the default policy (one minute at most) a 429 that asks to retry after
    9223372037 seconds is followed by a wait of -9223372036709551616
    nanoseconds, that is by no wait, where the claim has one minute. *)
Lemma delay_overflows_counterexample :
  let run := retryWithBackoff World (runtime patient) (NewMessagingService patient)
               Background (smsCall patient) emptyWorld in
  smsReply patient 0 = Some error429Huge
  /\ fst run = None
  /\ sleeps (snd run) = [-9223372036709551616]
  /\ claimedDelay DefaultRetryConfig 0 error429Huge = 1 * Minute
  /\ sleeps (snd run) <> [claimedDelay DefaultRetryConfig 0 error429Huge].
Proof. repeat split. vm_compute. discriminate. Qed.

(** C9, as stated for every query, fails when the sum of offset and limit
    overflows.  With limit 1, the largest offset an [int] can hold and two
    matching conversations, the response has page -9223372036854775808, where
    [floor(offset / limit) + 1] is 9223372036854775808, and [hasMore] true,
    where [offset + limit < total] is false. *)
Lemma pagination_overflows_counterexample :
  exists resp,
    fst (GetConversations World (queries pastTheEnd) Background listFromMaxOffset
           emptyWorld) = inl resp
    /\ GetConversationsResponse.Total resp = 2
    /\ GetConversationsResponse.PerPage resp = 1
    /\ GetConversationsResponse.Page resp = minInt64
    /\ GetConversationsResponse.Page resp <> maxInt64 / 1 + 1
    /\ GetConversationsResponse.HasMore resp = true
    /\ (maxInt64 + 1 <? 2) = false.
Proof.
  eexists. split; [reflexivity|]. repeat split. vm_compute. discriminate.
Qed.

End Counterexamples.

(** ** The properties of the store, the repositories, the providers and the
    handlers at work on the scenarios *)

Module CaseStudies.
Import GoTime domain ports service Orchestration postgres Scenario Store Cases.
Local Open Scope string_scope.
Local Open Scope list_scope.
Local Open Scope Z_scope.

Lemma calm_healthyFrom (n : nat) : healthyFrom calm n.
Proof. intros k _. reflexivity. Defined.

(** A policy of -1 retries: the SMS of the scenario is not sent. *)
Lemma negative_MaxRetries_disables_sending_witness :
  MaxRetries noAttempt < 0
  /\ SendSMS World (runtime calm) (NewMessagingServiceWithConfig calm noAttempt)
       Background (Some outboundSMS) emptyWorld
     = (Some (Wrapf "failed to send message through provider: %w"
                (Errorf "max retries exceeded")),
        snd (validateSMSRequest World (runtime calm) (Some outboundSMS) emptyWorld)).
Proof.
  assert (H : MaxRetries noAttempt < 0) by (cbn; lia).
  split; [exact H|].
  apply (proj1 (proj2 (RetryFacts.negative_MaxRetries_disables_sending
                         World (runtime calm)
                         (NewMessagingServiceWithConfig calm noAttempt)
                         Background H))).
  reflexivity.
Defined.

(** The provider answers 500 and the context is done during the first wait,
    of one second: one call, one wait, the error of the context. *)
Lemma cancellation_stops_retries_witness :
  let svc := NewMessagingServiceWithConfig always500 DefaultRetryConfig in
  let run := sendSMSMessageWithRetry World (runtime always500) svc cancelled
               outboundSMS emptyWorld in
  0 < backoffDelay World svc 0 error500
  /\ fst run = Some (Opaque "context canceled")
  /\ smsCalls (snd run) = 1%nat
  /\ sleeps (snd run) = [1 * Second].
Proof.
  intros svc run.
  assert (Hdelay : 0 < backoffDelay World svc 0 error500) by reflexivity.
  destruct (RetryFacts.cancellation_stops_retries always500 DefaultRetryConfig
              cancelled outboundSMS emptyWorld error500 (Opaque "context canceled")
              (or_introl eq_refl) eq_refl eq_refl ltac:(cbn; lia) Hdelay eq_refl)
    as (H1 & H2 & H3 & _).
  exact (conj Hdelay (conj H1 (conj H2 H3))).
Defined.

(** The SMS of the scenario and its reply are stored in one conversation. *)
Lemma conversation_grouping_witness :
  let create := createMessageRecord World (runtime calm)
                  (NewMessagingServiceWithConfig calm DefaultRetryConfig) Background in
  let first := create (smsOutbound outboundSMS) emptyWorld in
  let second := create (smsRecord reply) (snd first) in
  sameParties (smsOutbound outboundSMS) (smsRecord reply)
  /\ exists row1 row2,
      messages (snd second) = [row1; row2]
      /\ Message.ConversationID row1 = Message.ConversationID row2
      /\ conversations (snd second) = conversations (snd first).
Proof.
  intros create first second.
  assert (H : sameParties (smsOutbound outboundSMS) (smsRecord reply))
    by (right; split; reflexivity).
  split; [exact H|].
  destruct (StoreFacts.conversation_grouping calm DefaultRetryConfig Background
              (smsOutbound outboundSMS) (smsRecord reply) emptyWorld
              (calm_healthyFrom 0) H)
    as (_ & _ & row1 & row2 & H1 & _ & _ & H2 & H3 & _).
  exists row1, row2. exact (conj H1 (conj H2 H3)).
Defined.

(** The SMS of the scenario, stored in an empty store, refers to the one
    conversation there is. *)
Lemma stored_message_has_its_conversation_witness :
  let created := createMessageRecord World (runtime calm)
                   (NewMessagingServiceWithConfig calm DefaultRetryConfig) Background
                   (smsOutbound outboundSMS) emptyWorld in
  fst created = None
  /\ exists conv row,
      messages (snd created) = [row]
      /\ In conv (conversations (snd created))
      /\ Message.ConversationID row = Conversation.ID conv.
Proof.
  intros created.
  assert (H : fst created = None) by reflexivity.
  split; [exact H|].
  destruct (StoreFacts.stored_message_has_its_conversation calm DefaultRetryConfig
              Background (smsOutbound outboundSMS) emptyWorld H)
    as (conv & row & H1 & _ & H2 & H3 & _).
  exists conv, row. exact (conj H1 (conj H2 H3)).
Defined.

Lemma uniquePairs_empty : uniquePairs emptyWorld.
Proof. intros [|i] j c d H; discriminate H. Defined.

(** From an empty store, the SMS of the scenario leaves a store without two
    conversations of the same pair. *)
Lemma one_conversation_per_pair_witness :
  uniquePairs emptyWorld
  /\ uniquePairs
       (snd (createMessageRecord World (runtime calm)
               (NewMessagingServiceWithConfig calm DefaultRetryConfig) Background
               (smsOutbound outboundSMS) emptyWorld)).
Proof.
  split; [exact uniquePairs_empty|].
  exact (proj2 (StoreFacts.one_conversation_per_pair calm DefaultRetryConfig Background
                  emptyWorld uniquePairs_empty) (smsOutbound outboundSMS)).
Defined.


(** The database is down: the SMS of the scenario is sent and not stored. *)
Lemma sent_but_not_stored_witness :
  let result := SendSMS World (runtime dbDown)
                  (NewMessagingServiceWithConfig dbDown DefaultRetryConfig) Background
                  (Some outboundSMS) emptyWorld in
  dbFails dbDown (statements emptyWorld) = true
  /\ fst result <> None
  /\ sameRows emptyWorld (snd result)
  /\ (smsCalls emptyWorld < smsCalls (snd result))%nat.
Proof.
  intros result.
  destruct (proj1 (StoreFacts.sent_but_not_stored dbDown DefaultRetryConfig Background
                     emptyWorld eq_refl)
                  outboundSMS eq_refl eq_refl)
    as (H1 & H2 & H3 & _).
  exact (conj eq_refl (conj H1 (conj H2 H3))).
Defined.

(** The insert of the message fails: its conversation stays. *)
Lemma conversation_without_message_witness :
  let created := createMessageRecord World (runtime insertDown)
                   (NewMessagingServiceWithConfig insertDown DefaultRetryConfig)
                   Background (smsOutbound outboundSMS) emptyWorld in
  fst created <> None
  /\ messages (snd created) = []
  /\ exists conv, conversations (snd created) = [conv].
Proof.
  intros created.
  destruct (StoreFacts.conversation_without_message insertDown DefaultRetryConfig
              Background (smsOutbound outboundSMS) emptyWorld
              eq_refl eq_refl eq_refl eq_refl)
    as (H1 & H2 & conv & H3 & _).
  split; [exact H1|]. split; [exact H2|]. exists conv. exact H3.
Defined.

(** Two listings that differ in the phone number only run the same text. *)
Lemma list_statements_depend_on_shape_witness :
  ListQuery.shape listFirstPage = ListQuery.shape listOtherPhone
  /\ fst (ListQuery.baseQuery listFirstPage) = fst (ListQuery.baseQuery listOtherPhone).
Proof.
  assert (H : ListQuery.shape listFirstPage = ListQuery.shape listOtherPhone)
    by reflexivity.
  split; [exact H|].
  exact (proj2 (ListQueryFacts.list_statements_depend_on_shape
                  listFirstPage listOtherPhone H)).
Defined.

(** The pending message is updated to [delivered]; a message with an id that
    is not stored changes nothing. *)
Lemma Update_changes_the_status_only_witness :
  let w1 := snd (repository.MessageRepository_Update calm Background delivered
                   onePending) in
  fst (repository.MessageRepository_Update calm Background delivered onePending) = None
  /\ conversations w1 = conversations onePending
  /\ exists row,
      fst (repository.MessageRepository_GetByID calm Background 1 w1) = (Some row, None)
      /\ Message.Status row = "delivered".
Proof.
  intros w1.
  destruct (RepositoryFacts.Update_changes_the_status_only calm Background delivered
              onePending eq_refl)
    as (H1 & H2 & _ & _ & H3).
  split; [exact H1|]. split; [exact H2|].
  destruct (H3 _ eq_refl eq_refl) as (row & H4 & H5 & _).
  exists row. exact (conj H4 H5).
Defined.

(** The messages of the one conversation of the store. *)
Lemma GetConversationMessages_answers_witness :
  exists answered,
    fst (conversations.GetConversationMessages World
           (repository.ConversationRepository_GetByID calm)
           (repository.NewConversationService calm) Background 1 onePending)
    = inl answered
    /\ repository.oldestFirst answered
    /\ Forall (fun m => Message.ConversationID m = 1) answered.
Proof.
  destruct (RepositoryFacts.GetConversationMessages_answers calm Background 1
              firstOfTwo onePending eq_refl eq_refl eq_refl)
    as (answered & H1 & _ & H2 & H3).
  exists answered. exact (conj H1 (conj H2 H3)).
Defined.

(** A listing with the messages: the count, the page and one more statement
    for the one conversation listed. *)
Lemma GetConversations_loads_messages_witness :
  let run := GetConversations World (repository.NewConversationService twoConversations)
               Background listWithMessages emptyWorld in
  exists response,
    fst run = inl response
    /\ GetConversationsResponse.Total response = 2
    /\ statements (snd run) = 3%nat.
Proof.
  intros run.
  destruct (RepositoryFacts.GetConversations_loads_messages twoConversations Background
              listWithMessages emptyWorld (fun k _ => eq_refl))
    as (response & H1 & H2 & _ & H3).
  exists response. exact (conj H1 (conj H2 H3)).
Defined.

(** The mock that answers 429, under the default policy: three waits of 30
    seconds, then the error. *)
Lemma mock_failure_modes_witness :
  let run := sendSMSMessageWithRetry container.World (container.runtime calm)
               (container.MessagingServiceWithConfig calm DefaultRetryConfig)
               Background outboundSMS throttled in
  fst run = Some (ProviderErr (mkProviderError 429 "Too many requests" 30))
  /\ postgres.sleeps (container.DB (snd run))
     = [30 * Second; 30 * Second; 30 * Second].
Proof.
  intros run.
  destruct (ContainerFacts.mock_failure_modes calm DefaultRetryConfig outboundSMS
              throttled eq_refl ltac:(cbn; lia) (or_introl eq_refl))
    as (_ & _ & _ & H & _).
  exact (H eq_refl).
Defined.


(** An email through the application started with SendGrid: one line is
    printed. *)
Lemma email_provider_is_chosen_by_name_witness :
  let run := sendEmailMessageWithRetry container.World (container.runtime calm)
               (container.MessagingServiceWithConfig calm DefaultRetryConfig)
               Background outboundEmail startedWithSendGrid in
  fst run = None
  /\ container.EmailProvider (snd run)
     = provider.SendGrid (provider.NewSendGridEmailProvider "key-1")
  /\ container.stdout (snd run)
     = [("SendGrid: Sending email from user@usehatchapp.com to contact@gmail.com"
         ++ String (ascii_of_nat 10) "")%string].
Proof.
  intros run.
  destruct (ContainerFacts.email_provider_is_chosen_by_name calm DefaultRetryConfig
              Background "sendgrid" [("api_key", "key-1")] outboundEmail
              startedWithSendGrid eq_refl ltac:(cbn; lia))
    as (H1 & _ & _ & H & _).
  destruct (H eq_refl) as (H2 & _ & H3).
  exact (conj H1 (conj H2 H3)).
Defined.

Lemma serverClock_local (w : World) : loc (fst (Now (runtime serverClock) w)) <> UTC.
Proof. discriminate. Defined.

(** A webhook without a timestamp, on a server: 500. *)
Lemma webhook_without_timestamp_is_rejected_witness :
  exists e,
    handler.HandleInboundSMS World (runtime serverClock)
      (handler.handlerOf (runtime serverClock) (NewMessagingService serverClock)
         (repository.ConversationRepository_GetByID serverClock)
         (repository.NewConversationService serverClock))
      Background (inl undated) emptyWorld
    = (handler.JSON handler.StatusInternalServerError
         (handler.ErrorResponse "Failed to process inbound SMS"
            (Some (Wrapf "invalid inbound SMS webhook: %w" e))),
       snd (Now (runtime serverClock) emptyWorld)).
Proof.
  exact (proj1 (HandlerFacts.webhook_without_timestamp_is_rejected World
                  (runtime serverClock) (NewMessagingService serverClock)
                  (repository.ConversationRepository_GetByID serverClock)
                  (repository.NewConversationService serverClock) Background
                  serverClock_local)
               undated emptyWorld eq_refl).
Defined.

(** The messages of conversation 7 of an empty store: 500. *)
Lemma unknown_conversation_is_answered_500_witness :
  let run := handler.GetConversationMessages World atoi
               (handler.handlerOf (runtime calm) (NewMessagingService calm)
                  (repository.ConversationRepository_GetByID calm)
                  (repository.NewConversationService calm))
               Background "7" emptyWorld in
  fst run = handler.JSON handler.StatusInternalServerError
              (handler.ErrorResponse "Failed to get messages"
                 (Some (Errorf "conversation not found: %d")))
  /\ statements (snd run) = 1%nat.
Proof.
  intros run.
  destruct (HandlerFacts.unknown_conversation_is_answered_500 calm atoi Background
              "7" 7 emptyWorld eq_refl eq_refl eq_refl)
    as (H1 & H2 & _).
  exact (conj H1 H2).
Defined.

End CaseStudies.
